(** * The training launcher [scripts/train.py], embedded and verified

    The script is a straight-line program: it reads the parsed command
    line and the experiment configuration, selects a dataset and a
    network, derives the run directory, writes provenance files, selects
    the loss, compiles the network and starts the fit loop.

    The embedding keeps that shape.  Python values are Rocq values, a
    name that the script may leave unbound is an [option], the file
    system is a finite map, and every statement that can raise or that
    touches the outside world lives in a small state-and-exception monad
    whose state survives a raise (what was written before an exception
    stays written).  The collaborator modules ([models], [losses],
    [data_generator], Keras) are opaque to the script: their results are
    symbolic terms recording which function was called on which
    arguments. *)

From Stdlib Require Import ZArith Lia Ascii String.
From stdpp Require Import base option list strings pretty gmap.

Local Open Scope Z_scope.

(** ** Python exceptions raised by the script or by the runtime under it *)

Inductive exn :=
  | ValueError (msg : string)
  | NameError (name : string)
  | IndexError (msg : string)
  | ZeroDivisionError (msg : string)
  | OverflowError (msg : string)
  | FileExistsError
  | FileNotFoundError
  | NotADirectoryError
  | IsADirectoryError
  | SameFileError (src dst : string).

(** ** [int / int] and [int(float)]

    Line 197 computes [int(img_train.shape[0] / exp_config.batch_size)].
    In Python 3 the [/] of two integers is true division: the result is
    the binary64 number nearest to the exact quotient (ties to even),
    and [int] then truncates toward zero.  A finite binary64 value is
    kept as the pair of an integer significand and a binary exponent. *)

Module PyFloat.

(** [Float m e] denotes [m * 2^e]. *)
Inductive float := Float (m e : Z).

(** Nearest integer to [n / d] for [0 <= n] and [0 < d], ties to even. *)
Definition div_rne (n d : Z) : Z :=
  let q := n / d in
  let r := n mod d in
  if 2 * r <? d then q
  else if d <? 2 * r then q + 1
  else if Z.even q then q else q + 1.

(** [floor (log2 (a / b))] for positive [a] and [b]. *)
Definition floor_log2_ratio (a b : Z) : Z :=
  let t := Z.log2 a - Z.log2 b in
  if b * 2 ^ Z.max t 0 <=? a * 2 ^ Z.max (- t) 0 then t else t - 1.

(** Correctly rounded quotient of two positive integers: 53 bits of
    significand, exponent never below the subnormal exponent -1074,
    [OverflowError] from 2^1024 on. *)
Definition truediv_pos (a b : Z) : exn + (Z * Z) :=
  let e := Z.max (floor_log2_ratio a b - 52) (-1074) in
  let m := div_rne (a * 2 ^ Z.max (- e) 0) (b * 2 ^ Z.max e 0) in
  if (971 <? e) || ((e =? 971) && (2 ^ 53 <=? m))
  then inl (OverflowError "integer division result too large for a float")
  else inr (m, e).

(** [a / b] on Python integers. *)
Definition truediv (a b : Z) : exn + float :=
  if b =? 0 then inl (ZeroDivisionError "division by zero")
  else if a =? 0 then inr (Float 0 0)
  else
    match truediv_pos (Z.abs a) (Z.abs b) with
    | inl err => inl err
    | inr (m, e) => inr (Float (Z.sgn a * Z.sgn b * m) e)
    end.

(** [int(x)] on a finite float: truncation toward zero. *)
Definition int_of_float (x : float) : Z :=
  match x with
  | Float m e => if 0 <=? e then m * 2 ^ e else Z.quot m (2 ^ (- e))
  end.

(** The literal [1e-3]: the binary64 number nearest to 1/1000. *)
Definition lit_1e_3 : float := Float 4611686018427388 (-62).

End PyFloat.

(** ** Statements that can raise: state and exception

    A computation takes the state and returns the state it leaves
    behind together with a value or the exception raised.  The state is
    returned in both cases: a raise does not undo earlier effects. *)

Definition M (S A : Type) : Type := S -> (exn + A) * S.

Definition ret {S A} (a : A) : M S A := fun s => (inr a, s).

Definition raise {S A} (e : exn) : M S A := fun s => (inl e, s).

Definition bind {S A B} (c : M S A) (k : A -> M S B) : M S B :=
  fun s =>
    match c s with
    | (inr a, s') => k a s'
    | (inl e, s') => (inl e, s')
    end.

Notation "x <- c ;; k" := (bind c (fun x => k))
  (at level 100, c at next level, right associativity).
Notation "c ;;; k" := (bind c (fun _ => k))
  (at level 100, right associativity).

(** [try: c  except E: pass] for the exceptions selected by [handles]. *)
Definition try_pass {S} (handles : exn -> bool) (c : M S unit) : M S unit :=
  fun s =>
    match c s with
    | (inl e, s') => if handles e then (inr tt, s') else (inl e, s')
    | r => r
    end.

(** Reading a name that an [if]/[elif] chain without [else] may have
    left unbound. *)
Definition lookup_name {S A} (name : string) (v : option A) : M S A :=
  match v with
  | Some a => ret a
  | None => raise (NameError name)
  end.

(** ** [os.path] on POSIX path strings *)

Module OsPath.

Definition startswith_sep (s : string) : bool :=
  match s with
  | String c _ => bool_decide (c = "/"%char)
  | EmptyString => false
  end.

Fixpoint endswith_sep (s : string) : bool :=
  match s with
  | EmptyString => false
  | String c EmptyString => bool_decide (c = "/"%char)
  | String _ s' => endswith_sep s'
  end.

Fixpoint last_char (s : string) : option ascii :=
  match s with
  | EmptyString => None
  | String c EmptyString => Some c
  | String _ s' => last_char s'
  end.

(** [os.path.join(a, b)]: an absolute [b] replaces [a]; otherwise [b]
    is appended, with a separator unless [a] is empty or already ends
    with one. *)
Definition join (a b : string) : string :=
  if startswith_sep b then b
  else if bool_decide (a = "") || endswith_sep a then a +:+ b
  else a +:+ "/" +:+ b.

(** The names between separators; empty names (from doubled or
    trailing separators) are dropped, as the kernel does. *)
Fixpoint components_go (s cur : string) : list string :=
  match s with
  | EmptyString => if bool_decide (cur = "") then [] else [cur]
  | String c s' =>
      if bool_decide (c = "/"%char)
      then (if bool_decide (cur = "") then [] else [cur]) ++ components_go s' ""
      else components_go s' (cur +:+ String c "")
  end.

(** The key of a path in the file system map: an absolute path starts
    with the component ["/"], a relative one hangs under the working
    directory, whose key is the empty list.  The names ["."] and
    [".."] and symbolic links are not interpreted: paths are taken as
    canonical apart from doubled and trailing separators. *)
Definition resolve (p : string) : list string :=
  (if startswith_sep p then ["/"%string] else []) ++ components_go p "".

End OsPath.

(** ** The file system

    A finite map from resolved paths to nodes.  The root and the working
    directory are directories that always exist.  Permissions, disk
    space and concurrent writers are outside the model, and so are the
    paths a kernel refuses for their spelling alone (a NUL byte, a name
    longer than the file system takes).  A call acts on the key its
    path spells: what is stated about nodes other than those a call
    names is stated for keys that are [canonical] (below), where one
    file has one key. *)

Inductive node :=
  | Dir
  | File (content : string).

Abbreviation filesystem := (gmap (list string) node).

Module Fs.
Import OsPath.

Definition is_root (k : list string) : bool :=
  bool_decide (k = []) || bool_decide (k = ["/"%string]).

Definition node_at (fs : filesystem) (k : list string) : option node :=
  if is_root k then Some Dir else fs !! k.

Definition present (fs : filesystem) (k : list string) : bool :=
  match node_at fs k with Some _ => true | None => false end.

Definition parent (k : list string) : list string := removelast k.

(** [os.path.exists(p)]: a trailing separator asks for a directory. *)
Definition exists_ (p : string) (fs : filesystem) : bool :=
  if bool_decide (p = "") then false
  else
    match node_at fs (resolve p) with
    | Some Dir => true
    | Some (File _) => negb (endswith_sep p)
    | None => false
    end.

(** [os.mkdir] on a resolved path. *)
Definition mkdir_key (k : list string) : M filesystem unit :=
  fun fs =>
    match node_at fs k with
    | Some _ => (inl FileExistsError, fs)
    | None =>
        match node_at fs (parent k) with
        | None => (inl FileNotFoundError, fs)
        | Some (File _) => (inl NotADirectoryError, fs)
        | Some Dir => (inr tt, <[k := Dir]> fs)
        end
    end.

Definition is_FileExistsError (e : exn) : bool :=
  match e with FileExistsError => true | _ => false end.

(** [os.makedirs(name)] with [exist_ok=False], on the reversed key:
    [tail :: rhead] is the split of [name] into its last component and
    the rest.  As in the library, a missing [head] is created first
    (a [FileExistsError] from that recursive call is swallowed), then
    [mkdir(name)] is issued and its error, if any, propagates. *)
Fixpoint makedirs_rev (rk : list string) : M filesystem unit :=
  match rk with
  | [] => mkdir_key []
  | tail :: rhead =>
      (fun fs =>
         if negb (bool_decide (rhead = []))
            && negb (present fs (rev rhead))
         then try_pass is_FileExistsError (makedirs_rev rhead) fs
         else (inr tt, fs)) ;;;
      mkdir_key (rev (tail :: rhead))
  end.

Definition makedirs (p : string) : M filesystem unit :=
  if bool_decide (p = "") then raise FileNotFoundError
  else makedirs_rev (rev (resolve p)).

(** [open(p, 'r').read()]. *)
Definition read_file (p : string) : M filesystem string :=
  fun fs =>
    if bool_decide (p = "") then (inl FileNotFoundError, fs)
    else
      match node_at fs (resolve p) with
      | None => (inl FileNotFoundError, fs)
      | Some Dir => (inl IsADirectoryError, fs)
      | Some (File c) =>
          if endswith_sep p then (inl NotADirectoryError, fs) else (inr c, fs)
      end.

(** [open(p, 'w')]: creates the file or truncates it. *)
Definition open_w (p : string) : M filesystem unit :=
  fun fs =>
    if bool_decide (p = "") then (inl FileNotFoundError, fs)
    else
      let k := resolve p in
      match node_at fs k with
      | Some Dir => (inl IsADirectoryError, fs)
      | Some (File _) =>
          if endswith_sep p then (inl NotADirectoryError, fs)
          else (inr tt, <[k := File ""]> fs)
      | None =>
          if endswith_sep p then (inl IsADirectoryError, fs)
          else
            match node_at fs (parent k) with
            | None => (inl FileNotFoundError, fs)
            | Some (File _) => (inl NotADirectoryError, fs)
            | Some Dir => (inr tt, <[k := File ""]> fs)
            end
      end.

(** [fh.write(text)] on a handle opened on [p]. *)
Definition write (p text : string) : M filesystem unit :=
  fun fs =>
    (inr tt,
     alter (fun n => match n with
                     | File c => File (c +:+ text)
                     | Dir => Dir
                     end) (resolve p) fs).

(** [shutil.copyfile(src, dst)]. *)
Definition copyfile (src dst : string) : M filesystem unit :=
  fun fs =>
    if exists_ src fs && exists_ dst fs
       && bool_decide (resolve src = resolve dst)
    then (inl (SameFileError src dst), fs)
    else (c <- read_file src ;; open_w dst ;;; write dst c) fs.

(** [shutil.rmtree(p, ignore_errors=True)]: a directory goes with
    everything under it; anything else is an ignored error. *)
Definition rmtree_ignore_errors (p : string) (fs : filesystem) : filesystem :=
  let k := resolve p in
  if bool_decide (p = "") then fs
  else
    match node_at fs k with
    | Some Dir => filter (fun kv => ¬ (k `prefix_of` kv.1)) fs
    | _ => fs
    end.

(** From [fs] to [fs'] every node stays what it is. *)
Definition preserves (fs fs' : filesystem) : Prop :=
  forall k n, node_at fs k = Some n -> node_at fs' k = Some n.

(** Two nodes of the same kind: both directories or both files. *)
Definition same_kind (n n' : node) : Prop :=
  match n, n' with
  | Dir, Dir => True
  | File _, File _ => True
  | _, _ => False
  end.

(** From [fs] to [fs'] nothing disappears and nothing changes kind. *)
Definition grows (fs fs' : filesystem) : Prop :=
  forall k n, node_at fs k = Some n ->
    exists n', node_at fs' k = Some n' /\ same_kind n n'.

End Fs.

(** ** Inputs of the script *)

(** The namespace returned by [parser.parse_args()]. *)
Record Args := {
  config : string;
  experiment : option string;
  suffix : option string;
  debug : bool
}.

(** The attributes of [exp_config] that the script reads, after
    [read_config()]. *)
Record TrainingConfig := {
  dataset : string;
  task : string;
  input_domain : string;
  output_domain : string;
  corruption_frac : PyFloat.float;
  batch_size : Z;
  architecture : string;
  nonlinearity : string;
  kernel_size : Z;
  num_features : Z;
  num_layers : Z;
  loss_type : string;
  loss : string;
  num_epochs : Z;
  job_name : string
}.

(** An image array, as far as the script looks at it: its [shape]. *)
Record ndarray := { shape : list Z }.

(** ** Results of the collaborator modules, as call terms *)

Inductive generator :=
  | generate_data (images : ndarray) (task input_domain output_domain : string)
      (corruption_frac : PyFloat.float) (batch_size : Z) (split : string).

Inductive model :=
  | get_conv_no_residual_model (input_shape : Z * Z * Z) (nonlinearity : string)
      (kernel_size num_features num_layers : Z)
  | get_conv_residual_model (input_shape : Z * Z * Z) (nonlinearity : string)
      (kernel_size num_features num_layers : Z)
  | get_interlacer_residual_model (input_shape : Z * Z * Z) (nonlinearity : string)
      (kernel_size num_features num_layers : Z).

Inductive loss_fn :=
  | image_loss (output_domain kind : string)
  | fourier_loss (output_domain kind : string)
  | image_mag_loss (output_domain kind : string).

Inductive optimizer :=
  | Adam (lr : PyFloat.float).

Inductive callback :=
  | ModelCheckpoint (filepath : string) (verbose : Z) (save_weights_only : bool)
      (period : Z)
  | TensorBoard (log_dir : string) (histogram_freq : Z)
      (write_graph write_images : bool).

(** The function registered with [atexit] in debug mode; it closes over
    [checkpoint_dir]. *)
Inductive hook :=
  | del_logs (checkpoint_dir : string).

(** What lies outside the repository's sources: the constant
    [filepaths.TRAIN_DIR], the two image loaders, and the two queries the
    script makes of a built network. *)
Record Env := {
  TRAIN_DIR : string;
  get_mri_images : ndarray * ndarray;
  get_mnist_images : ndarray * ndarray;
  summary_lines : model -> list string;
  count_params : model -> Z
}.

(** ** The world the script runs in *)

(** Observable effects, in the order they happen.  A file system call is
    recorded when it returns normally. *)
Inductive effect :=
  | EPrint (line : string)
  | EMakedirs (p : string)
  | ECopyfile (src dst : string)
  | EOpenW (p : string)
  | EWrite (p text : string)
  | ERmtree (p : string)
  | EAtexit (h : hook)
  | ELoss (l : loss_fn)
  | ECompile (m : model) (opt : optimizer) (loss : loss_fn) (metrics : list loss_fn)
  | ECountParams (m : model)
  | EFitGenerator (m : model) (train : generator) (epochs steps_per_epoch : Z)
      (validation_data : generator) (validation_steps : Z)
      (callbacks : list callback) (workers : Z).

Record world := {
  fs : filesystem;
  trace : list effect;
  exit_hooks : list hook;
  rng : list Z
}.

Definition emit (ev : effect) : M world unit :=
  fun w =>
    (inr tt,
     {| fs := fs w; trace := trace w ++ [ev];
        exit_hooks := exit_hooks w; rng := rng w |}).

Definition print (line : string) : M world unit := emit (EPrint line).

(** A file system call made by the script. *)
Definition fs_call {A} (ev : effect) (c : M filesystem A) : M world A :=
  fun w =>
    match c (fs w) with
    | (inr a, fs') =>
        (inr a,
         {| fs := fs'; trace := trace w ++ [ev];
            exit_hooks := exit_hooks w; rng := rng w |})
    | (inl e, fs') =>
        (inl e,
         {| fs := fs'; trace := trace w;
            exit_hooks := exit_hooks w; rng := rng w |})
    end.

Definition path_exists (p : string) : M world bool :=
  fun w => (inr (Fs.exists_ p (fs w)), w).

Definition makedirs (p : string) : M world unit :=
  fs_call (EMakedirs p) (Fs.makedirs p).

Definition copyfile (src dst : string) : M world unit :=
  fs_call (ECopyfile src dst) (Fs.copyfile src dst).

Definition open_w (p : string) : M world unit :=
  fs_call (EOpenW p) (Fs.open_w p).

Definition fh_write (p text : string) : M world unit :=
  fs_call (EWrite p text) (Fs.write p text).

Definition atexit_register (h : hook) : M world unit :=
  fun w =>
    (inr tt,
     {| fs := fs w; trace := trace w ++ [EAtexit h];
        exit_hooks := exit_hooks w ++ [h]; rng := rng w |}).

(** [np.random.randint(low, high)]: an integer of [[low, high)], here
    read off a tape of raw draws carried by the world. *)
Definition randint (low high : Z) : M world Z :=
  fun w =>
    if high <=? low then (inl (ValueError "low >= high"), w)
    else
      (inr (low + hd 0 (rng w) mod (high - low)),
       {| fs := fs w; trace := trace w;
          exit_hooks := exit_hooks w; rng := tl (rng w) |}).

(** The one-character string written ['\n'] in Python. *)
Definition newline : string := String (ascii_of_nat 10) EmptyString.

(** [str(i)] for an integer. *)
Definition str (i : Z) : string := pretty i.

(** One of the ten characters ['0'] .. ['9']. *)
Definition is_ascii_digit (c : ascii) : bool :=
  (48 <=? nat_of_ascii c)%nat && (nat_of_ascii c <=? 57)%nat.

(** [a.shape[i]] for a literal index [i >= 0]. *)
Definition shape_at {S} (a : ndarray) (i : nat) : M S Z :=
  match shape a !! i with
  | Some d => ret d
  | None => raise (IndexError "tuple index out of range")
  end.

(** A call into [losses]: the returned loss is the call term itself. *)
Definition losses_call (l : loss_fn) : M world loss_fn :=
  emit (ELoss l) ;;; ret l.

Definition lift_result {S A} (r : exn + A) : M S A :=
  match r with
  | inl e => raise e
  | inr a => ret a
  end.

(** ** The script, section by section *)

Section Script.
Import OsPath.

Variable E : Env.
Variable args : Args.
Variable exp_config : TrainingConfig.

(** Lines 71-74, [# Load dataset]: no [else], so the two names stay
    unbound for any other dataset. *)
Definition load_dataset : option (ndarray * ndarray) :=
  if String.eqb (dataset exp_config) "MRI" then Some (get_mri_images E)
  else if String.eqb (dataset exp_config) "MNIST" then Some (get_mnist_images E)
  else None.

Definition make_generator (img : ndarray) (split : string) : generator :=
  generate_data img (task exp_config) (input_domain exp_config)
    (output_domain exp_config) (corruption_frac exp_config)
    (batch_size exp_config) split.

(** Lines 98-124, [# Pick architecture]: [model] is bound by one of the
    three branches; the chain has no [else]. *)
Definition pick_architecture (n : Z) : option model :=
  if String.eqb (architecture exp_config) "CONV" then
    Some (get_conv_no_residual_model (n, n, 2) (nonlinearity exp_config)
            (kernel_size exp_config) (num_features exp_config)
            (num_layers exp_config))
  else if String.eqb (architecture exp_config) "CONV_RESIDUAL" then
    Some (get_conv_residual_model (n, n, 2) (nonlinearity exp_config)
            (kernel_size exp_config) (num_features exp_config)
            (num_layers exp_config))
  else if String.eqb (architecture exp_config) "INTERLACER_RESIDUAL" then
    Some (get_interlacer_residual_model (n, n, 2) (nonlinearity exp_config)
            (kernel_size exp_config) (num_features exp_config)
            (num_layers exp_config))
  else None.

(** Lines 128-132: the job name. *)
Definition make_job_name : M world string :=
  let job_name0 := job_name exp_config in
  job_name1 <-
    (if debug args
     then (r <- randint 0 10 ;; ret ("debug_job" +:+ str r))
     else ret job_name0) ;;
  ret (match suffix args with
       | Some s => job_name1 +:+ "*" +:+ s
       | None => job_name1
       end).

(** Lines 133-135: the directory the run directory is created in. *)
Definition make_dir_path : string :=
  match experiment args with
  | Some e => if negb (debug args) then TRAIN_DIR E +:+ e +:+ "/" else TRAIN_DIR E
  | None => TRAIN_DIR E
  end.

(** Lines 139-140: the checkpoint directory. *)
Definition create_checkpoint_dir (checkpoint_dir : string) : M world unit :=
  present <- path_exists checkpoint_dir ;;
  if negb present then makedirs checkpoint_dir else ret tt.

(** [print_fn=lambda x: fh.write(x + '\n')], called by Keras once per
    line of the summary. *)
Fixpoint write_lines (summary_file : string) (ls : list string) : M world unit :=
  match ls with
  | [] => ret tt
  | x :: ls' => fh_write summary_file (x +:+ newline) ;;; write_lines summary_file ls'
  end.

(** Lines 152-154: [summary.txt].  The file is opened before [model]
    is looked up. *)
Definition write_summary (summary_file : string) (model_var : option model)
  : M world model :=
  open_w summary_file ;;;
  m <- lookup_name "model" model_var ;;
  write_lines summary_file (summary_lines E m) ;;;
  ret m.

(** Lines 157-162, [# Tensorboard]. *)
Definition create_tensorboard_dir (tb_dir : string) : M world unit :=
  present <- path_exists tb_dir ;;
  if present
  then raise (ValueError "Tensorboard logs have already been created under this name.")
  else makedirs tb_dir.

(** Lines 167-172, [# Select loss]. *)
Definition select_loss : M world loss_fn :=
  if String.eqb (loss_type exp_config) "image" then
    losses_call (image_loss (output_domain exp_config) (loss exp_config))
  else if String.eqb (loss_type exp_config) "freq" then
    losses_call (fourier_loss (output_domain exp_config) (loss exp_config))
  else raise (ValueError "Unrecognized loss type.").

(** Lines 175-185, [# Setup model]. *)
Definition setup_model (m : model) (used_loss : loss_fn) : M world unit :=
  fourier_l1 <- losses_call (fourier_loss (output_domain exp_config) "L1") ;;
  fourier_l2 <- losses_call (fourier_loss (output_domain exp_config) "L2") ;;
  image_l1 <- losses_call (image_loss (output_domain exp_config) "L1") ;;
  image_l2 <- losses_call (image_loss (output_domain exp_config) "L2") ;;
  image_mag_l1 <- losses_call (image_mag_loss (output_domain exp_config) "L1") ;;
  let lr := PyFloat.lit_1e_3 in
  emit (ECompile m (Adam lr) used_loss
          [fourier_l1; fourier_l2; image_l1; image_l2]) ;;;
  print "Compiled model".

(** Lines 191-198: [(num_epochs, steps_per_epoch, val_steps)]. *)
Definition fit_sizes (img_train : ndarray) : M world (Z * Z * Z) :=
  if debug args then ret (5, 2, 1)
  else
    let num_epochs_ := num_epochs exp_config in
    train_set_size <- shape_at img_train 0 ;;
    quotient <- lift_result (PyFloat.truediv train_set_size (batch_size exp_config)) ;;
    let steps_per_epoch := PyFloat.int_of_float quotient in
    ret (num_epochs_, steps_per_epoch, 8).

(** Lines 70-125: the dataset, the two generators and the network.
    [model_var] is the Python name [model], possibly unbound. *)
Definition load_and_build
  : M world (ndarray * generator * generator * option model) :=
  (* Load dataset *)
  let imgs := load_dataset in
  img_train <- lookup_name "img_train" (fst <$> imgs) ;;
  let train_generator := make_generator img_train "train" in
  print "Generated training generator" ;;;
  img_val <- lookup_name "img_val" (snd <$> imgs) ;;
  let val_generator := make_generator img_val "val" in
  print "Generated validation generator" ;;;
  (* Pick architecture *)
  n <- shape_at img_train 1 ;;
  let model_var := pick_architecture n in
  print "Loaded model" ;;;
  ret (img_train, train_generator, val_generator, model_var).

(** Lines 127-164: the run directory and the two callbacks. *)
Definition run_director (model_var : option model)
  : M world (model * callback * callback) :=
  (* Checkpointing *)
  job_name_ <- make_job_name ;;
  let dir_path := make_dir_path in
  let checkpoint_dir := join dir_path job_name_ in
  let checkpoint_name := "cp-{epoch:04d}.ckpt" in
  let checkpoint_path := join checkpoint_dir checkpoint_name in
  create_checkpoint_dir checkpoint_dir ;;;
  let cp_callback := ModelCheckpoint checkpoint_path 1 true 5 in
  print "Set up checkpointing" ;;;
  (if debug args then atexit_register (del_logs checkpoint_dir) else ret tt) ;;;
  copyfile (config args) (join checkpoint_dir (job_name_ +:+ "_config.ini")) ;;;
  let summary_file := join checkpoint_dir "summary.txt" in
  m <- write_summary summary_file model_var ;;
  (* Tensorboard *)
  let tb_dir := join checkpoint_dir "tensorboard/" in
  create_tensorboard_dir tb_dir ;;;
  let tb_callback := TensorBoard tb_dir 0 true true in
  ret (m, cp_callback, tb_callback).

(** Lines 166-209: loss, metrics, compilation and the fit loop.  The
    fit loop itself belongs to Keras: the embedding records the call of
    [fit_generator] with its arguments and stops there. *)
Definition train (img_train : ndarray) (train_generator val_generator : generator)
  (m : model) (cp_callback tb_callback : callback) : M world unit :=
  (* Select loss *)
  used_loss <- select_loss ;;
  (* Setup model *)
  setup_model m used_loss ;;;
  (if debug args
   then emit (ECountParams m) ;;;
        print ("Number of parameters: " +:+ str (count_params E m))
   else ret tt) ;;;
  (* Train model *)
  sizes <- fit_sizes img_train ;;
  let '(num_epochs_, steps_per_epoch, val_steps) := sizes in
  emit (EFitGenerator m train_generator num_epochs_ steps_per_epoch
          val_generator val_steps [cp_callback; tb_callback] 1).

(** The whole script from line 70 on.  What comes before is taken as
    done: the device set-up of lines 32-45, which touches nothing the
    rest reads, argument parsing, which yields [args], and
    [read_config()], which yields [exp_config]. *)
Definition main : M world unit :=
  built <- load_and_build ;;
  let '(img_train, train_generator, val_generator, model_var) := built in
  run <- run_director model_var ;;
  let '(m, cp_callback, tb_callback) := run in
  train img_train train_generator val_generator m cp_callback tb_callback.

End Script.

(** The [atexit] hooks run when the interpreter exits, also after an
    uncaught exception. *)
Definition run_hook (h : hook) (w : world) : world :=
  match h with
  | del_logs checkpoint_dir =>
      {| fs := Fs.rmtree_ignore_errors checkpoint_dir (fs w);
         trace := trace w ++ [ERmtree checkpoint_dir; EPrint "Deleted temp debug logs"];
         exit_hooks := exit_hooks w; rng := rng w |}
  end.

(** One process: the script, then the exit hooks, last registered
    first. *)
Definition run_process (E : Env) (args : Args) (exp_config : TrainingConfig)
  (w : world) : (exn + unit) * world :=
  let '(r, w') := main E args exp_config w in
  (r, fold_right run_hook w' (exit_hooks w')).

(** ** Reading a trace *)

(** The exceptions of the [OSError] family. *)
Definition is_os_error (e : exn) : bool :=
  match e with
  | FileExistsError | FileNotFoundError | NotADirectoryError
  | IsADirectoryError | SameFileError _ _ => true
  | _ => false
  end.

Definition is_fs_effect (ev : effect) : bool :=
  match ev with
  | EMakedirs _ | ECopyfile _ _ | EOpenW _ | EWrite _ _ | ERmtree _ => true
  | _ => false
  end.

(** The file system calls of a trace, in order. *)
Definition fs_effects (t : list effect) : list effect := List.filter is_fs_effect t.

Definition is_compile (ev : effect) : bool :=
  match ev with
  | ECompile _ _ _ _ => true
  | _ => false
  end.

(** The [model.compile] calls of a trace, in order. *)
Definition compile_effects (t : list effect) : list effect := List.filter is_compile t.

(** The text that [print_fn] writes for the lines of a summary. *)
Definition summary_text (ls : list string) : string :=
  fold_right (fun x acc => (x +:+ newline) +:+ acc) "" ls.

(** The [fh.write] calls for the lines of a summary. *)
Definition summary_writes (summary_file : string) (ls : list string) : list effect :=
  List.map (fun x => EWrite summary_file (x +:+ newline)) ls.

(** The value of the name [model] after line 124, if it is bound: the
    network the architecture dispatch builds for the training images of
    the dataset dispatch. *)
Definition model_of_run (E : Env) (exp_config : TrainingConfig) : option model :=
  match load_dataset E exp_config with
  | Some (img_train, _) =>
      match shape img_train !! 1%nat with
      | Some n => pick_architecture exp_config n
      | None => None
      end
  | None => None
  end.

(** The file system calls of the run director in the order the
    specification lists them: the checkpoint directory (unless it
    exists), the copy of the configuration file, the model summary, the
    tensorboard directory. *)
Definition spec_director_fs_calls (checkpoint_dir_exists : bool)
  (config_path checkpoint_dir job_name : string) (lines : list string)
  : list effect :=
  (if checkpoint_dir_exists then [] else [EMakedirs checkpoint_dir])
  ++ [ECopyfile config_path
        (OsPath.join checkpoint_dir (job_name +:+ "_config.ini"));
      EOpenW (OsPath.join checkpoint_dir "summary.txt")]
  ++ summary_writes (OsPath.join checkpoint_dir "summary.txt") lines
  ++ [EMakedirs (OsPath.join checkpoint_dir "tensorboard/")].

(** The message of the [ValueError] of line 159. *)
Definition tensorboard_exists_msg : string :=
  "Tensorboard logs have already been created under this name.".

(** ** A concrete run, for evaluation

    The end-to-end scenario of the specification: an MRI/CONV
    configuration named ["run1"] with 20 epochs and batch size 32, a
    training set of 6400 images, and a world whose only file is the
    configuration file. *)

Module Sample.

Definition E : Env := {|
  TRAIN_DIR := "/data/training/";
  get_mri_images := ({| shape := [6400; 128; 128] |}, {| shape := [800; 128; 128] |});
  get_mnist_images := ({| shape := [60000; 28; 28] |}, {| shape := [10000; 28; 28] |});
  summary_lines := fun _ => ["Model: model"; "Total params: 42"]%string;
  count_params := fun _ => 42
|}.

Definition exp_config : TrainingConfig := {|
  dataset := "MRI"; task := "undersample";
  input_domain := "FREQ"; output_domain := "FREQ";
  corruption_frac := PyFloat.Float 1 (-1); batch_size := 32;
  architecture := "CONV"; nonlinearity := "relu";
  kernel_size := 9; num_features := 32; num_layers := 6;
  loss_type := "freq"; loss := "L1"; num_epochs := 20;
  job_name := "run1"
|}.

Definition with_architecture (a : string) (c : TrainingConfig) : TrainingConfig := {|
  dataset := dataset c; task := task c;
  input_domain := input_domain c; output_domain := output_domain c;
  corruption_frac := corruption_frac c; batch_size := batch_size c;
  architecture := a; nonlinearity := nonlinearity c;
  kernel_size := kernel_size c; num_features := num_features c;
  num_layers := num_layers c;
  loss_type := loss_type c; loss := loss c; num_epochs := num_epochs c;
  job_name := job_name c
|}.

Definition with_loss_type (t : string) (c : TrainingConfig) : TrainingConfig := {|
  dataset := dataset c; task := task c;
  input_domain := input_domain c; output_domain := output_domain c;
  corruption_frac := corruption_frac c; batch_size := batch_size c;
  architecture := architecture c; nonlinearity := nonlinearity c;
  kernel_size := kernel_size c; num_features := num_features c;
  num_layers := num_layers c;
  loss_type := t; loss := loss c; num_epochs := num_epochs c;
  job_name := job_name c
|}.

(** [train.py cfg.ini --suffix trial1] *)
Definition args : Args :=
  {| config := "cfg.ini"; experiment := None; suffix := Some "trial1"; debug := false |}.

(** [train.py cfg.ini --experiment loss_comparison_runs --suffix trial1 --debug] *)
Definition args_debug : Args :=
  {| config := "cfg.ini"; experiment := Some "loss_comparison_runs";
     suffix := Some "trial1"; debug := true |}.

Definition w0 : world :=
  {| fs := {[ ["cfg.ini"%string] := File "[DATA]" ]};
     trace := []; exit_hooks := []; rng := [7] |}.

End Sample.

(** The world a first, complete run of the sample leaves behind. *)
Definition sample_after_first_run : world :=
  (run_process Sample.E Sample.args Sample.exp_config Sample.w0).2.

(** ** More reading of paths and traces *)

(** No separator occurs in the string. *)
Fixpoint has_no_sep (s : string) : bool :=
  match s with
  | EmptyString => true
  | String c s' => negb (bool_decide (c = "/"%char)) && has_no_sep s'
  end.

(** The key [k'] lies at or under the key [k]. *)
Definition under (k k' : list string) : Prop := k `prefix_of` k'.

(** A key spelled from the root and without the names [.] and [..]: the
    one spelling under which a file system without symbolic links holds
    a node.  Two different keys of this kind are two different files,
    and a key of this kind that does not extend another one lies
    outside that directory.  A relative key, or one through [.] or
    [..], is a second spelling of some key of this kind. *)
Definition canonical (k : list string) : bool :=
  bool_decide (head k = Some "/"%string)
  && forallb (fun c => negb (bool_decide (c = "."%string)
                             || bool_decide (c = ".."%string))) k.

(** The sample world with the run directory of an older run next to
    the place of the new one. *)
Definition sample_beside_old_run : world :=
  {| fs := {[ ["cfg.ini"%string] := File "[DATA]";
              ["/"; "data"]%string := Dir;
              ["/"; "data"; "training"]%string := Dir;
              ["/"; "data"; "training"; "old_run"]%string := Dir;
              ["/"; "data"; "training"; "old_run"; "weights"]%string := File "W" ]};
     trace := []; exit_hooks := []; rng := [7] |}.

(** Everything a run that returns normally does, in order: the messages
    of lines 84, 94 and 125, the run directory of lines 139-162, the
    losses and the compilation of lines 167-185, the parameter count of
    line 188 in debug mode, and the fit call of line 200. *)
Definition spec_successful_trace (args : Args) (exp_config : TrainingConfig)
  (E : Env) (checkpoint_dir_exists : bool) (job : string)
  (img_train img_val : ndarray) (m : model) (used_loss : loss_fn)
  (sizes : Z * Z * Z) : list effect :=
  let checkpoint_dir := OsPath.join (make_dir_path E args) job in
  let summary_file := OsPath.join checkpoint_dir "summary.txt" in
  let tb_dir := OsPath.join checkpoint_dir "tensorboard/" in
  [EPrint "Generated training generator";
   EPrint "Generated validation generator";
   EPrint "Loaded model"]
  ++ (if checkpoint_dir_exists then [] else [EMakedirs checkpoint_dir])
  ++ [EPrint "Set up checkpointing"]
  ++ (if debug args then [EAtexit (del_logs checkpoint_dir)] else [])
  ++ [ECopyfile (config args)
        (OsPath.join checkpoint_dir (job +:+ "_config.ini"));
      EOpenW summary_file]
  ++ summary_writes summary_file (summary_lines E m)
  ++ [EMakedirs tb_dir;
      ELoss used_loss;
      ELoss (fourier_loss (output_domain exp_config) "L1");
      ELoss (fourier_loss (output_domain exp_config) "L2");
      ELoss (image_loss (output_domain exp_config) "L1");
      ELoss (image_loss (output_domain exp_config) "L2");
      ELoss (image_mag_loss (output_domain exp_config) "L1");
      ECompile m (Adam PyFloat.lit_1e_3) used_loss
        [fourier_loss (output_domain exp_config) "L1";
         fourier_loss (output_domain exp_config) "L2";
         image_loss (output_domain exp_config) "L1";
         image_loss (output_domain exp_config) "L2"];
      EPrint "Compiled model"]
  ++ (if debug args
      then [ECountParams m;
            EPrint ("Number of parameters: " +:+ str (count_params E m))]
      else [])
  ++ [EFitGenerator m
        (make_generator exp_config img_train "train")
        sizes.1.1 sizes.1.2
        (make_generator exp_config img_val "val")
        sizes.2
        [ModelCheckpoint (OsPath.join checkpoint_dir "cp-{epoch:04d}.ckpt") 1 true 5;
         TensorBoard tb_dir 0 true true]
        1].

(** * Proofs *)

(** ** Correct rounding and truncation *)

Module PyFloatFacts.
Import PyFloat.

Lemma div_rne_lower (n d c : Z) :
  0 <= n -> 0 < d -> c * d <= n -> c <= div_rne n d.
Proof.
  intros Hn Hd Hc. unfold div_rne.
  assert (c <= n / d) by (apply Z.div_le_lower_bound; lia).
  repeat case_match; lia.
Qed.

Lemma div_rne_upper (n d c : Z) :
  0 <= n -> 0 < d -> 2 * n < (2 * c - 1) * d -> div_rne n d < c.
Proof.
  intros Hn Hd Hc. unfold div_rne.
  pose proof (Z.div_mod n d ltac:(lia)) as Hdm.
  pose proof (Z.mod_pos_bound n d Hd) as Hr.
  set (q := n / d) in *. set (r := n mod d) in *.
  destruct (2 * r <? d) eqn:H1; [apply Z.ltb_lt in H1 | apply Z.ltb_ge in H1].
  - nia.
  - assert (q + 1 < c) by nia.
    repeat case_match; lia.
Qed.

Lemma floor_log2_ratio_le (a b : Z) :
  0 < a -> 0 < b -> floor_log2_ratio a b <= Z.log2 a.
Proof.
  intros Ha Hb. unfold floor_log2_ratio.
  pose proof (Z.log2_nonneg b). case_match; lia.
Qed.

Lemma floor_log2_ratio_lower (a b : Z) :
  0 < a -> 0 < b ->
  let lg := floor_log2_ratio a b in
  b * 2 ^ Z.max lg 0 <= a * 2 ^ Z.max (- lg) 0.
Proof.
  intros Ha Hb lg. subst lg. unfold floor_log2_ratio.
  destruct (Z.log2_spec a Ha) as [Ha1 Ha2].
  destruct (Z.log2_spec b Hb) as [Hb1 Hb2].
  pose proof (Z.log2_nonneg a) as Hla. pose proof (Z.log2_nonneg b) as Hlb.
  set (la := Z.log2 a) in *. set (lb := Z.log2 b) in *.
  destruct (_ <=? _) eqn:Ht; [by apply Z.leb_le in Ht |]. clear Ht.
  destruct (Z.le_gt_cases 1 (la - lb)) as [Hge | Hlt].
  - rewrite Z.max_l, Z.max_r by lia. rewrite Z.pow_0_r, Z.mul_1_r.
    replace la with (Z.succ lb + (la - lb - 1)) in Ha1 by lia.
    rewrite Z.pow_add_r in Ha1 by lia.
    assert (0 < 2 ^ (la - lb - 1)) by (apply Z.pow_pos_nonneg; lia).
    nia.
  - rewrite Z.max_r, Z.max_l by lia. rewrite Z.pow_0_r, Z.mul_1_r.
    replace (Z.succ lb) with (la + (- (la - lb - 1))) in Hb2 by lia.
    rewrite Z.pow_add_r in Hb2 by lia.
    assert (0 < 2 ^ (- (la - lb - 1))) by (apply Z.pow_pos_nonneg; lia).
    nia.
Qed.

Lemma int_of_truediv_floor (a b : Z) :
  0 <= a < 2 ^ 53 -> 0 < b ->
  exists x, truediv a b = inr x /\ int_of_float x = a / b.
Proof.
  intros [Ha0 Ha] Hb. unfold truediv.
  destruct (b =? 0) eqn:Hb0; [apply Z.eqb_eq in Hb0; lia | clear Hb0].
  destruct (a =? 0) eqn:Ha1; [apply Z.eqb_eq in Ha1 | apply Z.eqb_neq in Ha1].
  { subst a. eexists; split; [done |]. simpl. by rewrite Z.div_0_l by lia. }
  rewrite (Z.abs_eq a), (Z.abs_eq b) by lia.
  rewrite (Z.sgn_pos a), (Z.sgn_pos b) by lia.
  unfold truediv_pos.
  pose proof (floor_log2_ratio_le a b ltac:(lia) Hb) as Hle.
  pose proof (floor_log2_ratio_lower a b ltac:(lia) Hb) as Hlow. simpl in Hlow.
  assert (Z.log2 a < 53) as Hla by (apply Z.log2_lt_pow2; lia).
  set (lg := floor_log2_ratio a b) in *.
  set (e := Z.max (lg - 52) (-1074)).
  assert (e <= 0) as He by lia.
  assert (-1074 <= e) as He' by lia.
  replace (Z.max e 0) with 0 by lia.
  replace (Z.max (- e) 0) with (- e) by lia.
  rewrite Z.pow_0_r, Z.mul_1_r.
  set (P := 2 ^ (- e)).
  assert (0 < P) as HP by (apply Z.pow_pos_nonneg; lia).
  set (m := div_rne (a * P) b).
  replace ((971 <? e) || (e =? 971) && (2 ^ 53 <=? m)) with false by lia.
  eexists; split; [done |].
  pose proof (Z.div_mod a b ltac:(lia)) as Hdm.
  pose proof (Z.mod_pos_bound a b Hb) as Hr.
  set (q := a / b) in *. set (r := a mod b) in *.
  assert (0 <= q) as Hq by (apply Z.div_pos; lia).
  assert (q * P <= m) as Hm1 by (apply div_rne_lower; nia).
  assert (m < (q + 1) * P) as Hm2.
  { apply div_rne_upper; [nia | lia |].
    destruct (Z.lt_ge_cases b (2 * P)) as [Hsmall | Hbig]; [nia |].
    (* only a clamped exponent leaves [b] that large *)
    assert (2 ^ 53 <= P) as HP53.
    { destruct (Z.le_gt_cases (lg - 52) (-1074)) as [Hclamp | Hnorm].
      - subst P e. rewrite Z.max_r by lia. apply Z.pow_le_mono_r; lia.
      - exfalso. subst P e. rewrite Z.max_l in Hbig by lia.
        destruct (Z.le_gt_cases 0 lg) as [Hpos | Hneg].
        + rewrite Z.max_l, Z.max_r, Z.pow_0_r in Hlow by lia.
          assert (2 ^ 53 = 2 * (2 ^ lg * 2 ^ (- (lg - 52)))) as Hsplit.
          { rewrite <- Z.pow_add_r, <- Z.pow_succ_r by lia. f_equal. lia. }
          assert (0 < 2 ^ lg) by (apply Z.pow_pos_nonneg; lia).
          nia.
        + rewrite Z.max_r, Z.max_l, Z.pow_0_r in Hlow by lia.
          assert (2 ^ (- (lg - 52)) = 2 ^ 52 * 2 ^ (- lg)) as Hsplit.
          { rewrite <- Z.pow_add_r by lia. f_equal. lia. }
          assert (0 < 2 ^ (- lg)) by (apply Z.pow_pos_nonneg; lia).
          nia. }
    assert (q = 0) by (subst q; apply Z.div_small; lia).
    nia. }
  simpl. rewrite Z.mul_1_l.
  assert (m / P = q) as Hres.
  { clearbody P m q. symmetry. apply (Z.div_unique m P q (m - q * P)); lia. }
  destruct (0 <=? e) eqn:He0; [apply Z.leb_le in He0 | apply Z.leb_gt in He0].
  - assert (e = 0) as He00 by lia. unfold P in Hres. rewrite He00 in *.
    change (2 ^ (- 0)) with 1 in Hres. rewrite Z.div_1_r in Hres.
    rewrite Z.pow_0_r. lia.
  - fold P. rewrite Z.quot_div_nonneg by lia. done.
Qed.
End PyFloatFacts.
(** ** Job name and run directory *)

Lemma str_digit (d : Z) :
  0 <= d <= 9 -> exists c, is_ascii_digit c = true /\ str d = String c "".
Proof.
  intros Hd.
  assert (d = 0 \/ d = 1 \/ d = 2 \/ d = 3 \/ d = 4 \/ d = 5 \/ d = 6
          \/ d = 7 \/ d = 8 \/ d = 9) as Hcases by lia.
  repeat (destruct Hcases as [-> | Hcases]); try subst d;
    eexists; (split; [| reflexivity]); reflexivity.
Qed.

Lemma randint_0_10 (w : world) :
  exists d, 0 <= d <= 9 /\
    randint 0 10 w =
      (inr d, {| fs := fs w; trace := trace w;
                 exit_hooks := exit_hooks w; rng := tl (rng w) |}).
Proof.
  exists (0 + hd 0 (rng w) mod (10 - 0)). split; [| reflexivity].
  pose proof (Z.mod_pos_bound (hd 0 (rng w)) (10 - 0) ltac:(lia)). lia.
Qed.

(** C3.  Without [--debug], a suffix [s] turns the configured job name
    [b] into [b + "*" + s]. *)
Theorem job_name_suffix_no_debug (args : Args) (exp_config : TrainingConfig)
  (w : world) (s : string) :
  debug args = false ->
  suffix args = Some s ->
  make_job_name args exp_config w = (inr (job_name exp_config +:+ "*" +:+ s), w).
Proof.
  intros Hdebug Hsuffix. unfold make_job_name, bind, ret.
  by rewrite Hdebug, Hsuffix.
Qed.

(** C3 at the input of the specification: base ["run1"], suffix
    ["trial1"]. *)
Lemma job_name_suffix_no_debug_witness :
  make_job_name Sample.args Sample.exp_config Sample.w0
  = (inr "run1*trial1", Sample.w0).
Proof.
  exact (job_name_suffix_no_debug Sample.args Sample.exp_config Sample.w0
           "trial1" eq_refl eq_refl).
Defined.

Lemma make_job_name_debug (args : Args) (exp_config : TrainingConfig) (w : world) :
  debug args = true ->
  exists c, is_ascii_digit c = true /\
    make_job_name args exp_config w =
      (inr ("debug_job" +:+
            String c (match suffix args with
                      | Some s => "*" +:+ s
                      | None => ""
                      end)),
       {| fs := fs w; trace := trace w;
          exit_hooks := exit_hooks w; rng := tl (rng w) |}).
Proof.
  intros Hdebug. unfold make_job_name. rewrite Hdebug.
  destruct (randint_0_10 w) as (d & Hd & Hdraw).
  destruct (str_digit d Hd) as (c & Hc & Hstr).
  exists c. split; [done |].
  unfold bind, ret. rewrite Hdraw, Hstr.
  by destruct (suffix args).
Qed.

(** C4.  With [--debug] the job name is ["debug_job"], one decimal
    digit, then whatever the suffix rule appends; and the directory the
    run directory is created in is [TRAIN_DIR] whatever [--experiment]
    says.  For all arguments, the experiment segment is appended exactly
    when an experiment is given and [--debug] is off. *)
Theorem debug_job_name_and_dir (E : Env) (args : Args)
  (exp_config : TrainingConfig) (w : world) :
  (debug args = true ->
   (exists c rest w',
      is_ascii_digit c = true /\
      (rest = "" \/ exists s, suffix args = Some s /\ rest = "*" +:+ s) /\
      make_job_name args exp_config w = (inr ("debug_job" +:+ String c rest), w')) /\
   make_dir_path E args = TRAIN_DIR E) /\
  (make_dir_path E args =
     match experiment args with
     | Some e => if debug args then TRAIN_DIR E else TRAIN_DIR E +:+ e +:+ "/"
     | None => TRAIN_DIR E
     end).
Proof.
  split.
  - intros Hdebug. split.
    + destruct (make_job_name_debug args exp_config w Hdebug) as (c & Hc & Hjob).
      exists c. eexists. eexists. split; [done |]. split; [| exact Hjob].
      destruct (suffix args) as [s |]; [right; by exists s | by left].
    + unfold make_dir_path. rewrite Hdebug. by destruct (experiment args).
  - unfold make_dir_path. by destruct (experiment args), (debug args).
Qed.

(** C10.  With [--debug] and a suffix, the suffix is still appended:
    the job name is ["debug_job"], one digit, ["*"], the suffix. *)
Theorem debug_job_name_keeps_suffix (args : Args) (exp_config : TrainingConfig)
  (w : world) (s : string) :
  debug args = true ->
  suffix args = Some s ->
  exists c w',
    is_ascii_digit c = true /\
    make_job_name args exp_config w =
      (inr ("debug_job" +:+ String c ("*" +:+ s)), w').
Proof.
  intros Hdebug Hsuffix.
  destruct (make_job_name_debug args exp_config w Hdebug) as (c & Hc & Hjob).
  rewrite Hsuffix in Hjob. by exists c; eexists.
Qed.

Lemma debug_job_name_and_dir_witness :
  (exists c rest w',
     is_ascii_digit c = true /\
     (rest = "" \/ exists s, suffix Sample.args_debug = Some s /\ rest = "*" +:+ s) /\
     make_job_name Sample.args_debug Sample.exp_config Sample.w0
     = (inr ("debug_job" +:+ String c rest), w')) /\
  make_dir_path Sample.E Sample.args_debug = "/data/training/".
Proof.
  exact (proj1 (debug_job_name_and_dir Sample.E Sample.args_debug
                  Sample.exp_config Sample.w0) eq_refl).
Defined.

Lemma debug_job_name_keeps_suffix_witness :
  exists c w',
    is_ascii_digit c = true /\
    make_job_name Sample.args_debug Sample.exp_config Sample.w0
    = (inr ("debug_job" +:+ String c "*trial1"), w').
Proof.
  exact (debug_job_name_keeps_suffix Sample.args_debug Sample.exp_config
           Sample.w0 "trial1" eq_refl eq_refl).
Defined.

(** With the draw 7 on the tape, the debug job name of the sample
    arguments, and the run directory under it. *)
Example debug_job_name_sample :
  (make_job_name Sample.args_debug Sample.exp_config Sample.w0).1
  = inr "debug_job7*trial1"
  /\ OsPath.join (make_dir_path Sample.E Sample.args_debug) "debug_job7*trial1"
     = "/data/training/debug_job7*trial1".
Proof. split; reflexivity. Qed.

(** ** Loss selection *)

(** C2.  ["freq"] selects the Fourier-domain loss and ["image"] the
    image-domain loss, each for the configured output domain and loss
    kind; the selection raises exactly when the loss type is neither,
    and what it raises is the [ValueError] of line 172. *)
Theorem select_loss_by_type (exp_config : TrainingConfig) (w : world) :
  (loss_type exp_config = "freq" ->
   (select_loss exp_config w).1
   = inr (fourier_loss (output_domain exp_config) (loss exp_config))) /\
  (loss_type exp_config = "image" ->
   (select_loss exp_config w).1
   = inr (image_loss (output_domain exp_config) (loss exp_config))) /\
  ((exists e, (select_loss exp_config w).1 = inl e) <->
   loss_type exp_config <> "image" /\ loss_type exp_config <> "freq") /\
  (forall e, (select_loss exp_config w).1 = inl e -> e = ValueError "Unrecognized loss type.").
Proof.
  unfold select_loss.
  destruct (String.eqb (loss_type exp_config) "image") eqn:Himage;
    [apply String.eqb_eq in Himage | apply String.eqb_neq in Himage].
  { rewrite Himage. split; [done |]. split; [done |]. split; [split |].
    - intros [e He]. by simpl in He.
    - by intros [? _].
    - intros e He. by simpl in He. }
  destruct (String.eqb (loss_type exp_config) "freq") eqn:Hfreq;
    [apply String.eqb_eq in Hfreq | apply String.eqb_neq in Hfreq].
  { rewrite Hfreq. split; [done |]. split; [done |]. split; [split |].
    - intros [e He]. by simpl in He.
    - by intros [_ ?].
    - intros e He. by simpl in He. }
  split; [done |]. split; [done |]. split; [split |].
  - done.
  - intros _. by eexists.
  - intros e He. simpl in He. by injection He as <-.
Qed.

Lemma select_loss_by_type_witness :
  (select_loss Sample.exp_config Sample.w0).1 = inr (fourier_loss "FREQ" "L1")
  /\ (select_loss (Sample.with_loss_type "image" Sample.exp_config) Sample.w0).1
     = inr (image_loss "FREQ" "L1")
  /\ (select_loss (Sample.with_loss_type "other" Sample.exp_config) Sample.w0).1
     = inl (ValueError "Unrecognized loss type.").
Proof.
  split; [| split].
  - exact (proj1 (select_loss_by_type Sample.exp_config Sample.w0) eq_refl).
  - exact (proj1 (proj2 (select_loss_by_type
                           (Sample.with_loss_type "image" Sample.exp_config)
                           Sample.w0)) eq_refl).
  - pose proof (select_loss_by_type
                  (Sample.with_loss_type "other" Sample.exp_config) Sample.w0)
      as (_ & _ & Hraises & Hwhich).
    destruct (proj2 Hraises) as [e He]; [split; discriminate |].
    rewrite He. f_equal. exact (Hwhich e He).
Defined.

(** ** Sizing of the fit loop *)

(** C5.  With [--debug] the fit loop runs 5 epochs of 2 steps with 1
    validation step.  Without it, the epochs are the configured
    [num_epochs], the steps per epoch are the integer quotient of the
    first dimension of the training array by the batch size, and the
    validation steps are 8.  The quotient goes through a binary64
    division, which is exact below 2^53. *)
Theorem fit_sizes_by_debug (args : Args) (exp_config : TrainingConfig)
  (img_train : ndarray) (w : world) :
  (debug args = true ->
   fit_sizes args exp_config img_train w = (inr (5, 2, 1), w)) /\
  (debug args = false ->
   forall train_set_size,
     shape img_train !! 0%nat = Some train_set_size ->
     0 <= train_set_size < 2 ^ 53 ->
     0 < batch_size exp_config ->
     fit_sizes args exp_config img_train w
     = (inr (num_epochs exp_config,
             train_set_size / batch_size exp_config, 8), w)).
Proof.
  unfold fit_sizes. split; intros ->; [done |].
  intros n Hshape Hn Hb.
  destruct (PyFloatFacts.int_of_truediv_floor n (batch_size exp_config) Hn Hb)
    as (x & Hdiv & Hint).
  unfold bind, shape_at. rewrite Hshape. simpl.
  rewrite Hdiv. simpl. unfold ret. by rewrite Hint.
Qed.

Lemma fit_sizes_by_debug_witness :
  fit_sizes Sample.args_debug Sample.exp_config (Sample.E.(get_mri_images)).1 Sample.w0
  = (inr (5, 2, 1), Sample.w0)
  /\ fit_sizes Sample.args Sample.exp_config (Sample.E.(get_mri_images)).1 Sample.w0
     = (inr (20, 200, 8), Sample.w0).
Proof.
  split.
  - exact (proj1 (fit_sizes_by_debug Sample.args_debug Sample.exp_config
                    (Sample.E.(get_mri_images)).1 Sample.w0) eq_refl).
  - exact (proj2 (fit_sizes_by_debug Sample.args Sample.exp_config
                    (Sample.E.(get_mri_images)).1 Sample.w0)
             eq_refl 6400 eq_refl ltac:(lia) ltac:(reflexivity)).
Defined.

(** ** Paths *)

Module OsPathFacts.
Import OsPath.

Lemma append_cons (x : ascii) (a b : string) :
  String x a +:+ b = String x (a +:+ b).
Proof. reflexivity. Qed.

Lemma append_nil_r (s : string) : s +:+ "" = s.
Proof.
  induction s as [| c s IH]; [done |]. by rewrite append_cons, IH.
Qed.

Lemma append_assoc (a b c : string) : (a +:+ b) +:+ c = a +:+ (b +:+ c).
Proof.
  induction a as [| x a IH]; [done |]. by rewrite !append_cons, IH.
Qed.

Lemma append_eq_nil (a b : string) : a +:+ b = "" -> b = "".
Proof. destruct a; [done |]. by rewrite append_cons. Qed.

Lemma last_char_app (a b : string) :
  b <> "" -> last_char (a +:+ b) = last_char b.
Proof.
  intros Hb. induction a as [| x a IH]; [done |].
  rewrite append_cons. simpl.
  destruct (a +:+ b) eqn:Hab; [| done].
  by apply append_eq_nil in Hab.
Qed.

Lemma last_char_join (a b : string) :
  b <> "" -> last_char (join a b) = last_char b.
Proof.
  intros Hb. unfold join. destruct (startswith_sep b); [done |].
  destruct (_ || _).
  - by apply last_char_app.
  - rewrite (last_char_app a) by (by destruct b). by apply (last_char_app "/").
Qed.

Lemma last_app_cons {A} (l1 l2 : list A) :
  l2 <> [] -> last (l1 ++ l2) = last l2.
Proof. intros Hl2. destruct l2 as [| x l2]; [done |]. by rewrite last_app_cons. Qed.

(** The last component of a path that does not end with a separator
    ends with the last character of the path. *)
Lemma components_go_last (s cur : string) (c : ascii) :
  last_char (cur +:+ s) = Some c -> c <> "/"%char ->
  exists x, last (components_go s cur) = Some x /\ last_char x = Some c.
Proof.
  revert cur. induction s as [| a s IH]; intros cur Hlast Hc; simpl.
  - rewrite append_nil_r in Hlast. case_bool_decide as Hcur.
    + by subst cur.
    + by exists cur.
  - case_bool_decide as Ha.
    + subst a. destruct s as [| b s].
      { rewrite (last_char_app cur "/") in Hlast by done. simpl in Hlast. congruence. }
      rewrite (last_char_app cur) in Hlast by done.
      destruct (IH "" Hlast Hc) as (x & Hx & Hxc).
      exists x. split; [| done].
      rewrite last_app_cons; [done |]. intros Hnil. by rewrite Hnil in Hx.
    + apply IH; [| done]. by rewrite append_assoc.
Qed.

Lemma resolve_last (p : string) (c : ascii) :
  last_char p = Some c -> c <> "/"%char ->
  exists x, last (resolve p) = Some x /\ last_char x = Some c.
Proof.
  intros Hlast Hc. destruct (components_go_last p "" c Hlast Hc) as (x & Hx & Hxc).
  exists x. split; [| done]. unfold resolve.
  rewrite last_app_cons; [done |]. intros Hnil. by rewrite Hnil in Hx.
Qed.

(** Paths whose last characters differ, neither a separator, resolve to
    different keys. *)
Lemma resolve_ne_last_char (p q : string) (c d : ascii) :
  last_char p = Some c -> last_char q = Some d ->
  c <> "/"%char -> d <> "/"%char -> c <> d ->
  resolve p <> resolve q.
Proof.
  intros Hp Hq Hc Hd Hcd Heq.
  destruct (resolve_last p c Hp Hc) as (x & Hx & Hxc).
  destruct (resolve_last q d Hq Hd) as (y & Hy & Hyd).
  rewrite Heq in Hx. congruence.
Qed.

End OsPathFacts.

(** ** The file system calls *)

Module FsFacts.
Import OsPath Fs.

Lemma same_kind_refl n : same_kind n n.
Proof. by destruct n. Qed.

Lemma same_kind_trans n1 n2 n3 :
  same_kind n1 n2 -> same_kind n2 n3 -> same_kind n1 n3.
Proof. by destruct n1, n2, n3. Qed.

Lemma grows_refl fs : grows fs fs.
Proof. intros k n Hk. exists n. split; [done | apply same_kind_refl]. Qed.

Lemma grows_trans fs1 fs2 fs3 : grows fs1 fs2 -> grows fs2 fs3 -> grows fs1 fs3.
Proof.
  intros H12 H23 k n Hk.
  destruct (H12 k n Hk) as (n2 & Hk2 & Hs2).
  destruct (H23 k n2 Hk2) as (n3 & Hk3 & Hs3).
  exists n3. split; [done | by eapply same_kind_trans].
Qed.

Lemma node_at_insert_eq (fs : filesystem) k n :
  node_at fs k = None -> node_at (<[k := n]> fs) k = Some n.
Proof.
  unfold node_at. destruct (is_root k); [done |]. intros _. apply lookup_insert_eq.
Qed.

Lemma node_at_insert_ne (fs : filesystem) k k' n :
  k <> k' -> node_at (<[k := n]> fs) k' = node_at fs k'.
Proof.
  intros Hne. unfold node_at. destruct (is_root k'); [done |].
  by apply lookup_insert_ne.
Qed.

Lemma grows_insert_fresh (fs : filesystem) k n :
  node_at fs k = None -> grows fs (<[k := n]> fs).
Proof.
  intros Hfresh k' n' Hk'. exists n'. split; [| apply same_kind_refl].
  rewrite node_at_insert_ne; [done |]. intros ->. congruence.
Qed.

Lemma grows_insert_file (fs : filesystem) k c c' :
  node_at fs k = Some (File c) -> grows fs (<[k := File c']> fs).
Proof.
  intros Hold k' n' Hk'. destruct (decide (k = k')) as [<- | Hne].
  - exists (File c'). unfold node_at in *. destruct (is_root k); [done |].
    rewrite lookup_insert_eq. split; [done |]. by simplify_eq.
  - exists n'. rewrite node_at_insert_ne by done. split; [done | apply same_kind_refl].
Qed.

Lemma exists_grows fs fs' p :
  grows fs fs' -> exists_ p fs = true -> exists_ p fs' = true.
Proof.
  intros Hg. unfold exists_. case_bool_decide; [done |].
  destruct (node_at fs (resolve p)) as [n |] eqn:Hn; [| done].
  destruct (Hg _ _ Hn) as (n' & -> & Hkind).
  by destruct n, n'.
Qed.

Lemma mkdir_key_inv k fs fs' :
  mkdir_key k fs = (inr tt, fs') ->
  node_at fs k = None /\ fs' = <[k := Dir]> fs.
Proof.
  unfold mkdir_key. destruct (node_at fs k); [done |].
  destruct (node_at fs (parent k)) as [[| c] |]; [| done | done].
  by intros [= <-].
Qed.

Lemma mkdir_key_grows k fs r fs' : mkdir_key k fs = (r, fs') -> grows fs fs'.
Proof.
  unfold mkdir_key. destruct (node_at fs k) eqn:Hk.
  { intros [= _ <-]. apply grows_refl. }
  destruct (node_at fs (parent k)) as [[| c] |]; intros [= _ <-];
    auto using grows_refl, grows_insert_fresh.
Qed.

Lemma makedirs_rev_grows rk fs r fs' :
  makedirs_rev rk fs = (r, fs') -> grows fs fs'.
Proof.
  revert fs r fs'. induction rk as [| tail rhead IH]; intros fs r fs'; simpl.
  { apply mkdir_key_grows. }
  unfold bind, try_pass.
  destruct (negb (bool_decide (rhead = [])) && negb (present fs (rev rhead))).
  - destruct (makedirs_rev rhead fs) as [[e | []] fs1] eqn:Hhead.
    + apply IH in Hhead. destruct (is_FileExistsError e).
      * intros Hmk. apply mkdir_key_grows in Hmk. by eapply grows_trans.
      * by intros [= _ <-].
    + apply IH in Hhead.
      intros Hmk. apply mkdir_key_grows in Hmk. by eapply grows_trans.
  - apply mkdir_key_grows.
Qed.

Lemma makedirs_grows p fs r fs' : Fs.makedirs p fs = (r, fs') -> grows fs fs'.
Proof.
  unfold Fs.makedirs. case_bool_decide.
  - intros [= _ <-]. apply grows_refl.
  - apply makedirs_rev_grows.
Qed.

(** What [os.makedirs] returns normally from is a path that exists. *)
Lemma makedirs_exists p fs fs' :
  Fs.makedirs p fs = (inr tt, fs') -> exists_ p fs' = true.
Proof.
  unfold Fs.makedirs, exists_. case_bool_decide as Hp; [done |].
  pose proof (rev_involutive (resolve p)) as Hrev.
  destruct (rev (resolve p)) as [| tail rhead] eqn:Hrk; simpl.
  { intros Hmk. apply mkdir_key_inv in Hmk as [Hroot _]. done. }
  simpl in Hrev. rewrite Hrev. unfold bind, try_pass.
  assert (forall fs1, mkdir_key (resolve p) fs1 = (inr tt, fs') ->
            match node_at fs' (resolve p) with
            | Some Dir => true
            | Some (File _) => negb (endswith_sep p)
            | None => false
            end = true) as Hlast.
  { intros fs1 Hmk. apply mkdir_key_inv in Hmk as [Hfresh ->].
    by rewrite node_at_insert_eq. }
  destruct (negb (bool_decide (rhead = [])) && negb (present fs (rev rhead)));
    [| by apply Hlast].
  destruct (makedirs_rev rhead fs) as [[e | []] fs1]; [| by apply Hlast].
  destruct (is_FileExistsError e); [by apply Hlast | done].
Qed.

Lemma open_w_grows p fs r fs' : Fs.open_w p fs = (r, fs') -> grows fs fs'.
Proof.
  unfold Fs.open_w. case_bool_decide; [intros [= _ <-]; apply grows_refl |].
  destruct (node_at fs (resolve p)) as [[| c] |] eqn:Hk.
  - intros [= _ <-]. apply grows_refl.
  - destruct (endswith_sep p); intros [= _ <-];
      eauto using grows_refl, grows_insert_file.
  - destruct (endswith_sep p); [intros [= _ <-]; apply grows_refl |].
    destruct (node_at fs (parent (resolve p))) as [[| c] |]; intros [= _ <-];
      auto using grows_refl, grows_insert_fresh.
Qed.

Lemma write_grows p text fs r fs' : Fs.write p text fs = (r, fs') -> grows fs fs'.
Proof.
  unfold Fs.write. intros [= _ <-] k n Hk.
  unfold node_at in *. destruct (is_root k).
  { exists n. split; [done | apply same_kind_refl]. }
  destruct (decide (resolve p = k)) as [<- | Hne].
  - rewrite lookup_alter_eq, Hk. simpl. eexists. split; [done |]. by destruct n.
  - rewrite lookup_alter_ne by done. exists n. split; [done | apply same_kind_refl].
Qed.

Lemma copyfile_grows src dst fs r fs' :
  Fs.copyfile src dst fs = (r, fs') -> grows fs fs'.
Proof.
  unfold Fs.copyfile. destruct (_ && _); [intros [= _ <-]; apply grows_refl |].
  unfold bind.
  destruct (read_file src fs) as [[e | c] fs1] eqn:Hread.
  { intros [= _ <-]. unfold read_file in Hread.
    repeat case_match; simplify_eq; apply grows_refl. }
  assert (fs1 = fs) as ->.
  { unfold read_file in Hread. repeat case_match; by simplify_eq. }
  destruct (Fs.open_w dst fs) as [[e | []] fs2] eqn:Hopen.
  { intros [= _ <-]. by eapply open_w_grows. }
  intros Hwrite. eapply grows_trans; [by eapply open_w_grows | by eapply write_grows].
Qed.

Lemma preserves_refl fs : preserves fs fs.
Proof. by intros k n Hk. Qed.

Lemma preserves_trans fs1 fs2 fs3 :
  preserves fs1 fs2 -> preserves fs2 fs3 -> preserves fs1 fs3.
Proof. intros H12 H23 k n Hk. by apply H23, H12. Qed.

Lemma preserves_grows fs fs' : preserves fs fs' -> grows fs fs'.
Proof.
  intros Hp k n Hk. exists n. split; [by apply Hp | apply same_kind_refl].
Qed.

Lemma mkdir_key_preserves k fs r fs' : mkdir_key k fs = (r, fs') -> preserves fs fs'.
Proof.
  unfold mkdir_key. destruct (node_at fs k) eqn:Hk.
  { intros [= _ <-]. apply preserves_refl. }
  destruct (node_at fs (parent k)) as [[| c] |]; intros [= _ <-];
    try apply preserves_refl.
  intros k' n' Hk'. rewrite node_at_insert_ne; [done |]. intros ->. congruence.
Qed.

Lemma makedirs_rev_preserves rk fs r fs' :
  makedirs_rev rk fs = (r, fs') -> preserves fs fs'.
Proof.
  revert fs r fs'. induction rk as [| tail rhead IH]; intros fs r fs'; simpl.
  { apply mkdir_key_preserves. }
  unfold bind, try_pass.
  destruct (negb (bool_decide (rhead = [])) && negb (present fs (rev rhead))).
  - destruct (makedirs_rev rhead fs) as [[e | []] fs1] eqn:Hhead.
    + apply IH in Hhead. destruct (is_FileExistsError e).
      * intros Hmk. apply mkdir_key_preserves in Hmk. by eapply preserves_trans.
      * by intros [= _ <-].
    + apply IH in Hhead.
      intros Hmk. apply mkdir_key_preserves in Hmk. by eapply preserves_trans.
  - apply mkdir_key_preserves.
Qed.

Lemma makedirs_preserves p fs r fs' :
  Fs.makedirs p fs = (r, fs') -> preserves fs fs'.
Proof.
  unfold Fs.makedirs. case_bool_decide.
  - intros [= _ <-]. apply preserves_refl.
  - apply makedirs_rev_preserves.
Qed.

(** [makedirs] adds directories only: a file found afterwards was
    there before. *)
Lemma mkdir_key_files k fs r fs' k' c :
  mkdir_key k fs = (r, fs') ->
  node_at fs' k' = Some (File c) -> node_at fs k' = Some (File c).
Proof.
  unfold mkdir_key. destruct (node_at fs k) eqn:Hk; [by intros [= _ <-] |].
  destruct (node_at fs (parent k)) as [[| c'] |]; intros [= _ <-]; try done.
  destruct (decide (k = k')) as [<- | Hne].
  - by rewrite node_at_insert_eq.
  - by rewrite node_at_insert_ne.
Qed.

Lemma makedirs_rev_files rk fs r fs' k' c :
  makedirs_rev rk fs = (r, fs') ->
  node_at fs' k' = Some (File c) -> node_at fs k' = Some (File c).
Proof.
  revert fs r fs'. induction rk as [| tail rhead IH]; intros fs r fs'; simpl.
  { apply mkdir_key_files. }
  unfold bind, try_pass.
  destruct (negb (bool_decide (rhead = [])) && negb (present fs (rev rhead)));
    [| apply mkdir_key_files].
  destruct (makedirs_rev rhead fs) as [[e | []] fs1] eqn:Hhead.
  - destruct (is_FileExistsError e).
    + intros Hmk Hk'. eapply IH; [done |]. by eapply mkdir_key_files.
    + intros [= _ <-]. by eapply IH.
  - intros Hmk Hk'. eapply IH; [done |]. by eapply mkdir_key_files.
Qed.

Lemma makedirs_files p fs r fs' k' c :
  Fs.makedirs p fs = (r, fs') ->
  node_at fs' k' = Some (File c) -> node_at fs k' = Some (File c).
Proof.
  unfold Fs.makedirs. case_bool_decide.
  - by intros [= _ <-].
  - apply makedirs_rev_files.
Qed.

(** The file system calls raise nothing but [OSError]s. *)
Lemma mkdir_key_raises k fs e fs' :
  mkdir_key k fs = (inl e, fs') -> is_os_error e = true.
Proof.
  unfold mkdir_key. repeat case_match; by intros [= <- _].
Qed.

Lemma makedirs_rev_raises rk fs e fs' :
  makedirs_rev rk fs = (inl e, fs') -> is_os_error e = true.
Proof.
  revert fs e fs'. induction rk as [| tail rhead IH]; intros fs e fs'; simpl.
  { apply mkdir_key_raises. }
  unfold bind, try_pass.
  destruct (negb (bool_decide (rhead = [])) && negb (present fs (rev rhead)));
    [| apply mkdir_key_raises].
  destruct (makedirs_rev rhead fs) as [[e1 | []] fs1] eqn:Hhead;
    [| apply mkdir_key_raises].
  destruct (is_FileExistsError e1) eqn:He1; [apply mkdir_key_raises |].
  intros [= <- _]. by eapply IH.
Qed.

Lemma makedirs_raises p fs e fs' :
  Fs.makedirs p fs = (inl e, fs') -> is_os_error e = true.
Proof.
  unfold Fs.makedirs. case_bool_decide.
  - by intros [= <- _].
  - apply makedirs_rev_raises.
Qed.

Lemma read_file_inv p fs r fs' :
  read_file p fs = (r, fs') ->
  fs' = fs /\ match r with
              | inl e => is_os_error e = true
              | inr c => node_at fs (resolve p) = Some (File c)
              end.
Proof.
  unfold read_file. repeat case_match; intros [= <- <-]; by simplify_eq.
Qed.

Lemma open_w_raises p fs e fs' :
  Fs.open_w p fs = (inl e, fs') -> is_os_error e = true.
Proof.
  unfold Fs.open_w. repeat case_match; by intros [= <- _].
Qed.

Lemma open_w_inv p fs fs' :
  Fs.open_w p fs = (inr tt, fs') ->
  is_root (resolve p) = false /\ fs' = <[resolve p := File ""]> fs.
Proof.
  unfold Fs.open_w, node_at.
  destruct (is_root (resolve p)); repeat case_match; by intros [= <-].
Qed.

Lemma copyfile_raises src dst fs e fs' :
  Fs.copyfile src dst fs = (inl e, fs') -> is_os_error e = true.
Proof.
  unfold Fs.copyfile. destruct (_ && _); [by intros [= <- _] |].
  unfold bind.
  destruct (read_file src fs) as [[e1 | c] fs1] eqn:Hread.
  { intros [= <- _]. by apply read_file_inv in Hread as [_ ?]. }
  destruct (Fs.open_w dst fs1) as [[e1 | []] fs2] eqn:Hopen.
  { intros [= <- _]. by eapply open_w_raises. }
  done.
Qed.

(** After [copyfile] the destination holds what the source held, and
    every other node is what it was. *)
Lemma copyfile_inv src dst fs fs' :
  Fs.copyfile src dst fs = (inr tt, fs') ->
  exists c,
    node_at fs (resolve src) = Some (File c)
    /\ node_at fs' (resolve dst) = Some (File c)
    /\ forall k, k <> resolve dst -> node_at fs' k = node_at fs k.
Proof.
  unfold Fs.copyfile. destruct (_ && _); [done |].
  unfold bind.
  destruct (read_file src fs) as [[e1 | c] fs1] eqn:Hread; [done |].
  apply read_file_inv in Hread as [-> Hsrc].
  destruct (Fs.open_w dst fs) as [[e1 | []] fs2] eqn:Hopen; [done |].
  apply open_w_inv in Hopen as [Hroot ->].
  unfold Fs.write. intros [= <-]. exists c. split; [done |].
  unfold node_at. rewrite Hroot. split.
  - by rewrite lookup_alter_eq, lookup_insert_eq.
  - intros k Hk. destruct (is_root k); [done |].
    by rewrite lookup_alter_ne, lookup_insert_ne.
Qed.

End FsFacts.

(** ** Steps of the script *)

Lemma fs_call_inv {A} (ev : effect) (c : M filesystem A) (w : world) r w' :
  fs_call ev c w = (r, w') ->
  c (fs w) = (r, fs w')
  /\ exit_hooks w' = exit_hooks w
  /\ rng w' = rng w
  /\ trace w' = trace w ++ (if r is inr _ then [ev] else []).
Proof.
  unfold fs_call. destruct (c (fs w)) as [[e | a] fs1]; intros [= <- <-]; simpl.
  - by rewrite app_nil_r.
  - done.
Qed.

Lemma create_checkpoint_dir_present (checkpoint_dir : string) (w : world) :
  Fs.exists_ checkpoint_dir (fs w) = true ->
  create_checkpoint_dir checkpoint_dir w = (inr tt, w).
Proof.
  intros Hex. unfold create_checkpoint_dir, bind, path_exists. by rewrite Hex.
Qed.

Lemma create_checkpoint_dir_exists (checkpoint_dir : string) (w w' : world) :
  create_checkpoint_dir checkpoint_dir w = (inr tt, w') ->
  Fs.exists_ checkpoint_dir (fs w') = true.
Proof.
  unfold create_checkpoint_dir, bind, path_exists.
  destruct (Fs.exists_ checkpoint_dir (fs w)) eqn:Hex; simpl.
  - by intros [= <-].
  - intros Hmk. apply fs_call_inv in Hmk as (Hmk & _).
    by apply FsFacts.makedirs_exists in Hmk.
Qed.

(** C7.  Creating the checkpoint directory is idempotent: where the
    path exists the step returns normally and changes nothing, and a
    second creation after a first one returns normally and changes
    nothing. *)
Theorem checkpoint_dir_creation_idempotent (checkpoint_dir : string) (w : world) :
  (Fs.exists_ checkpoint_dir (fs w) = true ->
   create_checkpoint_dir checkpoint_dir w = (inr tt, w)) /\
  (forall w1,
     create_checkpoint_dir checkpoint_dir w = (inr tt, w1) ->
     create_checkpoint_dir checkpoint_dir w1 = (inr tt, w1)).
Proof.
  split.
  - apply create_checkpoint_dir_present.
  - intros w1 Hfirst. apply create_checkpoint_dir_present.
    by eapply create_checkpoint_dir_exists.
Qed.

Lemma checkpoint_dir_creation_idempotent_witness :
  let checkpoint_dir := "/data/training/run1*trial1" in
  let w1 := (create_checkpoint_dir checkpoint_dir Sample.w0).2 in
  fs w1 !! ["/"; "data"; "training"; "run1*trial1"]%string = Some Dir
  /\ create_checkpoint_dir checkpoint_dir w1 = (inr tt, w1)
  /\ create_checkpoint_dir checkpoint_dir w1 = (inr tt, w1).
Proof.
  intros checkpoint_dir w1.
  pose proof (checkpoint_dir_creation_idempotent checkpoint_dir Sample.w0)
    as [_ Htwice].
  pose proof (checkpoint_dir_creation_idempotent checkpoint_dir w1)
    as [Hpresent _].
  split; [vm_compute; reflexivity |]. split.
  - apply Htwice. vm_compute; reflexivity.
  - apply Hpresent. vm_compute; reflexivity.
Defined.

Ltac by_evaluation :=
  intros; repeat match goal with |- _ /\ _ => split end; vm_compute; reflexivity.

Ltac step H :=
  match type of H with
  | bind ?comp ?cont ?state = _ =>
      let Hstep := fresh "Hstep" in
      unfold bind at 1 in H;
      destruct (comp state) as [[?e | ?a] ?w] eqn:Hstep;
      [injection H as <- <-
      | cbv beta in H; repeat match goal with u : unit |- _ => destruct u end]
  end.

Lemma emit_eq (ev : effect) (w : world) :
  emit ev w
  = (inr tt, {| fs := fs w; trace := trace w ++ [ev];
                exit_hooks := exit_hooks w; rng := rng w |}).
Proof. reflexivity. Qed.

Lemma make_job_name_inv (args : Args) (exp_config : TrainingConfig) (w : world) r w' :
  make_job_name args exp_config w = (r, w') ->
  (exists job, r = inr job)
  /\ fs w' = fs w /\ trace w' = trace w /\ exit_hooks w' = exit_hooks w.
Proof.
  unfold make_job_name, bind, ret, randint. destruct (debug args); simpl.
  - intros [= <- <-]. eauto.
  - intros [= <- <-]. eauto.
Qed.

(** The job name is a function of the arguments, the configuration and
    the tape of draws. *)
Lemma make_job_name_rng (args : Args) (exp_config : TrainingConfig) (w1 w2 : world) :
  rng w1 = rng w2 ->
  (make_job_name args exp_config w1).1 = (make_job_name args exp_config w2).1.
Proof.
  intros Hrng. unfold make_job_name, bind, ret, randint.
  destruct (debug args); simpl; by rewrite ?Hrng.
Qed.

Lemma create_checkpoint_dir_inv (checkpoint_dir : string) (w : world) r w' :
  create_checkpoint_dir checkpoint_dir w = (r, w') ->
  exit_hooks w' = exit_hooks w
  /\ Fs.preserves (fs w) (fs w')
  /\ (forall k c, Fs.node_at (fs w') k = Some (File c) ->
                  Fs.node_at (fs w) k = Some (File c))
  /\ match r with
     | inr _ =>
         trace w' = trace w ++
           (if Fs.exists_ checkpoint_dir (fs w) then [] else [EMakedirs checkpoint_dir])
         /\ Fs.exists_ checkpoint_dir (fs w') = true
     | inl e => trace w' = trace w /\ is_os_error e = true
     end.
Proof.
  intros Hrun. pose proof Hrun as Hrun'.
  unfold create_checkpoint_dir, bind, path_exists in Hrun.
  destruct (Fs.exists_ checkpoint_dir (fs w)) eqn:Hex; simpl in Hrun.
  - injection Hrun as <- <-. rewrite app_nil_r.
    split; [done |]. split; [apply FsFacts.preserves_refl |]. done.
  - apply fs_call_inv in Hrun as (Hmk & Hhooks & _ & Htrace).
    split; [done |]. split; [by eapply FsFacts.makedirs_preserves |].
    split; [intros k c; by eapply FsFacts.makedirs_files |].
    destruct r as [e | []].
    + rewrite app_nil_r in Htrace. split; [done |]. by eapply FsFacts.makedirs_raises.
    + split; [done |]. by eapply create_checkpoint_dir_exists.
Qed.

Lemma write_lines_inv (summary_file : string) (ls : list string) (w : world) r w' :
  write_lines summary_file ls w = (r, w') ->
  r = inr tt
  /\ trace w' = trace w ++ summary_writes summary_file ls
  /\ exit_hooks w' = exit_hooks w
  /\ Fs.grows (fs w) (fs w')
  /\ (forall k, k <> OsPath.resolve summary_file ->
                Fs.node_at (fs w') k = Fs.node_at (fs w) k)
  /\ (forall c, Fs.is_root (OsPath.resolve summary_file) = false ->
                fs w !! OsPath.resolve summary_file = Some (File c) ->
                fs w' !! OsPath.resolve summary_file
                = Some (File (c +:+ summary_text ls))).
Proof.
  revert w r w'. induction ls as [| x ls IH]; intros w r w'; simpl.
  - intros [= <- <-]. rewrite app_nil_r.
    repeat split; try done; [apply FsFacts.grows_refl |].
    intros c _ Hc. by rewrite OsPathFacts.append_nil_r.
  - intros Hrun. step Hrun.
    { unfold fh_write, fs_call, Fs.write in Hstep. done. }
    unfold fh_write in Hstep. apply fs_call_inv in Hstep as (Hw & Hhooks & _ & Htrace).
    pose proof (FsFacts.write_grows _ _ _ _ _ Hw) as Hgrows.
    unfold Fs.write in Hw. injection Hw as Hfs.
    apply IH in Hrun as (-> & Htrace' & Hhooks' & Hgrows' & Hother & Hcontent).
    split; [done |]. split.
    { rewrite Htrace', Htrace. by rewrite <- app_assoc. }
    split; [congruence |].
    split; [by eapply FsFacts.grows_trans |].
    split.
    + intros k Hk. rewrite Hother by done. rewrite <- Hfs.
      unfold Fs.node_at. destruct (Fs.is_root k); [done |].
      by rewrite lookup_alter_ne.
    + intros c Hroot Hc. rewrite <- OsPathFacts.append_assoc.
      apply Hcontent; [done |]. rewrite <- Hfs.
      by rewrite lookup_alter_eq, Hc.
Qed.

Lemma write_summary_inv (E : Env) (summary_file : string)
  (model_var : option model) (w : world) r w' :
  write_summary E summary_file model_var w = (r, w') ->
  exit_hooks w' = exit_hooks w
  /\ Fs.grows (fs w) (fs w')
  /\ (forall k, k <> OsPath.resolve summary_file ->
                Fs.node_at (fs w') k = Fs.node_at (fs w) k)
  /\ match r with
     | inr m =>
         model_var = Some m
         /\ trace w' = trace w ++ [EOpenW summary_file]
                          ++ summary_writes summary_file (summary_lines E m)
         /\ Fs.node_at (fs w') (OsPath.resolve summary_file)
            = Some (File (summary_text (summary_lines E m)))
     | inl e =>
         (is_os_error e = true /\ trace w' = trace w)
         \/ (e = NameError "model" /\ model_var = None
             /\ trace w' = trace w ++ [EOpenW summary_file])
     end.
Proof.
  intros Hrun. unfold write_summary in Hrun.
  step Hrun.
  { unfold open_w in Hstep. apply fs_call_inv in Hstep as (Hopen & Hhk & _ & Htr).
    rewrite app_nil_r in Htr.
    split; [done |]. split; [by eapply FsFacts.open_w_grows |].
    split; [| left; split; [by eapply FsFacts.open_w_raises | done]].
    intros k _. unfold Fs.open_w in Hopen.
    repeat case_match; try done; by injection Hopen as _ <-. }
  unfold open_w in Hstep. apply fs_call_inv in Hstep as (Hopen & Hhk & _ & Htr).
  pose proof (FsFacts.open_w_grows _ _ _ _ Hopen) as Hgrows.
  apply FsFacts.open_w_inv in Hopen as [Hroot Hfs].
  assert (forall k, k <> OsPath.resolve summary_file ->
            Fs.node_at (fs w0) k = Fs.node_at (fs w) k) as Hother.
  { intros k Hk. rewrite Hfs. by apply FsFacts.node_at_insert_ne. }
  destruct model_var as [m |]; simpl in Hrun.
  - step Hrun; [done |]. injection Hstep as <- <-.
    step Hrun.
    { by apply write_lines_inv in Hstep as [? _]. }
    injection Hrun as <- <-.
    apply write_lines_inv in Hstep as (_ & Htr' & Hhk' & Hgrows' & Hother' & Hcontent).
    split; [congruence |]. split; [by eapply FsFacts.grows_trans |].
    split; [intros k Hk; by rewrite Hother', Hother |].
    split; [done |]. split.
    + rewrite Htr', Htr. by rewrite <- app_assoc.
    + unfold Fs.node_at. rewrite Hroot.
      apply (Hcontent "" Hroot). rewrite Hfs. apply lookup_insert_eq.
  - injection Hrun as <- <-.
    split; [done |]. split; [done |]. split; [done |]. right. done.
Qed.

Lemma create_tensorboard_dir_inv (tb_dir : string) (w : world) r w' :
  create_tensorboard_dir tb_dir w = (r, w') ->
  Fs.grows (fs w) (fs w')
  /\ match r with
     | inr _ =>
         trace w' = trace w ++ [EMakedirs tb_dir]
         /\ Fs.exists_ tb_dir (fs w) = false
     | inl e =>
         trace w' = trace w
         /\ ((e = ValueError tensorboard_exists_msg /\ w' = w
              /\ Fs.exists_ tb_dir (fs w) = true)
             \/ is_os_error e = true)
     end.
Proof.
  unfold create_tensorboard_dir, bind, path_exists.
  destruct (Fs.exists_ tb_dir (fs w)) eqn:Hex.
  - intros [= <- <-]. split; [apply FsFacts.grows_refl |]. split; [done |]. by left.
  - intros Hmk. apply fs_call_inv in Hmk as (Hmk & _ & _ & Htr).
    split; [apply FsFacts.preserves_grows; by eapply FsFacts.makedirs_preserves |].
    destruct r as [e | []]; [| done].
    rewrite app_nil_r in Htr. split; [done |]. right. by eapply FsFacts.makedirs_raises.
Qed.

(** The copy of the configuration file and the summary are different
    files. *)
Lemma config_copy_ne_summary (checkpoint_dir job : string) :
  OsPath.resolve (OsPath.join checkpoint_dir (job +:+ "_config.ini"))
  <> OsPath.resolve (OsPath.join checkpoint_dir "summary.txt").
Proof.
  assert (job +:+ "_config.ini" <> "") as Hne.
  { intros Hnil. by apply OsPathFacts.append_eq_nil in Hnil. }
  apply (OsPathFacts.resolve_ne_last_char _ _ "i"%char "t"%char); try done.
  - rewrite OsPathFacts.last_char_join by done.
    by rewrite OsPathFacts.last_char_app.
  - by rewrite OsPathFacts.last_char_join.
Qed.

Lemma fs_effects_app (t1 t2 : list effect) :
  fs_effects (t1 ++ t2) = fs_effects t1 ++ fs_effects t2.
Proof. apply List.filter_app. Qed.

Lemma compile_effects_app (t1 t2 : list effect) :
  compile_effects (t1 ++ t2) = compile_effects t1 ++ compile_effects t2.
Proof. apply List.filter_app. Qed.

Lemma fs_effects_summary_writes (summary_file : string) (ls : list string) :
  fs_effects (summary_writes summary_file ls) = summary_writes summary_file ls.
Proof. induction ls as [| x ls IH]; simpl; [done | by f_equal]. Qed.

Lemma compile_effects_summary_writes (summary_file : string) (ls : list string) :
  compile_effects (summary_writes summary_file ls) = [].
Proof. induction ls as [| x ls IH]; simpl; done. Qed.

Lemma compile_effects_makedirs_if (b : bool) (p : string) :
  compile_effects (if b then [] else [EMakedirs p]) = [].
Proof. by destruct b. Qed.

Lemma fs_effects_makedirs_if (b : bool) (p : string) :
  fs_effects (if b then [] else [EMakedirs p]) = if b then [] else [EMakedirs p].
Proof. by destruct b. Qed.

Lemma compile_effects_atexit_if (b : bool) (h : hook) :
  compile_effects (if b then [EAtexit h] else []) = [].
Proof. by destruct b. Qed.

Lemma fs_effects_atexit_if (b : bool) (h : hook) :
  fs_effects (if b then [EAtexit h] else []) = [].
Proof. by destruct b. Qed.

Create Rewrite HintDb effects.
#[local] Hint Rewrite fs_effects_app compile_effects_app
  fs_effects_summary_writes compile_effects_summary_writes
  compile_effects_makedirs_if fs_effects_makedirs_if
  compile_effects_atexit_if fs_effects_atexit_if
  app_nil_r : effects.

Ltac effects := autorewrite with effects; simpl; rewrite ?app_nil_r.

Ltac close_calls :=
  unfold spec_director_fs_calls; try eexists;
  rewrite <- ?app_assoc; simpl; rewrite <- ?app_assoc; reflexivity.

Lemma atexit_if_inv (b : bool) (h : hook) (w : world) r w' :
  (if b then atexit_register h else ret tt) w = (r, w') ->
  r = inr tt /\ fs w' = fs w
  /\ trace w' = trace w ++ (if b then [EAtexit h] else []).
Proof.
  destruct b; intros [= <- <-]; simpl; by rewrite ?app_nil_r.
Qed.

Lemma run_director_inv (E : Env) (args : Args) (exp_config : TrainingConfig)
  (model_var : option model) (w : world) r w' :
  run_director E args exp_config model_var w = (r, w') ->
  exists job w1,
    make_job_name args exp_config w = (inr job, w1) /\
    let checkpoint_dir := OsPath.join (make_dir_path E args) job in
    let config_copy := OsPath.join checkpoint_dir (job +:+ "_config.ini") in
    let summary_file := OsPath.join checkpoint_dir "summary.txt" in
    let tb_dir := OsPath.join checkpoint_dir "tensorboard/" in
    let calls := spec_director_fs_calls (Fs.exists_ checkpoint_dir (fs w))
                   (config args) checkpoint_dir job in
    exists t,
      trace w' = trace w ++ t /\ compile_effects t = [] /\
      Fs.grows (fs w) (fs w') /\
      match r with
      | inr (m, cp_callback, tb_callback) =>
          model_var = Some m
          /\ fs_effects t = calls (summary_lines E m)
          /\ cp_callback
             = ModelCheckpoint (OsPath.join checkpoint_dir "cp-{epoch:04d}.ckpt") 1 true 5
          /\ tb_callback = TensorBoard tb_dir 0 true true
          /\ Fs.exists_ tb_dir (fs w) = false
      | inl e =>
          (e = ValueError tensorboard_exists_msg /\
           exists m c,
             model_var = Some m
             /\ fs_effects t ++ [EMakedirs tb_dir] = calls (summary_lines E m)
             /\ Fs.exists_ checkpoint_dir (fs w') = true
             /\ Fs.exists_ tb_dir (fs w') = true
             /\ Fs.node_at (fs w) (OsPath.resolve (config args)) = Some (File c)
             /\ Fs.node_at (fs w') (OsPath.resolve config_copy) = Some (File c)
             /\ Fs.node_at (fs w') (OsPath.resolve summary_file)
                = Some (File (summary_text (summary_lines E m))))
          \/ ((is_os_error e = true \/ e = NameError "model") /\
              exists more,
                fs_effects t ++ more
                = calls (if model_var is Some m then summary_lines E m else []))
      end.
Proof.
  intros Hrun. unfold run_director in Hrun.
  (* job name *)
  step Hrun.
  { apply make_job_name_inv in Hstep as ([job Hjob] & _). done. }
  rename a into job, w0 into w1. exists job, w1. split; [done |].
  apply make_job_name_inv in Hstep as (_ & Hfs1 & Htr1 & _).
  intros checkpoint_dir config_copy summary_file tb_dir calls.
  fold checkpoint_dir in Hrun. fold config_copy summary_file tb_dir in Hrun.
  (* checkpoint directory *)
  step Hrun.
  { apply create_checkpoint_dir_inv in Hstep as (_ & Hpres & _ & Htr & Hos).
    rewrite Hfs1 in Hpres. exists []. rewrite app_nil_r.
    split; [congruence |]. split; [done |].
    split; [by apply FsFacts.preserves_grows |].
    right. split; [by left |]. by eexists. }
  apply create_checkpoint_dir_inv in Hstep as (_ & Hpres2 & Hfiles2 & Htr2 & Hex2).
  rewrite Hfs1 in Hpres2, Hfiles2, Htr2. rewrite Htr1 in Htr2.
  apply FsFacts.preserves_grows in Hpres2 as Hgrows2.
  set (mk := if Fs.exists_ checkpoint_dir (fs w) then [] else [EMakedirs checkpoint_dir])
    in *.
  (* print, atexit *)
  step Hrun; [done |]. injection Hstep as <-.
  step Hrun.
  { by apply atexit_if_inv in Hstep as [? _]. }
  apply atexit_if_inv in Hstep as (_ & Hfs3 & Htr3). simpl in Hfs3, Htr3.
  rewrite Htr2 in Htr3.
  set (atx := if debug args then [EAtexit (del_logs checkpoint_dir)] else []) in *.
  (* copy of the configuration file *)
  step Hrun.
  { unfold copyfile in Hstep. apply fs_call_inv in Hstep as (Hcp & _ & _ & Htr4).
    rewrite Hfs3 in Hcp. rewrite Htr3, app_nil_r in Htr4.
    rewrite <- ?app_assoc in Htr4. eexists. split; [exact Htr4 |]. subst mk atx. split; [by effects |].
    split.
    { eapply FsFacts.grows_trans; [done |]. by eapply FsFacts.copyfile_grows. }
    right. split; [left; by eapply FsFacts.copyfile_raises |].
    effects. unfold calls. close_calls. }
  unfold copyfile in Hstep. apply fs_call_inv in Hstep as (Hcp & _ & _ & Htr4).
  rewrite Hfs3 in Hcp. rewrite Htr3 in Htr4.
  pose proof (FsFacts.copyfile_grows _ _ _ _ _ Hcp) as Hgrows4.
  apply FsFacts.copyfile_inv in Hcp as (c & Hsrc & Hdst & _).
  apply Hfiles2 in Hsrc.
  (* summary *)
  step Hrun.
  { apply write_summary_inv in Hstep as (_ & Hgrows5 & _ & Hres).
    assert (Fs.grows (fs w) (fs w4)) as Hgrows.
    { eapply FsFacts.grows_trans; [done |]. by eapply FsFacts.grows_trans. }
    destruct Hres as [[Hos Htr5] | (-> & -> & Htr5)].
    - rewrite Htr4 in Htr5. rewrite <- ?app_assoc in Htr5. eexists. split; [exact Htr5 |].
      subst mk atx. split; [by effects |]. split; [done |].
      right. split; [by left |].
      effects. unfold calls. close_calls.
    - rewrite Htr4 in Htr5. rewrite <- ?app_assoc in Htr5. eexists. split; [exact Htr5 |].
      subst mk atx. split; [by effects |]. split; [done |].
      right. split; [by right |].
      effects. unfold calls. close_calls. }
  rename a into m.
  apply write_summary_inv in Hstep as (_ & Hgrows5 & Hother5 & -> & Htr5 & Hsum).
  rewrite Htr4 in Htr5.
  assert (Fs.grows (fs w) (fs w4)) as Hgrows.
  { eapply FsFacts.grows_trans; [done |]. by eapply FsFacts.grows_trans. }
  (* tensorboard directory *)
  step Hrun.
  { apply create_tensorboard_dir_inv in Hstep as (Hgrows6 & Htr6 & Hres).
    rewrite Htr5 in Htr6. rewrite <- ?app_assoc in Htr6. eexists. split; [exact Htr6 |].
    subst mk atx. split; [by effects |].
    split; [by eapply FsFacts.grows_trans |].
    destruct Hres as [(-> & -> & Hex6) | Hos].
    - left. split; [done |]. exists m, c. split; [done |].
      split.
      { effects. unfold calls. close_calls. }
      split.
      { eapply FsFacts.exists_grows; [| exact Hex2].
        by eapply FsFacts.grows_trans. }
      split; [done |]. split; [done |]. split; [| done].
      rewrite Hother5; [done |]. apply config_copy_ne_summary.
    - right. split; [by left |].
      effects. unfold calls. close_calls. }
  apply create_tensorboard_dir_inv in Hstep as (Hgrows6 & Htr6 & Hfresh).
  rewrite Htr5 in Htr6. injection Hrun as <- <-.
  rewrite <- ?app_assoc in Htr6. eexists. split; [exact Htr6 |].
  subst mk atx. split; [by effects |].
  split; [by eapply FsFacts.grows_trans |].
  split; [done |]. split; [effects; unfold calls; close_calls |].
  split; [done |]. split; [done |].
  destruct (Fs.exists_ tb_dir (fs w)) eqn:Hbefore; [| done].
  by rewrite (FsFacts.exists_grows _ _ _ Hgrows Hbefore) in Hfresh.
Qed.

(** C6.  Where the tensorboard directory exists, creating it raises the
    [ValueError] of line 159 and leaves the world as it was; so a second
    creation after a first one raises; and a run director started where
    the tensorboard directory of its job exists does not return
    normally. *)
Theorem tensorboard_dir_creation_raises_if_exists (tb_dir : string) (w : world) :
  (Fs.exists_ tb_dir (fs w) = true ->
   create_tensorboard_dir tb_dir w
   = (inl (ValueError "Tensorboard logs have already been created under this name."),
      w)) /\
  (forall w1,
     create_tensorboard_dir tb_dir w = (inr tt, w1) ->
     create_tensorboard_dir tb_dir w1
     = (inl (ValueError "Tensorboard logs have already been created under this name."),
        w1)) /\
  (forall (E : Env) (args : Args) (exp_config : TrainingConfig)
          (model_var : option model) (job : string) (wj : world),
     make_job_name args exp_config w = (inr job, wj) ->
     tb_dir = OsPath.join (OsPath.join (make_dir_path E args) job) "tensorboard/" ->
     Fs.exists_ tb_dir (fs w) = true ->
     exists e, (run_director E args exp_config model_var w).1 = inl e).
Proof.
  assert (forall w0, Fs.exists_ tb_dir (fs w0) = true ->
            create_tensorboard_dir tb_dir w0
            = (inl (ValueError "Tensorboard logs have already been created under this name."),
               w0)) as Hraise.
  { intros w0 Hex. unfold create_tensorboard_dir, bind, path_exists.
    by rewrite Hex. }
  split; [apply Hraise |]. split.
  - intros w1 Hfirst. apply Hraise.
    unfold create_tensorboard_dir, bind, path_exists in Hfirst.
    destruct (Fs.exists_ tb_dir (fs w)); [done |].
    apply fs_call_inv in Hfirst as (Hmk & _).
    by apply FsFacts.makedirs_exists in Hmk.
  - intros E args exp_config model_var job wj Hjob -> Hex.
    destruct (run_director E args exp_config model_var w)
      as [[e | [[m cp_callback] tb_callback]] w'] eqn:Hrun; [by exists e |].
    apply run_director_inv in Hrun
      as (job' & wj' & Hjob' & t & _ & _ & _ & _ & _ & _ & _ & Hfresh).
    rewrite Hjob in Hjob'. injection Hjob' as <- <-. congruence.
Qed.

Lemma tensorboard_dir_creation_raises_if_exists_witness :
  let tb_dir := "/data/training/run1*trial1/tensorboard/" in
  let w1 := (create_tensorboard_dir tb_dir Sample.w0).2 in
  create_tensorboard_dir tb_dir w1
  = (inl (ValueError "Tensorboard logs have already been created under this name."),
     w1)
  /\ create_tensorboard_dir tb_dir sample_after_first_run
     = (inl (ValueError "Tensorboard logs have already been created under this name."),
        sample_after_first_run)
  /\ exists e,
       (run_director Sample.E Sample.args Sample.exp_config
          (pick_architecture Sample.exp_config 128) sample_after_first_run).1
       = inl e.
Proof.
  intros tb_dir w1.
  split; [| split].
  - apply (proj1 (proj2 (tensorboard_dir_creation_raises_if_exists tb_dir Sample.w0))).
    vm_compute; reflexivity.
  - apply (proj1 (tensorboard_dir_creation_raises_if_exists tb_dir
                    sample_after_first_run)).
    vm_compute; reflexivity.
  - apply (proj2 (proj2 (tensorboard_dir_creation_raises_if_exists tb_dir
                           sample_after_first_run))
             Sample.E Sample.args Sample.exp_config _ "run1*trial1"
             sample_after_first_run);
      vm_compute; reflexivity.
Defined.

Lemma load_and_build_inv (E : Env) (exp_config : TrainingConfig) (w : world) r w' :
  load_and_build E exp_config w = (r, w') ->
  fs w' = fs w /\ rng w' = rng w /\
  exists t,
    trace w' = trace w ++ t /\ fs_effects t = [] /\ compile_effects t = [] /\
    match r with
    | inl e => (exists name, e = NameError name) \/ (exists msg, e = IndexError msg)
    | inr (img_train, _, _, model_var) =>
        exists n, shape img_train !! 1%nat = Some n
                  /\ model_var = pick_architecture exp_config n
                  /\ In (EPrint "Loaded model") t
    end.
Proof.
  intros Hrun. unfold load_and_build in Hrun.
  destruct (load_dataset E exp_config) as [[img_train img_val] |]; simpl in Hrun.
  2: { injection Hrun as <- <-. split; [done |]. split; [done |].
       exists []. rewrite app_nil_r. repeat split; eauto. }
  unfold bind, ret, print, emit, shape_at in Hrun; simpl in Hrun.
  destruct (shape img_train !! 1%nat) as [n |] eqn:Hshape; simpl in Hrun.
  - injection Hrun as <- <-. simpl. split; [done |]. split; [done |].
    eexists. rewrite <- !app_assoc. split; [done |]. split; [done |]. split; [done |].
    exists n. split; [done |]. split; [done |]. simpl. tauto.
  - injection Hrun as <- <-. simpl. split; [done |]. split; [done |].
    eexists. rewrite <- !app_assoc. split; [done |]. split; [done |]. split; [done |].
    right. by eexists.
Qed.

Lemma select_loss_inv (exp_config : TrainingConfig) (w : world) r w' :
  select_loss exp_config w = (r, w') ->
  fs w' = fs w /\
  match r with
  | inr used_loss =>
      trace w' = trace w ++ [ELoss used_loss]
      /\ (used_loss = image_loss (output_domain exp_config) (loss exp_config)
          \/ used_loss = fourier_loss (output_domain exp_config) (loss exp_config))
  | inl e => trace w' = trace w /\ e = ValueError "Unrecognized loss type."
  end.
Proof.
  unfold select_loss, losses_call, bind, emit, ret, raise.
  repeat case_match; intros [= <- <-]; simpl; auto.
Qed.

(** The loss selected does not depend on the world. *)
Lemma select_loss_world (exp_config : TrainingConfig) (w1 w2 : world) :
  (select_loss exp_config w1).1 = (select_loss exp_config w2).1.
Proof.
  unfold select_loss, losses_call, bind, emit, ret, raise.
  by repeat case_match.
Qed.

Lemma truediv_raises (a b : Z) e :
  PyFloat.truediv a b = inl e ->
  (exists msg, e = ZeroDivisionError msg) \/ (exists msg, e = OverflowError msg).
Proof.
  unfold PyFloat.truediv, PyFloat.truediv_pos.
  repeat case_match; intros [= <-]; simplify_eq; eauto.
Qed.

Lemma fit_sizes_inv (args : Args) (exp_config : TrainingConfig)
  (img_train : ndarray) (w : world) r w' :
  fit_sizes args exp_config img_train w = (r, w') ->
  w' = w /\ forall e, r = inl e -> forall msg, e <> ValueError msg.
Proof.
  unfold fit_sizes, bind, ret, shape_at, lift_result, raise.
  destruct (debug args); [by intros [= <- <-] |].
  destruct (shape img_train !! 0%nat); simpl; [| by intros [= <- <-]; split; [| intros ? [= <-]]].
  destruct (PyFloat.truediv _ _) as [e |] eqn:Hdiv; intros [= <- <-]; (split; [done |]).
  - intros e' [= <-] msg. by destruct (truediv_raises _ _ _ Hdiv) as [[? ->] | [? ->]].
  - done.
Qed.

Lemma train_inv (E : Env) (args : Args) (exp_config : TrainingConfig)
  (img_train : ndarray) (train_generator val_generator : generator)
  (m : model) (cp_callback tb_callback : callback) (w : world) r w' :
  train E args exp_config img_train train_generator val_generator m
    cp_callback tb_callback w = (r, w') ->
  fs w' = fs w /\
  exists t,
    trace w' = trace w ++ t /\ fs_effects t = [] /\
    (forall e, r = inl e -> e <> ValueError tensorboard_exists_msg) /\
    ((t = [] /\ r = inl (ValueError "Unrecognized loss type."))
     \/ exists used_loss,
          (select_loss exp_config w).1 = inr used_loss
          /\ compile_effects t
             = [ECompile m (Adam PyFloat.lit_1e_3) used_loss
                  [fourier_loss (output_domain exp_config) "L1";
                   fourier_loss (output_domain exp_config) "L2";
                   image_loss (output_domain exp_config) "L1";
                   image_loss (output_domain exp_config) "L2"]]
          /\ Forall (fun l => In (ELoss l) t)
               [fourier_loss (output_domain exp_config) "L1";
                fourier_loss (output_domain exp_config) "L2";
                image_loss (output_domain exp_config) "L1";
                image_loss (output_domain exp_config) "L2"]).
Proof.
  intros Hrun. unfold train in Hrun.
  step Hrun.
  { apply select_loss_inv in Hstep as (Hfs & Htr & ->).
    split; [done |]. exists []. rewrite app_nil_r.
    split; [done |]. split; [done |]. split; [by intros ? [= <-] |]. by left. }
  rename a into used_loss.
  pose proof (f_equal fst Hstep) as Hused. simpl in Hused.
  apply select_loss_inv in Hstep as (Hfs1 & Htr1 & _).
  unfold setup_model, losses_call, print in Hrun.
  unfold bind at 1 in Hrun; simpl in Hrun.
  set (w2 := {| fs := fs w0 |}) in Hrun.
  assert (fs w2 = fs w) as Hfs2 by done.
  assert (trace w2 = trace w ++
            [ELoss used_loss;
             ELoss (fourier_loss (output_domain exp_config) "L1");
             ELoss (fourier_loss (output_domain exp_config) "L2");
             ELoss (image_loss (output_domain exp_config) "L1");
             ELoss (image_loss (output_domain exp_config) "L2");
             ELoss (image_mag_loss (output_domain exp_config) "L1");
             ECompile m (Adam PyFloat.lit_1e_3) used_loss
               [fourier_loss (output_domain exp_config) "L1";
                fourier_loss (output_domain exp_config) "L2";
                image_loss (output_domain exp_config) "L1";
                image_loss (output_domain exp_config) "L2"];
             EPrint "Compiled model"]) as Htr2.
  { subst w2. simpl. rewrite Htr1. by rewrite <- !app_assoc. }
  clearbody w2.
  step Hrun.
  { destruct (debug args); by simplify_eq. }
  assert (fs w1 = fs w /\ exists dbg, trace w1 = trace w2 ++ dbg
                                      /\ fs_effects dbg = [] /\ compile_effects dbg = [])
    as (Hfs3 & dbg & Htr3 & Hdbg1 & Hdbg2).
  { destruct (debug args).
    - injection Hstep as <-. simpl. split; [done |].
      eexists. rewrite <- app_assoc. split; [done |]. done.
    - injection Hstep as <-. split; [done |]. exists []. by rewrite app_nil_r. }
  clear Hstep. rewrite Htr2 in Htr3. rewrite <- app_assoc in Htr3.
  assert (forall t0 : list effect,
            Forall (fun l => In (ELoss l)
                      (ELoss used_loss
                       :: ELoss (fourier_loss (output_domain exp_config) "L1")
                       :: ELoss (fourier_loss (output_domain exp_config) "L2")
                       :: ELoss (image_loss (output_domain exp_config) "L1")
                       :: ELoss (image_loss (output_domain exp_config) "L2")
                       :: t0))
              [fourier_loss (output_domain exp_config) "L1";
               fourier_loss (output_domain exp_config) "L2";
               image_loss (output_domain exp_config) "L1";
               image_loss (output_domain exp_config) "L2"]) as Hconstructed.
  { intros t0. repeat constructor; simpl; tauto. }
  step Hrun.
  { apply fit_sizes_inv in Hstep as (-> & Hnot).
    split; [congruence |].
    eexists. split; [exact Htr3 |].
    split; [effects; by rewrite Hdbg1 |].
    split; [intros e' [= <-]; by apply Hnot |].
    right. exists used_loss. split; [done |].
    split; [effects; by rewrite Hdbg2 |]. apply Hconstructed. }
  apply fit_sizes_inv in Hstep as (-> & _).
  destruct a as [[num_epochs_ steps_per_epoch] val_steps].
  injection Hrun as <- <-. simpl.
  split; [congruence |].
  eexists. split; [rewrite Htr3, <- app_assoc; reflexivity |].
  split; [effects; by rewrite Hdbg1 |].
  split; [done |].
  right. exists used_loss. split; [done |].
  split; [effects; by rewrite Hdbg2 |]. apply Hconstructed.
Qed.

(** ** The whole script *)

(** C8.  The model set-up does not look at [loss_type] or [loss]: for
    every network and every training loss it returns normally, builds
    the Fourier L1, Fourier L2, image L1 and image L2 losses of the
    configured output domain (and an image-magnitude loss that is used
    nowhere), and compiles with exactly those four as metrics and the
    training loss as loss.  In a whole run, the network is compiled at
    most once, exactly once if the run returns normally, and that call
    binds the loss chosen by the loss selection and these four
    metrics. *)
Theorem compile_binds_four_metrics (exp_config : TrainingConfig) :
  let metrics :=
    [fourier_loss (output_domain exp_config) "L1";
     fourier_loss (output_domain exp_config) "L2";
     image_loss (output_domain exp_config) "L1";
     image_loss (output_domain exp_config) "L2"] in
  (forall (m : model) (used_loss : loss_fn) (w : world),
     setup_model exp_config m used_loss w
     = (inr tt,
        {| fs := fs w;
           trace := trace w
                    ++ List.map ELoss metrics
                    ++ [ELoss (image_mag_loss (output_domain exp_config) "L1");
                        ECompile m (Adam PyFloat.lit_1e_3) used_loss metrics;
                        EPrint "Compiled model"];
           exit_hooks := exit_hooks w; rng := rng w |}))
  /\ length metrics = 4%nat
  /\ (forall (E : Env) (args : Args) (w : world) r w',
        main E args exp_config w = (r, w') ->
        exists t,
          trace w' = trace w ++ t /\
          ((compile_effects t = [] /\ r <> inr tt)
           \/ exists m used_loss,
                (select_loss exp_config w).1 = inr used_loss
                /\ compile_effects t
                   = [ECompile m (Adam PyFloat.lit_1e_3) used_loss metrics]
                /\ Forall (fun l => In (ELoss l) t) metrics)).
Proof.
  intros metrics. split; [| split; [done |]].
  { intros m used_loss w. subst metrics.
    unfold setup_model, losses_call, print, bind, emit, ret. simpl.
    by rewrite <- !app_assoc. }
  intros E args w r w' Hmain. unfold main in Hmain.
  step Hmain.
  { apply load_and_build_inv in Hstep as (_ & _ & t & Htr & _ & Hc & _).
    exists t. split; [done |]. by left. }
  destruct a as [[[img_train train_generator] val_generator] model_var].
  apply load_and_build_inv in Hstep as (_ & _ & tA & HtrA & _ & HcA & _).
  rename w0 into wA.
  step Hmain.
  { apply run_director_inv in Hstep as (job & wj & _ & tB & HtrB & HcB & _).
    exists (tA ++ tB). rewrite HtrB, HtrA, <- app_assoc. split; [done |].
    left. split; [| done]. effects. by rewrite HcA, HcB. }
  destruct a as [[m cp_callback] tb_callback].
  apply run_director_inv in Hstep as (job & wj & _ & tB & HtrB & HcB & _).
  rename w0 into wB.
  apply train_inv in Hmain as (_ & tC & HtrC & _ & _ & Hcases).
  exists (tA ++ tB ++ tC). rewrite HtrC, HtrB, HtrA, <- !app_assoc.
  split; [done |].
  destruct Hcases as [[-> ->] | (used_loss & Hused & HcC & Hbuilt)].
  - left. split; [| done]. effects. by rewrite HcA, HcB.
  - right. exists m, used_loss.
    split; [by rewrite (select_loss_world exp_config w wB) |]. split.
    { effects. by rewrite HcA, HcB, HcC. }
    eapply Forall_impl; [exact Hbuilt |].
    intros l Hl. apply in_or_app. right. apply in_or_app. by right.
Qed.

Lemma load_and_build_model (E : Env) (exp_config : TrainingConfig) (w w' : world)
  img_train train_generator val_generator model_var :
  load_and_build E exp_config w
  = (inr (img_train, train_generator, val_generator, model_var), w') ->
  model_var = model_of_run E exp_config.
Proof.
  unfold load_and_build, model_of_run.
  destruct (load_dataset E exp_config) as [[img img_val] |]; [| done].
  unfold bind, ret, print, emit, shape_at. simpl.
  destruct (shape img !! 1%nat); simpl; [| done]. by intros [= <- _ _ <- _].
Qed.

(** C9.  In every run the file system calls come in the order: checkpoint
    directory (unless it exists), copy of the configuration file as
    [job_name + "_config.ini"], model summary, tensorboard directory,
    where the model summary is one write for each line of the summary of
    the network of the run, in order.  A run that returns normally made
    all of them.  A run that stops on the [ValueError] of line 159 made
    all of them but the last: at that point the checkpoint directory
    exists, the copy holds what the configuration file held, and the
    summary file holds the summary of the network. *)
Theorem director_side_effects_in_order (E : Env) (args : Args)
  (exp_config : TrainingConfig) (w : world) r w' (job : string) :
  main E args exp_config w = (r, w') ->
  (make_job_name args exp_config w).1 = inr job ->
  let checkpoint_dir := OsPath.join (make_dir_path E args) job in
  let config_copy := OsPath.join checkpoint_dir (job +:+ "_config.ini") in
  let summary_file := OsPath.join checkpoint_dir "summary.txt" in
  let tb_dir := OsPath.join checkpoint_dir "tensorboard/" in
  let lines := if model_of_run E exp_config is Some m then summary_lines E m else [] in
  let calls := spec_director_fs_calls (Fs.exists_ checkpoint_dir (fs w))
                 (config args) checkpoint_dir job lines in
  exists t,
    trace w' = trace w ++ t
    /\ (exists more, fs_effects t ++ more = calls)
    /\ (r = inr tt -> is_Some (model_of_run E exp_config) /\ fs_effects t = calls)
    /\ (r = inl (ValueError tensorboard_exists_msg) ->
        is_Some (model_of_run E exp_config)
        /\ fs_effects t ++ [EMakedirs tb_dir] = calls
        /\ Fs.exists_ checkpoint_dir (fs w') = true
        /\ (exists c,
              Fs.node_at (fs w) (OsPath.resolve (config args)) = Some (File c)
              /\ Fs.node_at (fs w') (OsPath.resolve config_copy) = Some (File c))
        /\ Fs.node_at (fs w') (OsPath.resolve summary_file)
           = Some (File (summary_text lines))
        /\ Fs.exists_ tb_dir (fs w') = true).
Proof.
  intros Hmain Hjob checkpoint_dir config_copy summary_file tb_dir lines calls.
  unfold main in Hmain.
  step Hmain.
  { apply load_and_build_inv in Hstep as (_ & _ & t & Htr & Hfs & _ & He).
    exists t. split; [done |]. rewrite Hfs.
    split; [by eexists |]. split; [done |].
    intros [= ->]. by destruct He as [[? ?] | [? ?]]. }
  destruct a as [[[img_train train_generator] val_generator] model_var].
  pose proof (load_and_build_model _ _ _ _ _ _ _ _ Hstep) as Hmodel.
  apply load_and_build_inv in Hstep as (HfsA & HrngA & tA & HtrA & HeffA & _).
  rename w0 into wA.
  assert (forall job' wj, make_job_name args exp_config wA = (inr job', wj) ->
            job' = job) as Hsame.
  { intros job' wj Hjob'.
    pose proof (make_job_name_rng args exp_config wA w HrngA) as Heq.
    rewrite Hjob', Hjob in Heq. by injection Heq. }
  subst calls lines. rewrite <- Hmodel.
  step Hmain.
  { apply run_director_inv in Hstep
      as (job' & wj & Hjob' & tB & HtrB & _ & _ & Hcases).
    apply Hsame in Hjob' as ->. rewrite HfsA in Hcases.
    fold checkpoint_dir config_copy summary_file tb_dir in Hcases.
    exists (tA ++ tB).
    rewrite HtrB, HtrA, <- app_assoc. split; [done |].
    rewrite fs_effects_app, HeffA. simpl.
    destruct Hcases as [(-> & m & c & -> & Hcalls & Hcd & Htb & Hsrc & Hdst & Hsum)
                       | (Hkind & more & Hprefix)].
    - split; [by eexists |]. split; [done |].
      intros _. split; [by eexists |]. split; [done |]. split; [done |].
      split; [by exists c |]. done.
    - split; [by eexists |]. split; [done |].
      intros [= ->]. by destruct Hkind. }
  destruct a as [[m cp_callback] tb_callback].
  apply run_director_inv in Hstep
    as (job' & wj & Hjob' & tB & HtrB & _ & _ & -> & Hcalls & _).
  apply Hsame in Hjob' as ->. rewrite HfsA in Hcalls.
  apply train_inv in Hmain as (_ & tC & HtrC & HeffC & Hnot & _).
  exists (tA ++ tB ++ tC).
  rewrite HtrC, HtrB, HtrA, <- !app_assoc. split; [done |].
  rewrite !fs_effects_app, HeffA, HeffC, app_nil_r. simpl.
  split; [exists []; by rewrite app_nil_r |]. split; [by split; [eexists |] |].
  intros Hr. by destruct (Hnot _ Hr).
Qed.

Lemma compile_binds_four_metrics_witness :
  exists t,
    trace (main Sample.E Sample.args Sample.exp_config Sample.w0).2
    = trace Sample.w0 ++ t /\
    ((compile_effects t = []
      /\ (main Sample.E Sample.args Sample.exp_config Sample.w0).1 <> inr tt)
     \/ exists m used_loss,
          (select_loss Sample.exp_config Sample.w0).1 = inr used_loss
          /\ compile_effects t
             = [ECompile m (Adam PyFloat.lit_1e_3) used_loss
                  [fourier_loss "FREQ" "L1"; fourier_loss "FREQ" "L2";
                   image_loss "FREQ" "L1"; image_loss "FREQ" "L2"]]
          /\ Forall (fun l => In (ELoss l) t)
               [fourier_loss "FREQ" "L1"; fourier_loss "FREQ" "L2";
                image_loss "FREQ" "L1"; image_loss "FREQ" "L2"]).
Proof.
  apply (proj2 (proj2 (compile_binds_four_metrics Sample.exp_config))
           Sample.E Sample.args Sample.w0 _ _).
  vm_compute; reflexivity.
Defined.

(** The sample run compiles with the Fourier L1 loss as the training
    loss and the four metrics; a fifth loss, [image_mag_loss], is built
    on line 179 and bound nowhere. *)
Example sample_run_losses :
  List.filter (fun ev => match ev with ELoss _ | ECompile _ _ _ _ => true | _ => false end)
    (trace (main Sample.E Sample.args Sample.exp_config Sample.w0).2)
  = [ELoss (fourier_loss "FREQ" "L1");
     ELoss (fourier_loss "FREQ" "L1"); ELoss (fourier_loss "FREQ" "L2");
     ELoss (image_loss "FREQ" "L1"); ELoss (image_loss "FREQ" "L2");
     ELoss (image_mag_loss "FREQ" "L1");
     ECompile (get_conv_no_residual_model (128, 128, 2) "relu" 9 32 6)
       (Adam PyFloat.lit_1e_3) (fourier_loss "FREQ" "L1")
       [fourier_loss "FREQ" "L1"; fourier_loss "FREQ" "L2";
        image_loss "FREQ" "L1"; image_loss "FREQ" "L2"]].
Proof. by_evaluation. Qed.

Lemma director_side_effects_in_order_witness :
  let w1 := sample_after_first_run in
  let w' := (main Sample.E Sample.args Sample.exp_config w1).2 in
  let lines := summary_lines Sample.E
                 (get_conv_no_residual_model (128, 128, 2) "relu" 9 32 6) in
  (main Sample.E Sample.args Sample.exp_config w1).1
  = inl (ValueError tensorboard_exists_msg)
  /\ exists t,
       trace w' = trace w1 ++ t
       /\ fs_effects t ++ [EMakedirs "/data/training/run1*trial1/tensorboard/"]
          = spec_director_fs_calls true "cfg.ini" "/data/training/run1*trial1"
              "run1*trial1" lines
       /\ Fs.exists_ "/data/training/run1*trial1" (fs w') = true
       /\ Fs.node_at (fs w')
            (OsPath.resolve "/data/training/run1*trial1/run1*trial1_config.ini")
          = Some (File "[DATA]")
       /\ Fs.node_at (fs w') (OsPath.resolve "/data/training/run1*trial1/summary.txt")
          = Some (File (summary_text lines)).
Proof.
  intros w1 w' lines.
  assert ((main Sample.E Sample.args Sample.exp_config w1).1
          = inl (ValueError tensorboard_exists_msg)) as Hr by (vm_compute; reflexivity).
  split; [exact Hr |].
  destruct (director_side_effects_in_order Sample.E Sample.args Sample.exp_config
              w1 (inl (ValueError tensorboard_exists_msg)) w' "run1*trial1")
    as (t & Htr & _ & _ & Habort).
  { rewrite <- Hr. subst w'. by destruct (main _ _ _ w1). }
  { vm_compute; reflexivity. }
  destruct (Habort eq_refl) as (_ & Hcalls & Hcd & (c & Hsrc & Hdst) & Hsum & _).
  exists t. split; [exact Htr |].
  replace (Fs.exists_ _ (fs w1)) with true in * by (vm_compute; reflexivity).
  split; [exact Hcalls |]. split; [exact Hcd |].
  split; [| exact Hsum].
  transitivity (Some (File c)); [exact Hdst |].
  assert (Fs.node_at (fs w1) (OsPath.resolve (config Sample.args))
          = Some (File "[DATA]")) as Hcfg by (vm_compute; reflexivity).
  rewrite Hcfg in Hsrc. by injection Hsrc as <-.
Defined.

(** ** What an unrecognized architecture does *)

(** The dispatch of lines 98-124 has no [else]: for any other
    architecture name no network is built and nothing is raised. *)
Lemma pick_architecture_unknown (exp_config : TrainingConfig) (n : Z) :
  architecture exp_config <> "CONV" ->
  architecture exp_config <> "CONV_RESIDUAL" ->
  architecture exp_config <> "INTERLACER_RESIDUAL" ->
  pick_architecture exp_config n = None.
Proof.
  intros H1 H2 H3. unfold pick_architecture.
  apply String.eqb_neq in H1, H2, H3. by rewrite H1, H2, H3.
Qed.

(** C1, on the code.  With the architecture ["UNET"] the script raises
    nothing where it picks the architecture: it leaves [model] unbound,
    prints ["Loaded model"], creates the checkpoint directory, copies
    the configuration file, opens [summary.txt], and only then stops on
    the [NameError] of line 154. *)
Theorem unknown_architecture_falls_through :
  let exp_config := Sample.with_architecture "UNET" Sample.exp_config in
  pick_architecture exp_config 128 = None
  /\ (load_and_build Sample.E exp_config Sample.w0).1
     = inr ({| shape := [6400; 128; 128] |},
            make_generator exp_config {| shape := [6400; 128; 128] |} "train",
            make_generator exp_config {| shape := [800; 128; 128] |} "val",
            None)
  /\ (main Sample.E Sample.args exp_config Sample.w0).1 = inl (NameError "model")
  /\ trace (main Sample.E Sample.args exp_config Sample.w0).2
     = [EPrint "Generated training generator";
        EPrint "Generated validation generator";
        EPrint "Loaded model";
        EMakedirs "/data/training/run1*trial1";
        EPrint "Set up checkpointing";
        ECopyfile "cfg.ini" "/data/training/run1*trial1/run1*trial1_config.ini";
        EOpenW "/data/training/run1*trial1/summary.txt"].
Proof. by_evaluation. Qed.

(** ** Two runs of the sample *)

(** The first run returns normally; its fit loop has 20 epochs of 200
    steps with 8 validation steps. *)
Example sample_first_run :
  (run_process Sample.E Sample.args Sample.exp_config Sample.w0).1 = inr tt
  /\ last (trace sample_after_first_run)
     = Some (EFitGenerator
               (get_conv_no_residual_model (128, 128, 2) "relu" 9 32 6)
               (make_generator Sample.exp_config {| shape := [6400; 128; 128] |} "train")
               20 200
               (make_generator Sample.exp_config {| shape := [800; 128; 128] |} "val")
               8
               [ModelCheckpoint "/data/training/run1*trial1/cp-{epoch:04d}.ckpt" 1 true 5;
                TensorBoard "/data/training/run1*trial1/tensorboard/" 0 true true]
               1).
Proof. by_evaluation. Qed.

(** The second run with the same arguments stops on the [ValueError] of
    line 159 and leaves the tensorboard directory of the first run in
    place. *)
Example sample_second_run :
  let second := run_process Sample.E Sample.args Sample.exp_config sample_after_first_run in
  second.1 = inl (ValueError tensorboard_exists_msg)
  /\ fs second.2 !! ["/"; "data"; "training"; "run1*trial1"; "tensorboard"]%string
     = Some Dir.
Proof. by_evaluation. Qed.

(** A debug run sizes the fit loop 5, 2, 1 and its exit hook removes
    the run directory. *)
Example sample_debug_run :
  let run := run_process Sample.E Sample.args_debug Sample.exp_config Sample.w0 in
  run.1 = inr tt
  /\ Fs.exists_ "/data/training/debug_job7*trial1" (fs run.2) = false
  /\ List.filter (fun ev => match ev with EFitGenerator _ _ _ _ _ _ _ _ => true | _ => false end)
       (trace run.2)
     = [EFitGenerator
          (get_conv_no_residual_model (128, 128, 2) "relu" 9 32 6)
          (make_generator Sample.exp_config {| shape := [6400; 128; 128] |} "train")
          5 2
          (make_generator Sample.exp_config {| shape := [800; 128; 128] |} "val")
          1
          [ModelCheckpoint "/data/training/debug_job7*trial1/cp-{epoch:04d}.ckpt" 1 true 5;
           TensorBoard "/data/training/debug_job7*trial1/tensorboard/" 0 true true]
          1].
Proof. by_evaluation. Qed.

(** * Further properties of the script *)

(** ** Where the paths of a run lie *)

Module LayoutFacts.
Import OsPath OsPathFacts.

Lemma components_go_sep (a b cur : string) :
  components_go (a +:+ String "/" b) cur
  = components_go a cur ++ components_go b "".
Proof.
  revert cur. induction a as [| c a IH]; intros cur.
  - simpl. by case_bool_decide.
  - rewrite append_cons. simpl. case_bool_decide.
    + by rewrite IH, app_assoc.
    + apply IH.
Qed.

Lemma endswith_sep_split (a : string) :
  endswith_sep a = true -> exists a0, a = a0 +:+ "/".
Proof.
  induction a as [| c a IH]; [done |]. simpl.
  destruct a as [| c' a'].
  - case_bool_decide as Hc; [| done]. subst c. by exists "".
  - intros Hend. destruct (IH Hend) as [a0 Ha0].
    exists (String c a0). by rewrite append_cons, <- Ha0.
Qed.

Lemma startswith_sep_app (a b : string) :
  a <> "" -> startswith_sep (a +:+ b) = startswith_sep a.
Proof. by destruct a. Qed.

(** Joining a relative path onto a directory path appends its
    components. *)
Lemma resolve_join (a b : string) :
  startswith_sep b = false ->
  resolve (join a b) = resolve a ++ components_go b "".
Proof.
  intros Hb. unfold join. rewrite Hb.
  destruct (decide (a = "")) as [-> | Ha].
  { change (resolve b = resolve "" ++ components_go b "").
    unfold resolve. by rewrite Hb. }
  rewrite bool_decide_false by done. rewrite orb_false_l.
  unfold resolve.
  destruct (endswith_sep a) eqn:Hend.
  - rewrite startswith_sep_app by done.
    rewrite <- app_assoc. f_equal.
    destruct (endswith_sep_split _ Hend) as [a0 ->].
    rewrite append_assoc.
    change ("/" +:+ b) with (String "/" b).
    change "/"%string with (String "/" "").
    rewrite !components_go_sep. simpl. by rewrite app_nil_r.
  - rewrite startswith_sep_app by done.
    rewrite <- app_assoc. f_equal.
    change ("/" +:+ b) with (String "/" b).
    by rewrite components_go_sep.
Qed.


Lemma components_go_nonempty (s cur : string) :
  cur <> "" -> components_go s cur <> [].
Proof.
  revert cur. induction s as [| c s IH]; intros cur Hcur; simpl.
  - by case_bool_decide.
  - case_bool_decide.
    + by case_bool_decide.
    + apply IH. by destruct cur.
Qed.

Lemma components_go_no_sep (s cur : string) :
  has_no_sep cur = true ->
  Forall (fun x => has_no_sep x = true) (components_go s cur).
Proof.
  revert cur. induction s as [| c s IH]; intros cur Hcur; simpl.
  - case_bool_decide; by repeat constructor.
  - case_bool_decide as Hc.
    + apply Forall_app. split; [case_bool_decide; by repeat constructor |].
      by apply IH.
    + apply IH. clear IH. induction cur as [| d cur IHc]; simpl.
      * by rewrite bool_decide_false.
      * simpl in Hcur. apply andb_true_iff in Hcur as [Hd Hcur].
        by rewrite Hd, IHc.
Qed.

(** A path with a component that starts with an ordinary character is
    neither the root nor the working directory. *)
Lemma resolve_join_not_root (a : string) (c : ascii) (s : string) :
  c <> "/"%char ->
  Fs.is_root (resolve (join a (String c s))) = false.
Proof.
  intros Hc.
  rewrite resolve_join by (simpl; by rewrite bool_decide_false).
  assert (components_go (String c s) "" <> []) as Hne.
  { simpl. rewrite bool_decide_false by done. by apply components_go_nonempty. }
  pose proof (components_go_no_sep (String c s) "" eq_refl) as Hall.
  destruct (components_go (String c s) "") as [| x l]; [done |].
  apply Forall_cons in Hall as [Hx _].
  unfold Fs.is_root. apply orb_false_iff. split; apply bool_decide_eq_false.
  - by destruct (resolve a).
  - destruct (resolve a) as [| y [| z r]]; simpl.
    + intros [= -> ->]. done.
    + done.
    + done.
Qed.

End LayoutFacts.





(** Without a trailing separator in [TRAIN_DIR] the experiment name is
    glued onto its last component. *)
Example experiment_glued_without_trailing_separator :
  OsPath.resolve
    (make_dir_path
       {| TRAIN_DIR := "/data/training";
          get_mri_images := get_mri_images Sample.E;
          get_mnist_images := get_mnist_images Sample.E;
          summary_lines := summary_lines Sample.E;
          count_params := count_params Sample.E |}
       {| config := "cfg.ini"; experiment := Some "exp";
          suffix := None; debug := false |})
  = ["/"; "data"; "trainingexp"]%string.
Proof. reflexivity. Qed.

(** ** More on the file system calls *)

Module FsMore.
Import OsPath Fs FsFacts.

Lemma mkdir_key_parent k fs fs' :
  mkdir_key k fs = (inr tt, fs') ->
  node_at fs' k = Some Dir /\ node_at fs' (parent k) = Some Dir.
Proof.
  unfold mkdir_key. destruct (node_at fs k) eqn:Hk; [done |].
  destruct (node_at fs (parent k)) as [[| c] |] eqn:Hp; [| done | done].
  intros [= <-]. split; [by apply node_at_insert_eq |].
  rewrite node_at_insert_ne; [done |]. intros Heq. congruence.
Qed.

(** What [os.makedirs] returns normally from is a directory inside a
    directory. *)
Lemma makedirs_inv p fs fs' :
  Fs.makedirs p fs = (inr tt, fs') ->
  node_at fs' (resolve p) = Some Dir
  /\ node_at fs' (parent (resolve p)) = Some Dir.
Proof.
  unfold Fs.makedirs. case_bool_decide as Hp; [done |].
  pose proof (rev_involutive (resolve p)) as Hrev.
  destruct (rev (resolve p)) as [| tail rhead] eqn:Hrk; simpl.
  { intros Hmk. by apply mkdir_key_inv in Hmk as [Hroot _]. }
  simpl in Hrev. rewrite Hrev. unfold bind, try_pass.
  destruct (negb (bool_decide (rhead = [])) && negb (present fs (rev rhead)));
    [| apply mkdir_key_parent].
  destruct (makedirs_rev rhead fs) as [[e | []] fs1]; [| apply mkdir_key_parent].
  destruct (is_FileExistsError e); [apply mkdir_key_parent | done].
Qed.

Lemma read_file_ok p fs c fs' :
  read_file p fs = (inr c, fs') ->
  p <> "" /\ endswith_sep p = false /\ node_at fs (resolve p) = Some (File c).
Proof.
  unfold read_file. case_bool_decide; [done |].
  destruct (node_at fs (resolve p)) as [[| c'] |]; [done | | done].
  destruct (endswith_sep p); [done |]. by intros [= <- _].
Qed.

Lemma read_file_file p fs c :
  p <> "" -> endswith_sep p = false -> node_at fs (resolve p) = Some (File c) ->
  read_file p fs = (inr c, fs).
Proof.
  intros Hp Hend Hnode. unfold read_file.
  by rewrite bool_decide_false, Hnode, Hend.
Qed.

Lemma exists_file p fs c :
  p <> "" -> endswith_sep p = false -> node_at fs (resolve p) = Some (File c) ->
  exists_ p fs = true.
Proof.
  intros Hp Hend Hnode. unfold exists_.
  by rewrite bool_decide_false, Hnode, Hend.
Qed.

(** A successful copy read a regular file and did not find source and
    destination to be the same file. *)
Lemma copyfile_ok src dst fs fs' :
  Fs.copyfile src dst fs = (inr tt, fs') ->
  (exists c, read_file src fs = (inr c, fs))
  /\ (exists_ dst fs = true -> resolve src <> resolve dst).
Proof.
  unfold Fs.copyfile.
  destruct (exists_ src fs && exists_ dst fs
            && bool_decide (resolve src = resolve dst)) eqn:Hsame; [done |].
  unfold bind. destruct (read_file src fs) as [[e | c] fs1] eqn:Hread; [done |].
  pose proof (read_file_inv _ _ _ _ Hread) as [-> _].
  intros _. split; [by exists c |].
  intros Hdst Heq. apply read_file_ok in Hread as (Hp & Hend & Hnode).
  rewrite (exists_file _ _ _ Hp Hend Hnode), Hdst in Hsame.
  by rewrite bool_decide_true in Hsame.
Qed.

(** Whatever its outcome, a copy touches nothing but its destination. *)
Lemma copyfile_others src dst fs r fs' :
  Fs.copyfile src dst fs = (r, fs') ->
  forall k, k <> resolve dst -> node_at fs' k = node_at fs k.
Proof.
  unfold Fs.copyfile. destruct (_ && _); [by intros [= _ <-] |].
  unfold bind. destruct (read_file src fs) as [[e | c] fs1] eqn:Hread.
  { apply read_file_inv in Hread as [-> _]. by intros [= _ <-]. }
  apply read_file_inv in Hread as [-> _].
  destruct (Fs.open_w dst fs) as [[e | []] fs2] eqn:Hopen.
  { intros [= _ <-] k _. unfold Fs.open_w in Hopen.
    repeat case_match; try done; by injection Hopen as _ <-. }
  apply open_w_inv in Hopen as [Hroot ->].
  unfold Fs.write. intros [= _ <-] k Hk.
  unfold node_at. destruct (is_root k); [done |].
  by rewrite lookup_alter_ne, lookup_insert_ne.
Qed.

(** Opening an existing regular file for writing succeeds. *)
Lemma open_w_file p fs c :
  p <> "" -> endswith_sep p = false -> node_at fs (resolve p) = Some (File c) ->
  exists fs', Fs.open_w p fs = (inr tt, fs').
Proof.
  intros Hp Hend Hnode. unfold Fs.open_w.
  rewrite bool_decide_false, Hnode, Hend by done. by eexists.
Qed.

(** Copying a regular file over another regular file succeeds. *)
Lemma copyfile_file src dst fs c c' :
  read_file src fs = (inr c, fs) ->
  dst <> "" -> endswith_sep dst = false ->
  node_at fs (resolve dst) = Some (File c') ->
  resolve src <> resolve dst ->
  exists fs', Fs.copyfile src dst fs = (inr tt, fs').
Proof.
  intros Hread Hp Hend Hnode Hne. unfold Fs.copyfile.
  rewrite (bool_decide_false _ Hne), andb_false_r.
  unfold bind. rewrite Hread.
  destruct (open_w_file dst fs c' Hp Hend Hnode) as [fs1 ->].
  unfold Fs.write. by eexists.
Qed.

Lemma last_char_not_sep p c :
  last_char p = Some c -> c <> "/"%char -> p <> "" /\ endswith_sep p = false.
Proof.
  intros Hlast Hc. split; [by intros -> |].
  induction p as [| d p IH]; [done |]. simpl in *.
  destruct p as [| d' p']; [| by apply IH].
  injection Hlast as ->. by apply bool_decide_eq_false.
Qed.

(** [rmtree] on a directory removes what lies at or under it and
    nothing else. *)
Lemma rmtree_dir p fs :
  p <> "" -> node_at fs (resolve p) = Some Dir ->
  (forall k, under (resolve p) k -> rmtree_ignore_errors p fs !! k = None)
  /\ (forall k, ~ under (resolve p) k ->
                node_at (rmtree_ignore_errors p fs) k = node_at fs k).
Proof.
  intros Hp Hnode. unfold rmtree_ignore_errors.
  rewrite bool_decide_false, Hnode by done. split.
  - intros k Hk. apply map_lookup_filter_None. right. intros n _ Hnot. by apply Hnot.
  - intros k Hk. unfold node_at. destruct (is_root k); [done |].
    destruct (fs !! k) as [n |] eqn:Hlook.
    + apply map_lookup_filter_Some. done.
    + apply map_lookup_filter_None. by left.
Qed.

(** Whatever it finds, [rmtree] touches nothing outside its path. *)
Lemma rmtree_outside p fs k :
  ~ under (resolve p) k ->
  node_at (rmtree_ignore_errors p fs) k = node_at fs k.
Proof.
  intros Hk. unfold rmtree_ignore_errors.
  case_bool_decide; [done |].
  destruct (node_at fs (resolve p)) as [[| c] |]; [| done | done].
  unfold node_at. destruct (is_root k); [done |].
  destruct (fs !! k) as [n |] eqn:Hlook.
  - apply map_lookup_filter_Some. done.
  - apply map_lookup_filter_None. by left.
Qed.

End FsMore.

(** ** The phases of the script, outcome by outcome *)

Lemma load_and_build_cases (E : Env) (exp_config : TrainingConfig) (w : world) :
  match load_dataset E exp_config with
  | None => load_and_build E exp_config w = (inl (NameError "img_train"), w)
  | Some (img_train, img_val) =>
      match shape img_train !! 1%nat with
      | None =>
          load_and_build E exp_config w
          = (inl (IndexError "tuple index out of range"),
             {| fs := fs w;
                trace := trace w ++ [EPrint "Generated training generator";
                                     EPrint "Generated validation generator"];
                exit_hooks := exit_hooks w; rng := rng w |})
      | Some n =>
          load_and_build E exp_config w
          = (inr (img_train, make_generator exp_config img_train "train",
                  make_generator exp_config img_val "val",
                  pick_architecture exp_config n),
             {| fs := fs w;
                trace := trace w ++ [EPrint "Generated training generator";
                                     EPrint "Generated validation generator";
                                     EPrint "Loaded model"];
                exit_hooks := exit_hooks w; rng := rng w |})
      end
  end.
Proof.
  unfold load_and_build.
  destruct (load_dataset E exp_config) as [[img_train img_val] |]; [| done].
  unfold bind, ret, print, emit, shape_at. simpl.
  destruct (shape img_train !! 1%nat); simpl; by rewrite <- ?app_assoc.
Qed.

Lemma load_dataset_none (E : Env) (exp_config : TrainingConfig) :
  load_dataset E exp_config = None
  <-> dataset exp_config <> "MRI" /\ dataset exp_config <> "MNIST".
Proof.
  unfold load_dataset.
  destruct (String.eqb (dataset exp_config) "MRI") eqn:H1;
    [apply String.eqb_eq in H1 | apply String.eqb_neq in H1].
  { split; [done | by intros [? _]]. }
  destruct (String.eqb (dataset exp_config) "MNIST") eqn:H2;
    [apply String.eqb_eq in H2 | apply String.eqb_neq in H2].
  { split; [done | by intros [_ ?]]. }
  done.
Qed.

Lemma make_job_name_no_debug (args : Args) (exp_config : TrainingConfig) (w : world) :
  debug args = false ->
  make_job_name args exp_config w
  = (inr (match suffix args with
          | Some s => job_name exp_config +:+ "*" +:+ s
          | None => job_name exp_config
          end), w).
Proof. intros Hdebug. unfold make_job_name, bind, ret. by rewrite Hdebug. Qed.

Lemma make_job_name_world (args : Args) (exp_config : TrainingConfig) (w : world)
  job wj :
  make_job_name args exp_config w = (inr job, wj) ->
  fs wj = fs w /\ trace wj = trace w /\ exit_hooks wj = exit_hooks w
  /\ rng wj = if debug args then tl (rng w) else rng w.
Proof.
  unfold make_job_name, bind, ret, randint.
  destruct (debug args); simpl; by intros [= _ <-].
Qed.

Lemma create_tensorboard_dir_ok (tb_dir : string) (w w' : world) :
  create_tensorboard_dir tb_dir w = (inr tt, w') ->
  Fs.exists_ tb_dir (fs w) = false
  /\ Fs.preserves (fs w) (fs w')
  /\ Fs.node_at (fs w') (OsPath.resolve tb_dir) = Some Dir
  /\ Fs.node_at (fs w') (Fs.parent (OsPath.resolve tb_dir)) = Some Dir
  /\ exit_hooks w' = exit_hooks w /\ rng w' = rng w
  /\ trace w' = trace w ++ [EMakedirs tb_dir].
Proof.
  unfold create_tensorboard_dir, bind, path_exists.
  destruct (Fs.exists_ tb_dir (fs w)) eqn:Hex; [done |].
  intros Hmk. apply fs_call_inv in Hmk as (Hmk & Hhk & Hrng & Htr).
  split; [done |]. split; [by eapply FsFacts.makedirs_preserves |].
  by apply FsMore.makedirs_inv in Hmk as [? ?].
Qed.

Lemma create_tensorboard_dir_preserves (tb_dir : string) (w : world) r w' :
  create_tensorboard_dir tb_dir w = (r, w') ->
  Fs.preserves (fs w) (fs w') /\ exit_hooks w' = exit_hooks w /\ rng w' = rng w.
Proof.
  unfold create_tensorboard_dir, bind, path_exists.
  destruct (Fs.exists_ tb_dir (fs w)).
  - intros [= _ <-]. split; [apply FsFacts.preserves_refl | done].
  - intros Hmk. apply fs_call_inv in Hmk as (Hmk & Hhk & Hrng & _).
    split; [by eapply FsFacts.makedirs_preserves | done].
Qed.

Lemma write_summary_rng (E : Env) (summary_file : string)
  (model_var : option model) (w : world) r w' :
  write_summary E summary_file model_var w = (r, w') -> rng w' = rng w.
Proof.
  intros Hrun. unfold write_summary in Hrun.
  step Hrun.
  { unfold open_w in Hstep. by apply fs_call_inv in Hstep as (_ & _ & ? & _). }
  unfold open_w in Hstep. apply fs_call_inv in Hstep as (_ & _ & Hrng & _).
  destruct model_var as [m |]; simpl in Hrun; [| by injection Hrun as _ <-].
  step Hrun; [done |]. injection Hstep as <- <-.
  assert (forall ls w1 r1 w2, write_lines summary_file ls w1 = (r1, w2) ->
            rng w2 = rng w1) as Hlines.
  { induction ls as [| x ls IH]; intros w1 r1 w2; simpl.
    - by intros [= _ <-].
    - intros Hl. step Hl.
      + unfold fh_write in Hstep. by apply fs_call_inv in Hstep as (_ & _ & ? & _).
      + unfold fh_write in Hstep. apply fs_call_inv in Hstep as (_ & _ & Hr & _).
        apply IH in Hl. congruence. }
  step Hrun.
  - apply Hlines in Hstep. congruence.
  - apply Hlines in Hstep. injection Hrun as _ <-. congruence.
Qed.

Ltac step_ok H :=
  match type of H with
  | bind ?comp ?cont ?state = _ =>
      let Hstep := fresh "Hstep" in
      unfold bind at 1 in H;
      destruct (comp state) as [[?e | ?a] ?w] eqn:Hstep;
      [discriminate H
      | cbv beta in H; repeat match goal with u : unit |- _ => destruct u end]
  end.

Lemma config_copy_path (checkpoint_dir job : string) :
  let config_copy := OsPath.join checkpoint_dir (job +:+ "_config.ini") in
  config_copy <> "" /\ OsPath.endswith_sep config_copy = false.
Proof.
  intros config_copy. apply (FsMore.last_char_not_sep _ "i"%char); [| done].
  assert (job +:+ "_config.ini" <> "") as Hne.
  { intros Hnil. by apply OsPathFacts.append_eq_nil in Hnil. }
  unfold config_copy. rewrite OsPathFacts.last_char_join by done.
  by rewrite OsPathFacts.last_char_app.
Qed.

Lemma summary_path (checkpoint_dir : string) :
  let summary_file := OsPath.join checkpoint_dir "summary.txt" in
  summary_file <> "" /\ OsPath.endswith_sep summary_file = false.
Proof.
  intros summary_file. apply (FsMore.last_char_not_sep _ "t"%char); [| done].
  unfold summary_file. by rewrite OsPathFacts.last_char_join.
Qed.

(** What a run director that returns normally has done. *)
Lemma run_director_ok (E : Env) (args : Args) (exp_config : TrainingConfig)
  (model_var : option model) (w : world) m cp_callback tb_callback w' :
  run_director E args exp_config model_var w
  = (inr (m, cp_callback, tb_callback), w') ->
  exists job wj,
    make_job_name args exp_config w = (inr job, wj) /\
    let checkpoint_dir := OsPath.join (make_dir_path E args) job in
    let config_copy := OsPath.join checkpoint_dir (job +:+ "_config.ini") in
    let summary_file := OsPath.join checkpoint_dir "summary.txt" in
    let tb_dir := OsPath.join checkpoint_dir "tensorboard/" in
    model_var = Some m
    /\ cp_callback
       = ModelCheckpoint (OsPath.join checkpoint_dir "cp-{epoch:04d}.ckpt") 1 true 5
    /\ tb_callback = TensorBoard tb_dir 0 true true
    /\ rng w' = rng wj
    /\ exit_hooks w'
       = exit_hooks w ++ (if debug args then [del_logs checkpoint_dir] else [])
    /\ trace w'
       = trace w
         ++ (if Fs.exists_ checkpoint_dir (fs w) then [] else [EMakedirs checkpoint_dir])
         ++ [EPrint "Set up checkpointing"]
         ++ (if debug args then [EAtexit (del_logs checkpoint_dir)] else [])
         ++ [ECopyfile (config args) config_copy; EOpenW summary_file]
         ++ summary_writes summary_file (summary_lines E m)
         ++ [EMakedirs tb_dir]
    /\ Fs.exists_ tb_dir (fs w) = false
    /\ Fs.node_at (fs w') (OsPath.resolve tb_dir) = Some Dir
    /\ Fs.node_at (fs w') (Fs.parent (OsPath.resolve tb_dir)) = Some Dir
    /\ Fs.exists_ checkpoint_dir (fs w') = true
    /\ (exists c,
          Fs.read_file (config args) (fs w) = (inr c, fs w)
          /\ Fs.node_at (fs w') (OsPath.resolve config_copy) = Some (File c))
    /\ OsPath.resolve (config args) <> OsPath.resolve config_copy
    /\ Fs.node_at (fs w') (OsPath.resolve summary_file)
       = Some (File (summary_text (summary_lines E m))).
Proof.
  intros Hrun. unfold run_director in Hrun.
  step_ok Hrun.
  rename a into job, w0 into wj. exists job, wj. split; [done |].
  apply make_job_name_world in Hstep as (Hfs1 & Htr1 & Hhk1 & _).
  intros checkpoint_dir config_copy summary_file tb_dir.
  fold checkpoint_dir in Hrun. fold config_copy summary_file tb_dir in Hrun.
  (* checkpoint directory *)
  step_ok Hrun.
  assert (rng w0 = rng wj) as Hrng2.
  { unfold create_checkpoint_dir, bind, path_exists in Hstep.
    destruct (negb _); [| by injection Hstep as <-].
    by apply fs_call_inv in Hstep as (_ & _ & ? & _). }
  apply create_checkpoint_dir_inv in Hstep as (Hhk2 & Hpres2 & Hfiles2 & Htr2 & Hex2).
  rewrite Hfs1 in Hpres2, Hfiles2, Htr2. rewrite Htr1 in Htr2. rewrite Hhk1 in Hhk2.
  (* print, atexit *)
  step_ok Hrun. injection Hstep as <-.
  step_ok Hrun.
  assert (fs w1 = fs w0 /\ rng w1 = rng wj
          /\ exit_hooks w1
             = exit_hooks w ++ (if debug args then [del_logs checkpoint_dir] else [])
          /\ trace w1
             = (trace w0 ++ [EPrint "Set up checkpointing"])
               ++ (if debug args then [EAtexit (del_logs checkpoint_dir)] else []))
    as (Hfs3 & Hrng3 & Hhk3 & Htr3).
  { destruct (debug args); injection Hstep as <-; simpl;
      rewrite ?app_nil_r; by rewrite Hhk2. }
  clear Hstep.
  (* copy of the configuration file *)
  step_ok Hrun.
  unfold copyfile in Hstep. apply fs_call_inv in Hstep as (Hcp & Hhk4 & Hrng4 & Htr4).
  rewrite Hfs3 in Hcp.
  pose proof (FsMore.copyfile_ok _ _ _ _ Hcp) as ([c Hread] & Hdiff).
  pose proof (FsFacts.copyfile_grows _ _ _ _ _ Hcp) as Hgrows4.
  apply FsFacts.copyfile_inv in Hcp as (c' & Hsrc & Hdst & _).
  apply FsMore.read_file_ok in Hread as (Hsrc_ne & Hsrc_end & Hsrc').
  rewrite Hsrc' in Hsrc. injection Hsrc as <-.
  destruct (config_copy_path checkpoint_dir job) as [Hdst_ne Hdst_end].
  fold config_copy in Hdst_ne, Hdst_end.
  assert (OsPath.resolve (config args) <> OsPath.resolve config_copy) as Hkeys.
  { intros Heq. apply Hdiff; [| done].
    eapply FsMore.exists_file; [done | done |]. rewrite <- Heq. exact Hsrc'. }
  (* summary *)
  step_ok Hrun. rename a into m'.
  pose proof (write_summary_rng _ _ _ _ _ _ Hstep) as Hrng5.
  apply write_summary_inv in Hstep as (Hhk5 & Hgrows5 & Hother5 & -> & Htr5 & Hsum).
  (* tensorboard directory *)
  step_ok Hrun.
  apply create_tensorboard_dir_ok in Hstep
    as (Hfresh & Hpres6 & Htb & Hparent & Hhk6 & Hrng6 & Htr6).
  injection Hrun as <- <- <- <-.
  assert (Fs.grows (fs w) (fs w3)) as Hgrows.
  { eapply FsFacts.grows_trans; [by apply FsFacts.preserves_grows |].
    by eapply FsFacts.grows_trans. }
  split; [done |]. split; [done |]. split; [done |].
  split; [congruence |]. split; [congruence |].
  split.
  { rewrite Htr6, Htr5, Htr4, Htr3, Htr2. by rewrite <- !app_assoc. }
  split.
  { destruct (Fs.exists_ tb_dir (fs w)) eqn:Hbefore; [| done].
    by rewrite (FsFacts.exists_grows _ _ _ Hgrows Hbefore) in Hfresh. }
  split; [done |]. split; [done |].
  split.
  { eapply FsFacts.exists_grows; [| exact Hex2].
    eapply FsFacts.grows_trans; [exact Hgrows4 |].
    eapply FsFacts.grows_trans; [exact Hgrows5 |].
    by apply FsFacts.preserves_grows. }
  split.
  { exists c. split.
    - apply FsMore.read_file_file; [done | done |]. by apply Hfiles2.
    - apply Hpres6. rewrite Hother5; [done |]. apply config_copy_ne_summary. }
  split; [done |]. by apply Hpres6.
Qed.

Lemma fit_sizes_world (args : Args) (exp_config : TrainingConfig)
  (img_train : ndarray) (w w0 : world) :
  fit_sizes args exp_config img_train w
  = ((fit_sizes args exp_config img_train w0).1, w).
Proof.
  unfold fit_sizes, bind, ret, shape_at, lift_result, raise.
  destruct (debug args); [done |].
  destruct (shape img_train !! 0%nat); simpl; [| done].
  by destruct (PyFloat.truediv _ _).
Qed.

Lemma select_loss_cases (exp_config : TrainingConfig) (w : world) :
  (loss_type exp_config <> "image" /\ loss_type exp_config <> "freq"
   /\ select_loss exp_config w = (inl (ValueError "Unrecognized loss type."), w))
  \/ exists used_loss,
       (loss_type exp_config = "image" \/ loss_type exp_config = "freq")
       /\ select_loss exp_config w
          = (inr used_loss,
             {| fs := fs w; trace := trace w ++ [ELoss used_loss];
                exit_hooks := exit_hooks w; rng := rng w |}).
Proof.
  unfold select_loss.
  destruct (String.eqb (loss_type exp_config) "image") eqn:H1;
    [apply String.eqb_eq in H1 | apply String.eqb_neq in H1].
  { right. eexists. split; [by left | done]. }
  destruct (String.eqb (loss_type exp_config) "freq") eqn:H2;
    [apply String.eqb_eq in H2 | apply String.eqb_neq in H2].
  { right. eexists. split; [by right | done]. }
  by left.
Qed.

(** The events of lines 167-188 once a loss is selected. *)
Lemma train_cases (E : Env) (args : Args) (exp_config : TrainingConfig)
  (img_train : ndarray) (train_generator val_generator : generator)
  (m : model) (cp_callback tb_callback : callback) (w : world) r w' :
  train E args exp_config img_train train_generator val_generator m
    cp_callback tb_callback w = (r, w') ->
  fs w' = fs w /\ exit_hooks w' = exit_hooks w /\ rng w' = rng w /\
  ((loss_type exp_config <> "image" /\ loss_type exp_config <> "freq"
    /\ r = inl (ValueError "Unrecognized loss type.") /\ trace w' = trace w)
   \/ exists used_loss,
        (select_loss exp_config w).1 = inr used_loss /\
        let before_fit :=
          [ELoss used_loss;
           ELoss (fourier_loss (output_domain exp_config) "L1");
           ELoss (fourier_loss (output_domain exp_config) "L2");
           ELoss (image_loss (output_domain exp_config) "L1");
           ELoss (image_loss (output_domain exp_config) "L2");
           ELoss (image_mag_loss (output_domain exp_config) "L1");
           ECompile m (Adam PyFloat.lit_1e_3) used_loss
             [fourier_loss (output_domain exp_config) "L1";
              fourier_loss (output_domain exp_config) "L2";
              image_loss (output_domain exp_config) "L1";
              image_loss (output_domain exp_config) "L2"];
           EPrint "Compiled model"]
          ++ (if debug args
              then [ECountParams m;
                    EPrint ("Number of parameters: " +:+ str (count_params E m))]
              else []) in
        match (fit_sizes args exp_config img_train w).1 with
        | inl e => r = inl e /\ trace w' = trace w ++ before_fit
        | inr sizes =>
            r = inr tt
            /\ trace w'
               = trace w ++ before_fit
                 ++ [EFitGenerator m train_generator sizes.1.1 sizes.1.2
                       val_generator sizes.2 [cp_callback; tb_callback] 1]
        end).
Proof.
  unfold train. unfold bind at 1.
  destruct (select_loss_cases exp_config w) as [(H1 & H2 & ->) | (used_loss & _ & Hsel)].
  { intros [= <- <-]. split; [done |]. split; [done |]. split; [done |]. by left. }
  rewrite Hsel. cbv beta iota.
  unfold setup_model, losses_call, print. unfold bind at 1. unfold bind, emit, ret.
  simpl. intros Hrun.
  assert ((select_loss exp_config w).1 = inr used_loss) as Hused by (by rewrite Hsel).
  destruct (debug args) eqn:Hdebug; simpl in Hrun.
  - rewrite (fit_sizes_world _ _ _ _ w) in Hrun.
    destruct ((fit_sizes args exp_config img_train w).1)
      as [e | [[num_epochs_ steps_per_epoch] val_steps]] eqn:Hsizes;
      injection Hrun as <- <-; simpl;
      (split; [done |]); (split; [done |]); (split; [done |]);
      right; exists used_loss; (split; [done |]);
      simpl; (split; [done |]); by rewrite <- !app_assoc.
  - rewrite (fit_sizes_world _ _ _ _ w) in Hrun.
    destruct ((fit_sizes args exp_config img_train w).1)
      as [e | [[num_epochs_ steps_per_epoch] val_steps]] eqn:Hsizes;
      injection Hrun as <- <-; simpl;
      (split; [done |]); (split; [done |]); (split; [done |]);
      right; exists used_loss; (split; [done |]);
      simpl; (split; [done |]); by rewrite <- !app_assoc.
Qed.

(** The script is its three phases in sequence. *)
Lemma main_cases (E : Env) (args : Args) (exp_config : TrainingConfig)
  (w : world) r w' :
  main E args exp_config w = (r, w') ->
  match load_dataset E exp_config with
  | None => r = inl (NameError "img_train") /\ w' = w
  | Some (img_train, img_val) =>
      match shape img_train !! 1%nat with
      | None =>
          r = inl (IndexError "tuple index out of range")
          /\ w' = {| fs := fs w;
                     trace := trace w ++ [EPrint "Generated training generator";
                                          EPrint "Generated validation generator"];
                     exit_hooks := exit_hooks w; rng := rng w |}
      | Some n =>
          let wA := {| fs := fs w;
                       trace := trace w ++ [EPrint "Generated training generator";
                                            EPrint "Generated validation generator";
                                            EPrint "Loaded model"];
                       exit_hooks := exit_hooks w; rng := rng w |} in
          match run_director E args exp_config (pick_architecture exp_config n) wA with
          | (inl e, wB) => r = inl e /\ w' = wB
          | (inr (m, cp_callback, tb_callback), wB) =>
              train E args exp_config img_train
                (make_generator exp_config img_train "train")
                (make_generator exp_config img_val "val")
                m cp_callback tb_callback wB = (r, w')
          end
      end
  end.
Proof.
  unfold main. unfold bind at 1.
  pose proof (load_and_build_cases E exp_config w) as Hload.
  destruct (load_dataset E exp_config) as [[img_train img_val] |].
  2: { rewrite Hload. by intros [= <- <-]. }
  destruct (shape img_train !! 1%nat) as [n |].
  2: { rewrite Hload. by intros [= <- <-]. }
  rewrite Hload. cbv beta iota. unfold bind at 1.
  destruct (run_director _ _ _ _ _) as [[e | [[m cp_callback] tb_callback]] wB].
  - by intros [= <- <-].
  - done.
Qed.

(** Whatever its outcome, the run director changes no node other than
    the copy of the configuration file and the summary, registers no
    exit hook without [--debug], and draws no random number without
    it. *)
Lemma run_director_others (E : Env) (args : Args) (exp_config : TrainingConfig)
  (model_var : option model) (w : world) r w' :
  run_director E args exp_config model_var w = (r, w') ->
  exists job wj,
    make_job_name args exp_config w = (inr job, wj) /\
    let checkpoint_dir := OsPath.join (make_dir_path E args) job in
    let config_copy := OsPath.join checkpoint_dir (job +:+ "_config.ini") in
    let summary_file := OsPath.join checkpoint_dir "summary.txt" in
    (forall k n,
       k <> OsPath.resolve config_copy -> k <> OsPath.resolve summary_file ->
       Fs.node_at (fs w) k = Some n -> Fs.node_at (fs w') k = Some n)
    /\ rng w' = rng wj
    /\ (debug args = false -> exit_hooks w' = exit_hooks w).
Proof.
  intros Hrun. unfold run_director in Hrun.
  step Hrun.
  { apply make_job_name_inv in Hstep as ([job Hjob] & _). done. }
  rename a into job, w0 into wj. exists job, wj. split; [done |].
  apply make_job_name_world in Hstep as (Hfs1 & _ & Hhk1 & _).
  intros checkpoint_dir config_copy summary_file.
  fold checkpoint_dir in Hrun. fold config_copy summary_file in Hrun.
  assert (forall (w1 w2 : world) res,
            create_checkpoint_dir checkpoint_dir w1 = (res, w2) -> rng w2 = rng w1)
    as Hrng_cd.
  { intros w1 w2 res Hc. unfold create_checkpoint_dir, bind, path_exists in Hc.
    destruct (negb _); [| by injection Hc as _ <-].
    by apply fs_call_inv in Hc as (_ & _ & ? & _). }
  step Hrun.
  { pose proof (Hrng_cd _ _ _ Hstep) as Hrng.
    apply create_checkpoint_dir_inv in Hstep as (Hhk & Hpres & _).
    rewrite Hfs1 in Hpres. split; [intros k n _ _; apply Hpres |].
    split; [done |]. intros _. congruence. }
  pose proof (Hrng_cd _ _ _ Hstep) as Hrng2.
  apply create_checkpoint_dir_inv in Hstep as (Hhk2 & Hpres2 & _).
  rewrite Hfs1 in Hpres2.
  step Hrun; [done |]. injection Hstep as <-.
  step Hrun; [by destruct (debug args) |].
  assert (fs w1 = fs w0 /\ rng w1 = rng w0
          /\ (debug args = false -> exit_hooks w1 = exit_hooks w0))
    as (Hfs3 & Hrng3 & Hhk3).
  { by destruct (debug args); injection Hstep as <-. }
  clear Hstep.
  step Hrun.
  { unfold copyfile in Hstep. apply fs_call_inv in Hstep as (Hcp & Hhk4 & Hrng4 & _).
    rewrite Hfs3 in Hcp.
    pose proof (FsMore.copyfile_others _ _ _ _ _ Hcp) as Hother4.
    split; [intros k n Hk _ Hn; rewrite Hother4 by done; by apply Hpres2 |].
    split; [congruence |]. intros Hd. rewrite Hhk4, Hhk3 by done. congruence. }
  unfold copyfile in Hstep. apply fs_call_inv in Hstep as (Hcp & Hhk4 & Hrng4 & _).
  rewrite Hfs3 in Hcp.
  pose proof (FsMore.copyfile_others _ _ _ _ _ Hcp) as Hother4.
  step Hrun.
  { pose proof (write_summary_rng _ _ _ _ _ _ Hstep) as Hrng5.
    apply write_summary_inv in Hstep as (Hhk5 & _ & Hother5 & _).
    split; [intros k n Hk1 Hk2 Hn; rewrite Hother5, Hother4 by done; by apply Hpres2 |].
    split; [congruence |]. intros Hd. rewrite Hhk5, Hhk4, Hhk3 by done. congruence. }
  pose proof (write_summary_rng _ _ _ _ _ _ Hstep) as Hrng5.
  apply write_summary_inv in Hstep as (Hhk5 & _ & Hother5 & _).
  assert (forall w6 res, create_tensorboard_dir
                           (OsPath.join checkpoint_dir "tensorboard/") w3 = (res, w6) ->
            (forall k n,
               k <> OsPath.resolve config_copy -> k <> OsPath.resolve summary_file ->
               Fs.node_at (fs w) k = Some n -> Fs.node_at (fs w6) k = Some n)
            /\ rng w6 = rng wj
            /\ (debug args = false -> exit_hooks w6 = exit_hooks w)) as Hlast.
  { intros w6 res Htb.
    apply create_tensorboard_dir_preserves in Htb as (Hpres6 & Hhk6 & Hrng6).
    split.
    - intros k n Hk1 Hk2 Hn. apply Hpres6.
      rewrite Hother5, Hother4 by done. by apply Hpres2.
    - split; [congruence |]. intros Hd.
      rewrite Hhk6, Hhk5, Hhk4, Hhk3 by done. congruence. }
  step Hrun.
  - by eapply Hlast.
  - injection Hrun as _ <-. by eapply Hlast.
Qed.

Lemma pick_architecture_none (exp_config : TrainingConfig) (n : Z) :
  pick_architecture exp_config n = None ->
  architecture exp_config <> "CONV"
  /\ architecture exp_config <> "CONV_RESIDUAL"
  /\ architecture exp_config <> "INTERLACER_RESIDUAL".
Proof.
  unfold pick_architecture.
  destruct (String.eqb (architecture exp_config) "CONV") eqn:H1; [done |].
  destruct (String.eqb (architecture exp_config) "CONV_RESIDUAL") eqn:H2; [done |].
  destruct (String.eqb (architecture exp_config) "INTERLACER_RESIDUAL") eqn:H3;
    [done |].
  intros _. by apply String.eqb_neq in H1, H2, H3.
Qed.

Lemma fit_sizes_raises (args : Args) (exp_config : TrainingConfig)
  (img_train : ndarray) (w : world) e :
  (fit_sizes args exp_config img_train w).1 = inl e ->
  debug args = false
  /\ ((shape img_train !! 0%nat = None /\ e = IndexError "tuple index out of range")
      \/ (batch_size exp_config = 0 /\ e = ZeroDivisionError "division by zero")
      \/ exists msg, e = OverflowError msg).
Proof.
  unfold fit_sizes, bind, ret, shape_at, lift_result, raise.
  destruct (debug args); [done |]. split; [done |].
  destruct (shape img_train !! 0%nat) as [n |]; simpl in *.
  2: { left. split; [done |]. by injection H as <-. }
  revert H. unfold PyFloat.truediv, PyFloat.truediv_pos.
  destruct (batch_size exp_config =? 0) eqn:Hb.
  { intros [= <-]. right. left. split; [by apply Z.eqb_eq | done]. }
  repeat case_match; simpl; intros [= <-]; simplify_eq. right. right. by eexists.
Qed.

Lemma run_director_raises (E : Env) (args : Args) (exp_config : TrainingConfig)
  (model_var : option model) (w : world) e w' :
  run_director E args exp_config model_var w = (inl e, w') ->
  e = ValueError tensorboard_exists_msg
  \/ is_os_error e = true
  \/ (e = NameError "model" /\ model_var = None).
Proof.
  intros Hrun. unfold run_director in Hrun.
  step Hrun.
  { apply make_job_name_inv in Hstep as ([job Hjob] & _). done. }
  clear Hstep.
  step Hrun.
  { apply create_checkpoint_dir_inv in Hstep as (_ & _ & _ & _ & Hos). auto. }
  clear Hstep.
  step Hrun; [done |]. clear Hstep.
  step Hrun; [by destruct (debug args) |]. clear Hstep.
  step Hrun.
  { unfold copyfile in Hstep. apply fs_call_inv in Hstep as (Hcp & _).
    right. left. by eapply FsFacts.copyfile_raises. }
  clear Hstep.
  step Hrun.
  { apply write_summary_inv in Hstep as (_ & _ & _ & [[Hos _] | (-> & -> & _)]); auto. }
  clear Hstep.
  step Hrun; [| done].
  apply create_tensorboard_dir_inv in Hstep as (_ & _ & [(-> & _) | Hos]); auto.
Qed.

(** Every way the script can stop on an exception, with its cause. *)
Lemma main_raises_cases (E : Env) (args : Args) (exp_config : TrainingConfig)
  (w : world) e w' :
  main E args exp_config w = (inl e, w') ->
  (e = NameError "img_train" /\ load_dataset E exp_config = None /\ w' = w)
  \/ (e = IndexError "tuple index out of range"
      /\ exists img_train img_val,
           load_dataset E exp_config = Some (img_train, img_val)
           /\ shape img_train !! 1%nat = None)
  \/ (e = NameError "model"
      /\ architecture exp_config <> "CONV"
      /\ architecture exp_config <> "CONV_RESIDUAL"
      /\ architecture exp_config <> "INTERLACER_RESIDUAL")
  \/ is_os_error e = true
  \/ e = ValueError tensorboard_exists_msg
  \/ (e = ValueError "Unrecognized loss type."
      /\ loss_type exp_config <> "image" /\ loss_type exp_config <> "freq")
  \/ (e = ZeroDivisionError "division by zero"
      /\ batch_size exp_config = 0 /\ debug args = false)
  \/ (exists msg, e = OverflowError msg) /\ debug args = false.
Proof.
  intros Hmain. apply main_cases in Hmain.
  destruct (load_dataset E exp_config) as [[img_train img_val] |] eqn:Hload.
  2: { destruct Hmain as [[= ->] ->]. by left. }
  destruct (shape img_train !! 1%nat) as [n |] eqn:Hshape.
  2: { destruct Hmain as [[= ->] _]. right. left. split; [done |]. by eexists _, _. }
  cbv zeta in Hmain.
  destruct (run_director _ _ _ _ _) as [[e' | [[m cp_callback] tb_callback]] wB] eqn:Hdir.
  - destruct Hmain as [[= ->] _].
    apply run_director_raises in Hdir as [-> | [Hos | [-> Hnone]]].
    + do 4 right. by left.
    + do 3 right. by left.
    + right. right. left. split; [done |]. by eapply pick_architecture_none.
  - apply train_cases in Hmain as (_ & _ & _ & [(H1 & H2 & [= ->] & _) | (used & _ & Hfit)]).
    { do 5 right. left. done. }
    cbv zeta in Hfit.
    destruct ((fit_sizes args exp_config img_train wB).1) as [e' | sizes] eqn:Hsizes;
      [| by destruct Hfit].
    destruct Hfit as [[= ->] _].
    apply fit_sizes_raises in Hsizes as (Hdebug & [[Hnone _] | [[Hb ->] | [msg ->]]]).
    + exfalso. apply lookup_ge_None in Hnone.
      apply lookup_lt_Some in Hshape. lia.
    + do 6 right. left. done.
    + do 7 right. split; [by eexists | done].
Qed.

(** ** Exceptions, effects and what a run leaves behind *)

(** X1.  The dataset dispatch of lines 71-74 has no [else]: the script
    stops on [NameError] for [img_train] exactly when the dataset is
    neither ["MRI"] nor ["MNIST"], and it does so at line 76, before
    anything is printed or written. *)
Theorem unknown_dataset_raises_before_any_effect (E : Env) (args : Args)
  (exp_config : TrainingConfig) (w : world) :
  (dataset exp_config <> "MRI" /\ dataset exp_config <> "MNIST")
  <-> main E args exp_config w = (inl (NameError "img_train"), w).
Proof.
  split.
  - intros Hunknown.
    pose proof (proj2 (load_dataset_none E exp_config) Hunknown) as Hnone.
    unfold main. unfold bind at 1.
    pose proof (load_and_build_cases E exp_config w) as Hload.
    rewrite Hnone in Hload. by rewrite Hload.
  - intros Hmain. apply (load_dataset_none E).
    apply main_raises_cases in Hmain
      as [(_ & Hnone & _) | [(? & _) | [(? & _) | [? | [? | [(? & _) | [(? & _) | [[? ?] _]]]]]]]];
      done.
Qed.

Lemma unknown_dataset_raises_before_any_effect_witness :
  main Sample.E Sample.args
    {| dataset := "CIFAR"; task := "undersample";
       input_domain := "FREQ"; output_domain := "FREQ";
       corruption_frac := PyFloat.Float 1 (-1); batch_size := 32;
       architecture := "CONV"; nonlinearity := "relu";
       kernel_size := 9; num_features := 32; num_layers := 6;
       loss_type := "freq"; loss := "L1"; num_epochs := 20;
       job_name := "run1" |}
    Sample.w0
  = (inl (NameError "img_train"), Sample.w0).
Proof.
  apply (proj1 (unknown_dataset_raises_before_any_effect Sample.E Sample.args _
                  Sample.w0)).
  split; discriminate.
Defined.

(** X2.  A training array with fewer than two dimensions stops the
    script at line 97: [img_train.shape[1]] raises [IndexError] after
    both generators have been built and announced and before the
    architecture is picked; nothing has been written to the file system
    and no exit hook has been registered. *)
Theorem short_training_array_raises_index_error (E : Env) (args : Args)
  (exp_config : TrainingConfig) (w : world) (img_train img_val : ndarray) :
  load_dataset E exp_config = Some (img_train, img_val) ->
  (length (shape img_train) < 2)%nat ->
  main E args exp_config w
  = (inl (IndexError "tuple index out of range"),
     {| fs := fs w;
        trace := trace w ++ [EPrint "Generated training generator";
                             EPrint "Generated validation generator"];
        exit_hooks := exit_hooks w; rng := rng w |}).
Proof.
  intros Hload Hlen. unfold main. unfold bind at 1.
  pose proof (load_and_build_cases E exp_config w) as Hcases.
  rewrite Hload in Hcases.
  rewrite (proj2 (lookup_ge_None (shape img_train) 1)) in Hcases by lia.
  by rewrite Hcases.
Qed.

Lemma short_training_array_raises_index_error_witness :
  let E1 := {| TRAIN_DIR := "/data/training/";
               get_mri_images := ({| shape := [6400] |}, {| shape := [800] |});
               get_mnist_images := get_mnist_images Sample.E;
               summary_lines := summary_lines Sample.E;
               count_params := count_params Sample.E |} in
  main E1 Sample.args Sample.exp_config Sample.w0
  = (inl (IndexError "tuple index out of range"),
     {| fs := fs Sample.w0;
        trace := [EPrint "Generated training generator";
                  EPrint "Generated validation generator"];
        exit_hooks := []; rng := [7] |}).
Proof.
  intros E1.
  apply (short_training_array_raises_index_error E1 Sample.args Sample.exp_config
           Sample.w0 {| shape := [6400] |} {| shape := [800] |});
    [reflexivity | simpl; lia].
Defined.

Lemma fit_sizes_zero_batch (args : Args) (exp_config : TrainingConfig)
  (img_train : ndarray) (w : world) (n : Z) :
  debug args = false -> batch_size exp_config = 0 ->
  shape img_train !! 0%nat = Some n ->
  (fit_sizes args exp_config img_train w).1
  = inl (ZeroDivisionError "division by zero").
Proof.
  intros Hd Hb Hn. unfold fit_sizes, bind, shape_at. rewrite Hd, Hn, Hb. done.
Qed.

(** X3.  With batch size 0 and without [--debug] the script never
    returns normally, and it stops on the [ZeroDivisionError] of line
    197 exactly in the runs that got as far as compiling the network:
    by then the run directory is set up. *)
Theorem zero_batch_size_detected_after_compile (E : Env) (args : Args)
  (exp_config : TrainingConfig) (w : world) r w' :
  debug args = false ->
  batch_size exp_config = 0 ->
  main E args exp_config w = (r, w') ->
  r <> inr tt
  /\ exists t,
       trace w' = trace w ++ t
       /\ (r = inl (ZeroDivisionError "division by zero")
           <-> compile_effects t <> []).
Proof.
  intros Hdebug Hbatch Hmain. apply main_cases in Hmain.
  destruct (load_dataset E exp_config) as [[img_train img_val] |] eqn:Hload.
  2: { destruct Hmain as [-> ->]. split; [done |]. exists []. by rewrite app_nil_r. }
  destruct (shape img_train !! 1%nat) as [n |] eqn:Hshape.
  2: { destruct Hmain as [-> ->]. split; [done |]. eexists. split; [done |]. done. }
  cbv zeta in Hmain.
  destruct (run_director _ _ _ _ _) as [[e | [[m cp_callback] tb_callback]] wB] eqn:Hdir.
  - destruct Hmain as [-> ->]. split; [done |].
    pose proof (run_director_raises _ _ _ _ _ _ _ Hdir) as Hkind.
    apply run_director_inv in Hdir as (job & wj & _ & tB & HtrB & HcB & _).
    simpl in HtrB. rewrite <- app_assoc in HtrB.
    eexists. split; [exact HtrB |]. effects. rewrite HcB.
    split; [| done]. intros [= ->]. by destruct Hkind as [? | [? | [? _]]].
  - apply run_director_inv in Hdir as (job & wj & _ & tB & HtrB & HcB & _).
    simpl in HtrB. rewrite <- app_assoc in HtrB.
    assert (is_Some (shape img_train !! 0%nat)) as [n0 Hn0].
    { apply lookup_lt_is_Some. apply lookup_lt_Some in Hshape. lia. }
    apply train_cases in Hmain
      as (_ & _ & _ & [(_ & _ & -> & HtrC) | (used & _ & Hfit)]).
    + split; [done |]. rewrite HtrB in HtrC.
      eexists. split; [exact HtrC |]. effects. by rewrite HcB.
    + cbv zeta in Hfit.
      rewrite (fit_sizes_zero_batch _ _ _ _ n0 Hdebug Hbatch Hn0) in Hfit.
      destruct Hfit as [-> HtrC]. split; [done |].
      rewrite HtrB, Hdebug, <- !app_assoc in HtrC.
      eexists. split; [exact HtrC |]. effects. by rewrite HcB.
Qed.

Lemma zero_batch_size_detected_after_compile_witness :
  let cfg :=
    {| dataset := "MRI"; task := "undersample";
       input_domain := "FREQ"; output_domain := "FREQ";
       corruption_frac := PyFloat.Float 1 (-1); batch_size := 0;
       architecture := "CONV"; nonlinearity := "relu";
       kernel_size := 9; num_features := 32; num_layers := 6;
       loss_type := "freq"; loss := "L1"; num_epochs := 20;
       job_name := "run1" |} in
  (main Sample.E Sample.args cfg Sample.w0).1
  = inl (ZeroDivisionError "division by zero")
  /\ exists t,
       trace (main Sample.E Sample.args cfg Sample.w0).2 = trace Sample.w0 ++ t
       /\ compile_effects t <> [].
Proof.
  intros cfg.
  assert ((main Sample.E Sample.args cfg Sample.w0).1
          = inl (ZeroDivisionError "division by zero")) as Hr
    by (vm_compute; reflexivity).
  split; [exact Hr |].
  destruct (zero_batch_size_detected_after_compile Sample.E Sample.args cfg
              Sample.w0 (main Sample.E Sample.args cfg Sample.w0).1
              (main Sample.E Sample.args cfg Sample.w0).2 eq_refl eq_refl)
    as (_ & t & Htr & Hiff).
  { by destruct (main _ _ _ _). }
  exists t. split; [exact Htr |]. by apply Hiff.
Defined.

(** X4.  Without [--debug], for a positive batch size and a training set
    of fewer than 2^53 images, an epoch never asks for more images than
    the training set holds and leaves out fewer than one batch; a batch
    larger than the training set gives zero steps per epoch. *)
Theorem steps_per_epoch_bounds (args : Args) (exp_config : TrainingConfig)
  (img_train : ndarray) (w : world) (train_set_size : Z) :
  debug args = false ->
  shape img_train !! 0%nat = Some train_set_size ->
  0 <= train_set_size < 2 ^ 53 ->
  0 < batch_size exp_config ->
  exists steps_per_epoch,
    fit_sizes args exp_config img_train w
    = (inr (num_epochs exp_config, steps_per_epoch, 8), w)
    /\ 0 <= steps_per_epoch
    /\ steps_per_epoch * batch_size exp_config <= train_set_size
    /\ train_set_size < (steps_per_epoch + 1) * batch_size exp_config
    /\ (train_set_size < batch_size exp_config -> steps_per_epoch = 0).
Proof.
  intros Hdebug Hshape Hn Hb.
  destruct (PyFloatFacts.int_of_truediv_floor train_set_size
              (batch_size exp_config) Hn Hb) as (x & Hdiv & Hint).
  exists (PyFloat.int_of_float x). split.
  { unfold fit_sizes, bind, shape_at. rewrite Hdebug, Hshape. simpl.
    by rewrite Hdiv. }
  rewrite Hint.
  pose proof (Z.div_mod train_set_size (batch_size exp_config) ltac:(lia)) as Hdm.
  pose proof (Z.mod_pos_bound train_set_size (batch_size exp_config) Hb) as Hr.
  split; [apply Z.div_pos; lia |].
  split; [nia |]. split; [nia |].
  intros Hsmall. apply Z.div_small. lia.
Qed.

Lemma steps_per_epoch_bounds_witness :
  exists steps_per_epoch,
    fit_sizes Sample.args Sample.exp_config {| shape := [100; 128; 128] |} Sample.w0
    = (inr (20, steps_per_epoch, 8), Sample.w0)
    /\ 0 <= steps_per_epoch
    /\ steps_per_epoch * 32 <= 100
    /\ 100 < (steps_per_epoch + 1) * 32
    /\ (100 < 32 -> steps_per_epoch = 0).
Proof.
  apply (steps_per_epoch_bounds Sample.args Sample.exp_config
           {| shape := [100; 128; 128] |} Sample.w0 100);
    [reflexivity | reflexivity | lia | reflexivity].
Defined.

Lemma parent_child (k : list string) (x : string) : Fs.parent (k ++ [x]) = k.
Proof. unfold Fs.parent. apply removelast_last. Qed.

Lemma job_at_start (args : Args) (exp_config : TrainingConfig) (w wA wj : world)
  (job job' : string) :
  make_job_name args exp_config wA = (inr job', wj) ->
  (make_job_name args exp_config w).1 = inr job ->
  rng wA = rng w ->
  job' = job.
Proof.
  intros Hjob' Hjob Hrng.
  pose proof (make_job_name_rng args exp_config wA w Hrng) as Heq.
  rewrite Hjob', Hjob in Heq. by injection Heq.
Qed.

(** X6.  A run that returns normally did exactly this, in this order:
    the three progress messages, the run directory, the losses and the
    compilation, the parameter count in debug mode, and one call of
    [fit_generator] on the network that was summarised and compiled,
    with the train and validation generators built from the two image
    arrays, the sizes of lines 191-198, the two callbacks in the order
    checkpoint, tensorboard, and one worker. *)
Theorem successful_run_trace (E : Env) (args : Args)
  (exp_config : TrainingConfig) (w w' : world) :
  main E args exp_config w = (inr tt, w') ->
  exists img_train img_val n m used_loss job sizes,
    load_dataset E exp_config = Some (img_train, img_val)
    /\ shape img_train !! 1%nat = Some n
    /\ pick_architecture exp_config n = Some m
    /\ (make_job_name args exp_config w).1 = inr job
    /\ (select_loss exp_config w).1 = inr used_loss
    /\ (fit_sizes args exp_config img_train w).1 = inr sizes
    /\ trace w'
       = trace w
         ++ spec_successful_trace args exp_config E
              (Fs.exists_ (OsPath.join (make_dir_path E args) job) (fs w))
              job img_train img_val m used_loss sizes.
Proof.
  intros Hmain. apply main_cases in Hmain.
  destruct (load_dataset E exp_config) as [[img_train img_val] |] eqn:Hload;
    [| by destruct Hmain].
  destruct (shape img_train !! 1%nat) as [n |] eqn:Hshape; [| by destruct Hmain].
  cbv zeta in Hmain.
  destruct (run_director _ _ _ _ _) as [[e | [[m cp_callback] tb_callback]] wB] eqn:Hdir;
    [by destruct Hmain |].
  apply run_director_ok in Hdir
    as (job & wj & Hjob & Hm & -> & -> & _ & _ & HtrB & _).
  simpl in HtrB.
  apply train_cases in Hmain
    as (_ & _ & _ & [(_ & _ & ? & _) | (used_loss & Hused & Hfit)]); [done |].
  cbv zeta in Hfit.
  destruct ((fit_sizes args exp_config img_train wB).1) as [e | sizes] eqn:Hsizes;
    [by destruct Hfit |].
  destruct Hfit as [_ HtrC].
  exists img_train, img_val, n, m, used_loss, job, sizes.
  split; [done |]. split; [done |]. split; [done |].
  split.
  { pose proof (make_job_name_rng args exp_config w
                  {| fs := fs w;
                     trace := trace w ++ [EPrint "Generated training generator";
                                          EPrint "Generated validation generator";
                                          EPrint "Loaded model"];
                     exit_hooks := exit_hooks w; rng := rng w |} eq_refl) as Heq.
    rewrite Heq. by rewrite Hjob. }
  split; [by rewrite (select_loss_world exp_config w wB) |].
  split.
  { pose proof (fit_sizes_world args exp_config img_train w wB) as Heq.
    apply (f_equal fst) in Heq. simpl in Heq. by rewrite Heq. }
  rewrite HtrC, HtrB. unfold spec_successful_trace.
  destruct (Fs.exists_ _ (fs w)), (debug args);
    repeat (rewrite <- ?app_assoc; simpl); reflexivity.
Qed.

Lemma successful_run_trace_witness :
  exists img_train img_val n m used_loss job sizes,
    load_dataset Sample.E Sample.exp_config = Some (img_train, img_val)
    /\ shape img_train !! 1%nat = Some n
    /\ pick_architecture Sample.exp_config n = Some m
    /\ (make_job_name Sample.args Sample.exp_config Sample.w0).1 = inr job
    /\ (select_loss Sample.exp_config Sample.w0).1 = inr used_loss
    /\ (fit_sizes Sample.args Sample.exp_config img_train Sample.w0).1 = inr sizes
    /\ trace (main Sample.E Sample.args Sample.exp_config Sample.w0).2
       = trace Sample.w0
         ++ spec_successful_trace Sample.args Sample.exp_config Sample.E
              (Fs.exists_ (OsPath.join (make_dir_path Sample.E Sample.args) job)
                 (fs Sample.w0))
              job img_train img_val m used_loss sizes.
Proof.
  apply (successful_run_trace Sample.E Sample.args Sample.exp_config Sample.w0).
  vm_compute; reflexivity.
Defined.

Lemma config_copy_under (dir_path job : string) :
  OsPath.startswith_sep job = false ->
  under (OsPath.resolve (OsPath.join dir_path job))
    (OsPath.resolve (OsPath.join (OsPath.join dir_path job) (job +:+ "_config.ini"))).
Proof.
  intros Hstart. rewrite (LayoutFacts.resolve_join (OsPath.join dir_path job)).
  - by eexists.
  - by destruct job.
Qed.

Lemma summary_under (checkpoint_dir : string) :
  under (OsPath.resolve checkpoint_dir)
    (OsPath.resolve (OsPath.join checkpoint_dir "summary.txt")).
Proof. rewrite LayoutFacts.resolve_join by done. by eexists. Qed.

(** What the whole script leaves alone, whatever its outcome. *)
Lemma main_frame (E : Env) (args : Args) (exp_config : TrainingConfig)
  (w : world) r w' (job : string) :
  main E args exp_config w = (r, w') ->
  (make_job_name args exp_config w).1 = inr job ->
  let checkpoint_dir := OsPath.join (make_dir_path E args) job in
  let config_copy := OsPath.join checkpoint_dir (job +:+ "_config.ini") in
  let summary_file := OsPath.join checkpoint_dir "summary.txt" in
  Fs.grows (fs w) (fs w')
  /\ (forall k n,
        k <> OsPath.resolve config_copy -> k <> OsPath.resolve summary_file ->
        Fs.node_at (fs w) k = Some n -> Fs.node_at (fs w') k = Some n)
  /\ (debug args = false -> exit_hooks w' = exit_hooks w /\ rng w' = rng w).
Proof.
  intros Hmain Hjob checkpoint_dir config_copy summary_file.
  apply main_cases in Hmain.
  destruct (load_dataset E exp_config) as [[img_train img_val] |] eqn:Hload.
  2: { destruct Hmain as [_ ->]. split; [apply FsFacts.grows_refl | done]. }
  destruct (shape img_train !! 1%nat) as [n |] eqn:Hshape.
  2: { destruct Hmain as [_ ->]. split; [apply FsFacts.grows_refl | done]. }
  cbv zeta in Hmain.
  destruct (run_director _ _ _ _ _) as [[e | [[m cp_callback] tb_callback]] wB] eqn:Hdir.
  - destruct Hmain as [_ ->].
    pose proof (run_director_others _ _ _ _ _ _ _ Hdir)
      as (job' & wj & Hjob' & Hother & Hrng & Hhk).
    pose proof (job_at_start _ _ w _ _ job job' Hjob' Hjob eq_refl) as ->.
    pose proof (make_job_name_world _ _ _ _ _ Hjob') as (_ & _ & _ & Hrngj).
    apply run_director_inv in Hdir as (_ & _ & _ & _ & _ & _ & Hgrows & _).
    split; [done |]. split; [done |].
    intros Hd. split; [by apply Hhk |]. rewrite Hrng, Hrngj, Hd. done.
  - pose proof (run_director_others _ _ _ _ _ _ _ Hdir)
      as (job' & wj & Hjob' & Hother & Hrng & Hhk).
    pose proof (job_at_start _ _ w _ _ job job' Hjob' Hjob eq_refl) as ->.
    pose proof (make_job_name_world _ _ _ _ _ Hjob') as (_ & _ & _ & Hrngj).
    apply run_director_inv in Hdir as (_ & _ & _ & _ & _ & _ & Hgrows & _).
    apply train_cases in Hmain as (Hfs & Hhk' & Hrng' & _).
    rewrite Hfs. split; [done |]. split; [done |].
    intros Hd. split; [rewrite Hhk'; by apply Hhk |].
    rewrite Hrng', Hrng, Hrngj, Hd. done.
Qed.



Lemma exists_not_empty (p : string) (fs0 : filesystem) :
  Fs.exists_ p fs0 = true -> p <> "".
Proof. intros Hex ->. done. Qed.

(** X8.  A debug run that returns normally leaves no run directory
    behind: when the process has exited, nothing exists at or under the
    checkpoint directory and the last two effects are the [rmtree] and
    the message of lines 147-148.  Where the checkpoint directory is
    spelled from the root without [.] and [..], every node outside it
    (under a key spelled the same way) that existed at the start is
    what it was. *)
Theorem debug_run_removes_run_directory (E : Env) (args : Args)
  (exp_config : TrainingConfig) (w wf : world) (job : string) :
  debug args = true ->
  exit_hooks w = [] ->
  run_process E args exp_config w = (inr tt, wf) ->
  (make_job_name args exp_config w).1 = inr job ->
  let checkpoint_dir := OsPath.join (make_dir_path E args) job in
  (forall k, under (OsPath.resolve checkpoint_dir) k -> fs wf !! k = None)
  /\ Fs.exists_ checkpoint_dir (fs wf) = false
  /\ (exists t,
        trace wf = t ++ [ERmtree checkpoint_dir; EPrint "Deleted temp debug logs"])
  /\ (canonical (OsPath.resolve checkpoint_dir) = true ->
      forall k n,
        canonical k = true -> ~ under (OsPath.resolve checkpoint_dir) k ->
        Fs.node_at (fs w) k = Some n -> Fs.node_at (fs wf) k = Some n).
Proof.
  intros Hdebug Hhooks Hrun Hjob checkpoint_dir.
  unfold run_process in Hrun.
  destruct (main E args exp_config w) as [r w'] eqn:Hmain.
  injection Hrun as -> <-.
  pose proof (main_frame _ _ _ _ _ _ _ Hmain Hjob) as (_ & Hother & _).
  destruct (make_job_name_debug args exp_config w Hdebug) as (c & _ & Hshape_job).
  rewrite Hshape_job in Hjob. injection Hjob as Hjob.
  apply main_cases in Hmain.
  destruct (load_dataset E exp_config) as [[img_train img_val] |] eqn:Hload;
    [| by destruct Hmain].
  destruct (shape img_train !! 1%nat) as [n |] eqn:Hshape; [| by destruct Hmain].
  cbv zeta in Hmain.
  destruct (run_director _ _ _ _ _) as [[e | [[m cp_callback] tb_callback]] wB] eqn:Hdir;
    [by destruct Hmain |].
  apply run_director_ok in Hdir
    as (job' & wj & Hjob' & _ & _ & _ & _ & Hhk & _ & _ & _ & Hparent & Hcd & _).
  assert (job' = job) as ->.
  { destruct (make_job_name_debug args exp_config
                {| fs := fs w;
                   trace := trace w ++ [EPrint "Generated training generator";
                                        EPrint "Generated validation generator";
                                        EPrint "Loaded model"];
                   exit_hooks := exit_hooks w; rng := rng w |} Hdebug)
      as (c' & _ & Hshape_job').
    pose proof (make_job_name_rng args exp_config w
                  {| fs := fs w;
                     trace := trace w ++ [EPrint "Generated training generator";
                                          EPrint "Generated validation generator";
                                          EPrint "Loaded model"];
                     exit_hooks := exit_hooks w; rng := rng w |} eq_refl) as Heq.
    rewrite Hshape_job, Hjob' in Heq. simpl in Heq. by injection Heq as <-. }
  fold checkpoint_dir in Hhk, Hparent, Hcd.
  rewrite LayoutFacts.resolve_join in Hparent by done. simpl in Hparent.
  rewrite parent_child in Hparent.
  simpl in Hhk. rewrite Hhooks, Hdebug in Hhk. simpl in Hhk.
  apply train_cases in Hmain as (Hfs & Hhk' & _ & _).
  rewrite Hhk', Hhk. simpl. rewrite Hfs. rewrite Hfs in Hother.
  pose proof (exists_not_empty _ _ Hcd) as Hne.
  destruct (FsMore.rmtree_dir checkpoint_dir (fs wB) Hne Hparent) as [Hgone Hrest].
  assert (Fs.is_root (OsPath.resolve checkpoint_dir) = false) as Hroot.
  { unfold checkpoint_dir. rewrite <- Hjob.
    by apply (LayoutFacts.resolve_join_not_root _ "d"%char). }
  split; [exact Hgone |].
  split.
  { unfold Fs.exists_. rewrite bool_decide_false by done.
    unfold Fs.node_at. rewrite Hroot. rewrite Hgone; [done |]. exists []. by rewrite app_nil_r. }
  split; [by eexists |].
  intros _ k n0 _ Hk Hn. rewrite Hrest by done. apply Hother; [| | done].
  - intros ->. apply Hk. unfold checkpoint_dir.
    apply config_copy_under. by rewrite <- Hjob.
  - intros ->. apply Hk. apply summary_under.
Qed.

Lemma debug_run_removes_run_directory_witness :
  let w := sample_beside_old_run in
  let wf := (run_process Sample.E Sample.args_debug Sample.exp_config w).2 in
  Fs.exists_ "/data/training/debug_job7*trial1" (fs wf) = false
  /\ Fs.node_at (fs wf) ["/"; "data"; "training"; "old_run"; "weights"]%string
     = Some (File "W").
Proof.
  intros w wf.
  destruct (debug_run_removes_run_directory Sample.E Sample.args_debug
              Sample.exp_config w wf "debug_job7*trial1")
    as (_ & Hgone & _ & Hother).
  { reflexivity. }
  { reflexivity. }
  { vm_compute; reflexivity. }
  { reflexivity. }
  split; [exact Hgone |].
  apply Hother; [reflexivity | reflexivity | | reflexivity].
  intros [l Hl]. vm_compute in Hl. discriminate Hl.
Defined.

(** A run director started where the run directory of its job is
    complete: it copies the configuration file and writes the summary
    again, then stops at the tensorboard directory. *)
Lemma run_director_again (E : Env) (args : Args) (exp_config : TrainingConfig)
  (m : model) (w : world) (c c1 c2 : string) :
  debug args = false ->
  let job := match suffix args with
             | Some s => job_name exp_config +:+ "*" +:+ s
             | None => job_name exp_config
             end in
  let checkpoint_dir := OsPath.join (make_dir_path E args) job in
  let config_copy := OsPath.join checkpoint_dir (job +:+ "_config.ini") in
  let summary_file := OsPath.join checkpoint_dir "summary.txt" in
  let tb_dir := OsPath.join checkpoint_dir "tensorboard/" in
  Fs.exists_ checkpoint_dir (fs w) = true ->
  Fs.read_file (config args) (fs w) = (inr c, fs w) ->
  OsPath.resolve (config args) <> OsPath.resolve config_copy ->
  Fs.node_at (fs w) (OsPath.resolve config_copy) = Some (File c1) ->
  Fs.node_at (fs w) (OsPath.resolve summary_file) = Some (File c2) ->
  Fs.exists_ tb_dir (fs w) = true ->
  exists w',
    run_director E args exp_config (Some m) w
    = (inl (ValueError tensorboard_exists_msg), w')
    /\ exit_hooks w' = exit_hooks w
    /\ trace w'
       = trace w
         ++ [EPrint "Set up checkpointing";
             ECopyfile (config args) config_copy; EOpenW summary_file]
         ++ summary_writes summary_file (summary_lines E m)
    /\ Fs.node_at (fs w') (OsPath.resolve config_copy) = Some (File c)
    /\ Fs.node_at (fs w') (OsPath.resolve summary_file)
       = Some (File (summary_text (summary_lines E m)))
    /\ (forall k,
          k <> OsPath.resolve config_copy -> k <> OsPath.resolve summary_file ->
          Fs.node_at (fs w') k = Fs.node_at (fs w) k).
Proof.
  intros Hdebug job checkpoint_dir config_copy summary_file tb_dir
    Hcd Hread Hkeys Hcopy Hsum Htb.
  destruct (config_copy_path checkpoint_dir job) as [Hdst_ne Hdst_end].
  destruct (summary_path checkpoint_dir) as [Hsf_ne Hsf_end].
  fold config_copy in Hdst_ne, Hdst_end. fold summary_file in Hsf_ne, Hsf_end.
  pose proof (config_copy_ne_summary checkpoint_dir job) as Hne.
  fold config_copy summary_file in Hne.
  destruct (run_director E args exp_config (Some m) w) as [r w'] eqn:Hrun.
  exists w'. unfold run_director in Hrun. rewrite Hdebug in Hrun.
  step Hrun.
  { by rewrite make_job_name_no_debug in Hstep. }
  rewrite make_job_name_no_debug in Hstep by done. injection Hstep as <- <-.
  fold job checkpoint_dir in Hrun. fold config_copy summary_file tb_dir in Hrun.
  step Hrun.
  { by rewrite create_checkpoint_dir_present in Hstep. }
  rewrite create_checkpoint_dir_present in Hstep by done. injection Hstep as <-.
  step Hrun; [done |]. injection Hstep as <-.
  step Hrun; [done |]. injection Hstep as <-.
  (* copy *)
  destruct (FsMore.copyfile_file _ _ _ _ _ Hread Hdst_ne Hdst_end Hcopy Hkeys)
    as [fs1 Hcp].
  step Hrun.
  { unfold copyfile, fs_call in Hstep. simpl in Hstep. by rewrite Hcp in Hstep. }
  unfold copyfile in Hstep. apply fs_call_inv in Hstep as (Hcp' & Hhk1 & _ & Htr1).
  simpl in Hcp', Hhk1, Htr1. rewrite Hcp in Hcp'. injection Hcp' as Hfs1.
  apply FsFacts.copyfile_inv in Hcp as (c' & Hsrc & Hdst & Hother1).
  apply FsMore.read_file_ok in Hread as (_ & _ & Hsrc').
  rewrite Hsrc' in Hsrc. injection Hsrc as <-.
  rewrite Hfs1 in Hdst, Hother1.
  (* summary *)
  assert (Fs.node_at (fs w0) (OsPath.resolve summary_file) = Some (File c2)) as Hsum1.
  { rewrite Hother1; [done |]. by apply not_eq_sym. }
  destruct (FsMore.open_w_file _ _ _ Hsf_ne Hsf_end Hsum1) as [fs2 Hopen].
  step Hrun.
  { exfalso. unfold write_summary in Hstep. step Hstep.
    - unfold open_w, fs_call in Hstep0. by rewrite Hopen in Hstep0.
    - simpl in Hstep. step Hstep; [done |]. injection Hstep1 as <- <-.
      step Hstep; [| done]. by apply write_lines_inv in Hstep1 as [? _]. }
  rename a into m'.
  apply write_summary_inv in Hstep as (Hhk2 & Hgrows2 & Hother2 & [= <-] & Htr2 & Hsum2).
  (* tensorboard *)
  assert (Fs.exists_ tb_dir (fs w1) = true) as Htb2.
  { eapply FsFacts.exists_grows; [exact Hgrows2 |].
    eapply FsFacts.exists_grows; [| exact Htb].
    intros k n Hk. destruct (decide (k = OsPath.resolve config_copy)) as [-> | Hk'].
    - rewrite Hcopy in Hk. injection Hk as <-. exists (File c). by rewrite Hdst.
    - exists n. rewrite Hother1 by done. split; [done | apply FsFacts.same_kind_refl]. }
  step Hrun.
  2: { exfalso. unfold create_tensorboard_dir, bind, path_exists in Hstep.
       by rewrite Htb2 in Hstep. }
  unfold create_tensorboard_dir, bind, path_exists in Hstep.
  rewrite Htb2 in Hstep. injection Hstep as <- <-.
  split; [done |]. split; [by rewrite Hhk2, Hhk1 |].
  split; [rewrite Htr2, Htr1; by rewrite <- !app_assoc |].
  split; [rewrite Hother2 by done; exact Hdst |].
  split; [exact Hsum2 |].
  intros k Hk1 Hk2. by rewrite Hother2, Hother1.
Qed.

Lemma exists_dir (p : string) (fs0 : filesystem) :
  p <> "" -> Fs.node_at fs0 (OsPath.resolve p) = Some Dir -> Fs.exists_ p fs0 = true.
Proof.
  intros Hp Hnode. unfold Fs.exists_. by rewrite bool_decide_false, Hnode.
Qed.

Lemma tensorboard_path (checkpoint_dir : string) :
  OsPath.join checkpoint_dir "tensorboard/" <> "".
Proof.
  intros Hnil.
  pose proof (OsPathFacts.last_char_join checkpoint_dir "tensorboard/") as Hlast.
  rewrite Hnil in Hlast. by specialize (Hlast ltac:(done)).
Qed.

(** X9.  Without [--debug], a run that returned normally cannot be
    repeated: started again where the first one stopped, the script
    copies the configuration file and writes the summary again, and then
    stops on the [ValueError] of line 159 before any loss is built.  No
    node of the file system other than the copy of the configuration
    file is changed by the second run. *)
Theorem second_run_stops_at_tensorboard_dir (E : Env) (args : Args)
  (exp_config : TrainingConfig) (w w1 : world) :
  debug args = false ->
  main E args exp_config w = (inr tt, w1) ->
  let job := match suffix args with
             | Some s => job_name exp_config +:+ "*" +:+ s
             | None => job_name exp_config
             end in
  let checkpoint_dir := OsPath.join (make_dir_path E args) job in
  let config_copy := OsPath.join checkpoint_dir (job +:+ "_config.ini") in
  let summary_file := OsPath.join checkpoint_dir "summary.txt" in
  exists w2 c n m,
    main E args exp_config w1 = (inl (ValueError tensorboard_exists_msg), w2)
    /\ pick_architecture exp_config n = Some m
    /\ Fs.read_file (config args) (fs w1) = (inr c, fs w1)
    /\ trace w2
       = trace w1
         ++ [EPrint "Generated training generator";
             EPrint "Generated validation generator";
             EPrint "Loaded model";
             EPrint "Set up checkpointing";
             ECopyfile (config args) config_copy; EOpenW summary_file]
         ++ summary_writes summary_file (summary_lines E m)
    /\ Fs.node_at (fs w2) (OsPath.resolve config_copy) = Some (File c)
    /\ (forall k, k <> OsPath.resolve config_copy ->
                  Fs.node_at (fs w2) k = Fs.node_at (fs w1) k).
Proof.
  intros Hdebug Hmain job checkpoint_dir config_copy summary_file.
  assert ((make_job_name args exp_config w).1 = inr job) as Hjob
    by (by rewrite make_job_name_no_debug).
  pose proof (main_frame _ _ _ _ _ _ _ Hmain Hjob) as (Hgrows & _ & _).
  apply main_cases in Hmain.
  destruct (load_dataset E exp_config) as [[img_train img_val] |] eqn:Hload;
    [| by destruct Hmain].
  destruct (shape img_train !! 1%nat) as [n |] eqn:Hshape; [| by destruct Hmain].
  cbv zeta in Hmain.
  destruct (run_director _ _ _ _ _) as [[e | [[m cp_callback] tb_callback]] wB] eqn:Hdir;
    [by destruct Hmain |].
  apply run_director_ok in Hdir
    as (job' & wj & Hjob' & Hm & _ & _ & _ & _ & _ & _ & Htb & _
        & Hcd & (c0 & Hread0 & Hcopy) & Hkeys & Hsum).
  rewrite make_job_name_no_debug in Hjob' by done. injection Hjob' as <- <-.
  fold job checkpoint_dir in Htb, Hcd, Hcopy, Hkeys, Hsum.
  fold config_copy in Hcopy, Hkeys. fold summary_file in Hsum.
  apply train_cases in Hmain as (Hfs & _). rewrite <- Hfs in Htb, Hcd, Hcopy, Hsum.
  simpl in Hread0.
  (* the configuration file is still a regular file *)
  apply FsMore.read_file_ok in Hread0 as (Hsrc_ne & Hsrc_end & Hsrc).
  destruct (Hgrows _ _ Hsrc) as (n1 & Hsrc1 & Hkind).
  destruct n1 as [| c]; [done |].
  pose proof (FsMore.read_file_file _ _ _ Hsrc_ne Hsrc_end Hsrc1) as Hread1.
  pose proof (exists_dir _ _ (tensorboard_path checkpoint_dir) Htb) as Htb1.
  (* the second run *)
  destruct (main E args exp_config w1) as [r2 w2] eqn:Hmain2.
  apply main_cases in Hmain2. rewrite Hload, Hshape in Hmain2.
  cbv zeta in Hmain2. rewrite Hm in Hmain2.
  destruct (run_director_again E args exp_config m
              {| fs := fs w1;
                 trace := trace w1 ++ [EPrint "Generated training generator";
                                       EPrint "Generated validation generator";
                                       EPrint "Loaded model"];
                 exit_hooks := exit_hooks w1; rng := rng w1 |}
              c c0 (summary_text (summary_lines E m))
              Hdebug Hcd Hread1 Hkeys Hcopy Hsum Htb1)
    as (w' & Hrun2 & _ & Htr2 & Hcopy2 & Hsum2 & Hother2).
  fold job checkpoint_dir in Hrun2, Htr2, Hcopy2, Hsum2, Hother2.
  fold config_copy summary_file in Htr2, Hcopy2, Hsum2, Hother2.
  rewrite Hrun2 in Hmain2. destruct Hmain2 as [-> ->].
  exists w', c, n, m.
  split; [done |]. split; [done |]. split; [done |].
  split; [rewrite Htr2; simpl; by rewrite <- !app_assoc |].
  split; [done |].
  intros k Hk. destruct (decide (k = OsPath.resolve summary_file)) as [-> | Hk'].
  - by rewrite Hsum2, Hsum.
  - by apply Hother2.
Qed.

Lemma second_run_stops_at_tensorboard_dir_witness :
  let w1 := (main Sample.E Sample.args Sample.exp_config Sample.w0).2 in
  exists w2,
    main Sample.E Sample.args Sample.exp_config w1
    = (inl (ValueError tensorboard_exists_msg), w2)
    /\ Fs.node_at (fs w2) ["cfg.ini"%string] = Fs.node_at (fs w1) ["cfg.ini"%string].
Proof.
  intros w1.
  destruct (second_run_stops_at_tensorboard_dir Sample.E Sample.args
              Sample.exp_config Sample.w0 w1)
    as (w2 & c & n & m & Hmain & _ & _ & _ & _ & Hother).
  { reflexivity. }
  { vm_compute; reflexivity. }
  exists w2. split; [exact Hmain |]. apply Hother. discriminate.
Defined.

(** X10.  Without [--debug] and with no exit hook registered beforehand,
    a process only adds to the file system, whatever its outcome:
    nothing disappears and nothing changes kind, no exit hook is left
    registered and no random number is drawn.  Where the job name does
    not start with a separator and the checkpoint directory is spelled
    from the root without [.] and [..], every node outside the
    checkpoint directory (under a key spelled the same way) is what it
    was. *)
Theorem non_debug_process_only_adds (E : Env) (args : Args)
  (exp_config : TrainingConfig) (w : world) r wf :
  debug args = false ->
  exit_hooks w = [] ->
  run_process E args exp_config w = (r, wf) ->
  let job := match suffix args with
             | Some s => job_name exp_config +:+ "*" +:+ s
             | None => job_name exp_config
             end in
  let checkpoint_dir := OsPath.join (make_dir_path E args) job in
  Fs.grows (fs w) (fs wf)
  /\ (OsPath.startswith_sep job = false ->
      canonical (OsPath.resolve checkpoint_dir) = true ->
      forall k n,
        canonical k = true -> ~ under (OsPath.resolve checkpoint_dir) k ->
        Fs.node_at (fs w) k = Some n -> Fs.node_at (fs wf) k = Some n)
  /\ exit_hooks wf = []
  /\ rng wf = rng w
  /\ r = (main E args exp_config w).1.
Proof.
  intros Hdebug Hhooks Hrun job checkpoint_dir.
  unfold run_process in Hrun.
  destruct (main E args exp_config w) as [r' w'] eqn:Hmain.
  injection Hrun as <- <-.
  assert ((make_job_name args exp_config w).1 = inr job) as Hjob
    by (by rewrite make_job_name_no_debug).
  pose proof (main_frame _ _ _ _ _ _ _ Hmain Hjob) as (Hgrows & Hother & Hrest).
  destruct (Hrest Hdebug) as [Hhk Hrng].
  rewrite Hhk, Hhooks. simpl.
  split; [done |]. split; [| split; [congruence | done]].
  intros Hstart _ k n _ Hk. apply Hother.
  - intros ->. apply Hk. by apply config_copy_under.
  - intros ->. apply Hk. apply summary_under.
Qed.

Lemma non_debug_process_only_adds_witness :
  let w := sample_beside_old_run in
  let wf := (run_process Sample.E Sample.args Sample.exp_config w).2 in
  Fs.grows (fs w) (fs wf)
  /\ Fs.node_at (fs wf) ["/"; "data"; "training"; "old_run"; "weights"]%string
     = Some (File "W")
  /\ rng wf = rng w.
Proof.
  intros w wf.
  destruct (non_debug_process_only_adds Sample.E Sample.args Sample.exp_config
              w (run_process Sample.E Sample.args Sample.exp_config w).1 wf)
    as (Hgrows & Hother & _ & Hrng & _).
  { reflexivity. }
  { reflexivity. }
  { by destruct (run_process _ _ _ _). }
  split; [exact Hgrows |]. split; [| exact Hrng].
  apply Hother; [reflexivity | reflexivity | reflexivity | | reflexivity].
  intros [l Hl]. vm_compute in Hl. discriminate Hl.
Defined.

(** X11.  An unknown loss type is found late.  The script then never
    returns normally; and when it stops on the [ValueError] of line 172
    the whole run directory has been set up: the trace is that of a
    complete run director, the tensorboard directory exists, and in
    debug mode the clean-up hook is registered. *)
Theorem unknown_loss_type_detected_after_setup (E : Env) (args : Args)
  (exp_config : TrainingConfig) (w : world) r w' (job : string) :
  loss_type exp_config <> "image" ->
  loss_type exp_config <> "freq" ->
  main E args exp_config w = (r, w') ->
  (make_job_name args exp_config w).1 = inr job ->
  let checkpoint_dir := OsPath.join (make_dir_path E args) job in
  let config_copy := OsPath.join checkpoint_dir (job +:+ "_config.ini") in
  let summary_file := OsPath.join checkpoint_dir "summary.txt" in
  let tb_dir := OsPath.join checkpoint_dir "tensorboard/" in
  r <> inr tt
  /\ (r = inl (ValueError "Unrecognized loss type.") ->
      exists n m,
        pick_architecture exp_config n = Some m
        /\ trace w'
           = trace w
             ++ [EPrint "Generated training generator";
                 EPrint "Generated validation generator";
                 EPrint "Loaded model"]
             ++ (if Fs.exists_ checkpoint_dir (fs w) then []
                 else [EMakedirs checkpoint_dir])
             ++ [EPrint "Set up checkpointing"]
             ++ (if debug args then [EAtexit (del_logs checkpoint_dir)] else [])
             ++ [ECopyfile (config args) config_copy; EOpenW summary_file]
             ++ summary_writes summary_file (summary_lines E m)
             ++ [EMakedirs tb_dir]
        /\ Fs.node_at (fs w') (OsPath.resolve tb_dir) = Some Dir
        /\ exit_hooks w'
           = exit_hooks w ++ (if debug args then [del_logs checkpoint_dir] else [])).
Proof.
  intros Himage Hfreq Hmain Hjob checkpoint_dir config_copy summary_file tb_dir.
  apply main_cases in Hmain.
  destruct (load_dataset E exp_config) as [[img_train img_val] |] eqn:Hload;
    [| by destruct Hmain as [-> _]].
  destruct (shape img_train !! 1%nat) as [n |] eqn:Hshape;
    [| by destruct Hmain as [-> _]].
  cbv zeta in Hmain.
  destruct (run_director _ _ _ _ _) as [[e | [[m cp_callback] tb_callback]] wB] eqn:Hdir.
  { destruct Hmain as [-> ->]. split; [done |]. intros [= ->].
    by destruct (run_director_raises _ _ _ _ _ _ _ Hdir) as [? | [? | [? _]]]. }
  apply run_director_ok in Hdir
    as (job' & wj & Hjob' & Hm & _ & _ & _ & Hhk & Htr & _ & Htb & _).
  pose proof (job_at_start _ _ w _ _ job job' Hjob' Hjob eq_refl) as ->.
  fold checkpoint_dir in Hhk, Htr, Htb. fold config_copy summary_file tb_dir in Htr.
  fold tb_dir in Htb. simpl in Hhk, Htr.
  apply train_cases in Hmain
    as (Hfs & Hhk' & _ & [(_ & _ & -> & Htr') | (used_loss & Hsel & _)]).
  2: { exfalso. destruct (select_loss_cases exp_config wB)
         as [(_ & _ & Hraise) | (? & [? | ?] & _)]; [| done | done].
       by rewrite Hraise in Hsel. }
  split; [done |]. intros _. exists n, m.
  split; [done |].
  split; [rewrite Htr', Htr; by rewrite <- !app_assoc |].
  split; [by rewrite Hfs |]. by rewrite Hhk'.
Qed.

Lemma unknown_loss_type_detected_after_setup_witness :
  let cfg := Sample.with_loss_type "other" Sample.exp_config in
  let w' := (main Sample.E Sample.args cfg Sample.w0).2 in
  Fs.node_at (fs w') ["/"; "data"; "training"; "run1*trial1"; "tensorboard"]%string
  = Some Dir
  /\ exit_hooks w' = [].
Proof.
  intros cfg w'.
  destruct (unknown_loss_type_detected_after_setup Sample.E Sample.args cfg
              Sample.w0 (inl (ValueError "Unrecognized loss type.")) w' "run1*trial1")
    as (_ & Hlate).
  { discriminate. }
  { discriminate. }
  { vm_compute; reflexivity. }
  { reflexivity. }
  destruct (Hlate eq_refl) as (n & m & _ & _ & Htb & Hhk).
  split; [exact Htb | exact Hhk].
Defined.

Ltac step_raise H :=
  match type of H with
  | bind ?comp ?cont ?state = _ =>
      let Hstep := fresh "Hstep" in
      unfold bind at 1 in H;
      destruct (comp state) as [[?e | ?a] ?w] eqn:Hstep;
      [injection H as -> ->
      | cbv beta in H; repeat match goal with u : unit |- _ => destruct u end]
  end.

(** A run director that stops on the [NameError] of line 154 has copied
    the configuration file and left [summary.txt] open and empty. *)
Lemma run_director_name_error (E : Env) (args : Args) (exp_config : TrainingConfig)
  (model_var : option model) (w : world) w' :
  run_director E args exp_config model_var w = (inl (NameError "model"), w') ->
  exists job wj,
    make_job_name args exp_config w = (inr job, wj) /\
    let checkpoint_dir := OsPath.join (make_dir_path E args) job in
    let config_copy := OsPath.join checkpoint_dir (job +:+ "_config.ini") in
    let summary_file := OsPath.join checkpoint_dir "summary.txt" in
    model_var = None
    /\ exit_hooks w'
       = exit_hooks w ++ (if debug args then [del_logs checkpoint_dir] else [])
    /\ trace w'
       = trace w
         ++ (if Fs.exists_ checkpoint_dir (fs w) then [] else [EMakedirs checkpoint_dir])
         ++ [EPrint "Set up checkpointing"]
         ++ (if debug args then [EAtexit (del_logs checkpoint_dir)] else [])
         ++ [ECopyfile (config args) config_copy; EOpenW summary_file]
    /\ Fs.exists_ checkpoint_dir (fs w') = true
    /\ (exists c,
          Fs.read_file (config args) (fs w) = (inr c, fs w)
          /\ Fs.node_at (fs w') (OsPath.resolve config_copy) = Some (File c))
    /\ Fs.node_at (fs w') (OsPath.resolve summary_file) = Some (File "").
Proof.
  intros Hrun. unfold run_director in Hrun.
  step_raise Hrun.
  { by apply make_job_name_inv in Hstep as ([job Hjob] & _). }
  rename a into job, w0 into wj. exists job, wj. split; [done |].
  apply make_job_name_world in Hstep as (Hfs1 & Htr1 & Hhk1 & _).
  intros checkpoint_dir config_copy summary_file.
  fold checkpoint_dir in Hrun. fold config_copy summary_file in Hrun.
  (* checkpoint directory *)
  step_raise Hrun.
  { by apply create_checkpoint_dir_inv in Hstep as (_ & _ & _ & _ & Hos). }
  apply create_checkpoint_dir_inv in Hstep as (Hhk2 & Hpres2 & Hfiles2 & Htr2 & Hex2).
  rewrite Hfs1 in Hpres2, Hfiles2, Htr2. rewrite Htr1 in Htr2. rewrite Hhk1 in Hhk2.
  (* print, atexit *)
  step_raise Hrun; [done |]. injection Hstep as <-.
  step_raise Hrun; [by destruct (debug args) |].
  assert (fs w1 = fs w0
          /\ exit_hooks w1
             = exit_hooks w ++ (if debug args then [del_logs checkpoint_dir] else [])
          /\ trace w1
             = (trace w0 ++ [EPrint "Set up checkpointing"])
               ++ (if debug args then [EAtexit (del_logs checkpoint_dir)] else []))
    as (Hfs3 & Hhk3 & Htr3).
  { destruct (debug args); injection Hstep as <-; simpl;
      rewrite ?app_nil_r; by rewrite Hhk2. }
  clear Hstep.
  (* copy of the configuration file *)
  step_raise Hrun.
  { unfold copyfile in Hstep. apply fs_call_inv in Hstep as (Hcp & _).
    by apply FsFacts.copyfile_raises in Hcp. }
  unfold copyfile in Hstep. apply fs_call_inv in Hstep as (Hcp & Hhk4 & _ & Htr4).
  rewrite Hfs3 in Hcp.
  pose proof (FsMore.copyfile_ok _ _ _ _ Hcp) as ([c Hread] & _).
  pose proof (FsFacts.copyfile_grows _ _ _ _ _ Hcp) as Hgrows4.
  apply FsFacts.copyfile_inv in Hcp as (c' & Hsrc & Hdst & _).
  apply FsMore.read_file_ok in Hread as (Hsrc_ne & Hsrc_end & Hsrc').
  rewrite Hsrc' in Hsrc. injection Hsrc as <-.
  (* summary *)
  step_raise Hrun.
  2: { step_raise Hrun; [| done].
       apply create_tensorboard_dir_inv in Hstep0 as (_ & _ & [(? & _) | Hos]); done. }
  unfold write_summary in Hstep. step_raise Hstep.
  { unfold open_w in Hstep0. apply fs_call_inv in Hstep0 as (Hopen & _).
    by apply FsFacts.open_w_raises in Hopen. }
  unfold open_w in Hstep0. apply fs_call_inv in Hstep0 as (Hopen & Hhk5 & _ & Htr5).
  pose proof (FsFacts.open_w_grows _ _ _ _ Hopen) as Hgrows5.
  apply FsFacts.open_w_inv in Hopen as [Hroot Hfs5].
  destruct model_var as [m |]; simpl in Hstep.
  { step_raise Hstep; [done |]. injection Hstep0 as <- <-.
    step_raise Hstep; [| done]. by apply write_lines_inv in Hstep0 as [? _]. }
  injection Hstep as <-.
  split; [done |]. split; [congruence |].
  split.
  { rewrite Htr5, Htr4, Htr3, Htr2. simpl. by rewrite <- !app_assoc. }
  split.
  { eapply FsFacts.exists_grows; [| exact Hex2].
    by eapply FsFacts.grows_trans. }
  split.
  { exists c. split.
    - apply FsMore.read_file_file; [done | done |]. by apply Hfiles2.
    - rewrite Hfs5. rewrite FsFacts.node_at_insert_ne; [done |].
      apply not_eq_sym, config_copy_ne_summary. }
  rewrite Hfs5. unfold Fs.node_at. rewrite Hroot. apply lookup_insert_eq.
Qed.

(** X12.  An unknown architecture is found at line 154 only.  The script
    then never returns normally; and when it stops on the [NameError]
    for [model], the three progress messages have been printed
    (["Loaded model"] among them), the checkpoint directory exists, the
    configuration file has been copied into it, and [summary.txt] has
    been opened for writing and is empty, whatever it held before. *)
Theorem unknown_architecture_detected_at_summary (E : Env) (args : Args)
  (exp_config : TrainingConfig) (w : world) r w' (job : string) :
  architecture exp_config <> "CONV" ->
  architecture exp_config <> "CONV_RESIDUAL" ->
  architecture exp_config <> "INTERLACER_RESIDUAL" ->
  main E args exp_config w = (r, w') ->
  (make_job_name args exp_config w).1 = inr job ->
  let checkpoint_dir := OsPath.join (make_dir_path E args) job in
  let config_copy := OsPath.join checkpoint_dir (job +:+ "_config.ini") in
  let summary_file := OsPath.join checkpoint_dir "summary.txt" in
  r <> inr tt
  /\ (r = inl (NameError "model") ->
      trace w'
      = trace w
        ++ [EPrint "Generated training generator";
            EPrint "Generated validation generator";
            EPrint "Loaded model"]
        ++ (if Fs.exists_ checkpoint_dir (fs w) then [] else [EMakedirs checkpoint_dir])
        ++ [EPrint "Set up checkpointing"]
        ++ (if debug args then [EAtexit (del_logs checkpoint_dir)] else [])
        ++ [ECopyfile (config args) config_copy; EOpenW summary_file]
      /\ Fs.exists_ checkpoint_dir (fs w') = true
      /\ (exists c,
            Fs.read_file (config args) (fs w) = (inr c, fs w)
            /\ Fs.node_at (fs w') (OsPath.resolve config_copy) = Some (File c))
      /\ Fs.node_at (fs w') (OsPath.resolve summary_file) = Some (File "")).
Proof.
  intros H1 H2 H3 Hmain Hjob checkpoint_dir config_copy summary_file.
  apply main_cases in Hmain.
  destruct (load_dataset E exp_config) as [[img_train img_val] |] eqn:Hload;
    [| by destruct Hmain as [-> _]].
  destruct (shape img_train !! 1%nat) as [n |] eqn:Hshape;
    [| by destruct Hmain as [-> _]].
  cbv zeta in Hmain.
  assert (pick_architecture exp_config n = None) as Hnone.
  { unfold pick_architecture. apply String.eqb_neq in H1, H2, H3.
    by rewrite H1, H2, H3. }
  rewrite Hnone in Hmain.
  destruct (run_director _ _ _ _ _) as [[e | [[m cp_callback] tb_callback]] wB] eqn:Hdir.
  2: { by apply run_director_ok in Hdir as (? & ? & _ & ? & _). }
  destruct Hmain as [-> ->]. split; [done |]. intros [= ->].
  apply run_director_name_error in Hdir
    as (job' & wj & Hjob' & _ & _ & Htr & Hcd & Hcopy & Hsum).
  pose proof (job_at_start _ _ w _ _ job job' Hjob' Hjob eq_refl) as ->.
  simpl in Htr, Hcd, Hcopy. rewrite <- app_assoc in Htr.
  split; [exact Htr |]. split; [exact Hcd |]. split; [exact Hcopy | exact Hsum].
Qed.

Lemma unknown_architecture_detected_at_summary_witness :
  let cfg := Sample.with_architecture "UNET" Sample.exp_config in
  let w' := (main Sample.E Sample.args cfg Sample.w0).2 in
  Fs.node_at (fs w')
    ["/"; "data"; "training"; "run1*trial1"; "summary.txt"]%string
  = Some (File "")
  /\ Fs.exists_ "/data/training/run1*trial1" (fs w') = true.
Proof.
  intros cfg w'.
  destruct (unknown_architecture_detected_at_summary Sample.E Sample.args cfg
              Sample.w0 (inl (NameError "model")) w' "run1*trial1")
    as (_ & Hlate).
  { discriminate. }
  { discriminate. }
  { discriminate. }
  { vm_compute; reflexivity. }
  { reflexivity. }
  destruct (Hlate eq_refl) as (_ & Hcd & _ & Hsum).
  split; [exact Hsum | exact Hcd].
Defined.
